(** * PyMVPA [mvpa2/datasets/mri.py]: MRI data IO

    A shallow embedding of the module that imports NiBabel images into
    PyMVPA datasets ([fmri_dataset]) and exports datasets back into
    images ([map2nifti]), with the properties its specification states.

    Layout of the development:
    - Python values and exceptions;
    - the part of NumPy the module calls (row-major arrays, [reshape],
      [rollaxis], [vstack]);
    - the part of NiBabel the module calls (header and image classes,
      the package namespace, [load]) and the store of mutable objects;
    - the dataset container, the flatten mapper and the attribute
      expansion helper of PyMVPA;
    - computations with a store and exceptions, and the functions of
      [mri.py];
    - concrete objects for the examples and the notions the statements
      use;
    - the properties. *)

From Stdlib Require Import ZArith List Lia Bool.
From Stdlib Require Import Floats.PrimFloat.
From stdpp Require Import base option list gmap strings fin_maps relations.

Open Scope string_scope.
Open Scope list_scope.
Open Scope Z_scope.
Open Scope nat_scope.

(* ================================================================== *)
(** ** Python values and exceptions *)

(** Scalars and small sequences as they occur in image headers and in
    dataset attributes.  A NumPy scalar or 0-d array is its Python
    scalar; a tuple, list or 1-d array is a [VSeq]. *)
#[local] Unset Elimination Schemes.
Inductive value :=
| VNone
| VInt (z : Z)
| VFloat (f : float)
| VStr (s : string)
| VSeq (l : list value).
#[local] Set Elimination Schemes.

(** [str(v) == 'nan']: true of a floating-point NaN and of the string
    ['nan'] itself. *)
Definition str_is_nan (v : value) : bool :=
  match v with
  | VFloat f => PrimFloat.is_nan f
  | VStr s => bool_decide (s = "nan")
  | _ => false
  end.

(** The exception classes that the module raises or lets through.
    [SystemError] stands for a reference to an object that is not in
    the store, which no Python program can hold. *)
Inductive exn :=
| ValueError
| TypeError
| AttributeError
| KeyError
| IndexError
| IOError
| SystemError.

Inductive outcome (X : Type) :=
| Ok (x : X)
| Raise (e : exn).
Arguments Ok {X} x.
Arguments Raise {X} e.

Definition obind {X Y} (m : outcome X) (k : X -> outcome Y) : outcome Y :=
  match m with
  | Ok x => k x
  | Raise e => Raise e
  end.

Notation "'let+' x := m 'in' k" := (obind m (fun x => k))
  (at level 10, x name, m at level 100, k at level 200).

(* ================================================================== *)
(** ** NumPy arrays *)

(** An n-dimensional array: its shape and its elements in C (row-major)
    index order.  This is the logical content of an [ndarray]; memory
    layout and strides of views are not represented. *)
Record ndarray (A : Type) := NdArray { shape : list nat; data : list A }.
Arguments NdArray {A} shape data.
Arguments shape {A} n.
Arguments data {A} n.

(** Number of elements of an array of the given shape. *)
Fixpoint size_of (sh : list nat) : nat :=
  match sh with
  | [] => 1
  | d :: rest => d * size_of rest
  end.

Definition wf_array {A} (a : ndarray A) : Prop :=
  length (data a) = size_of (shape a).

(** Row-major strides, in elements. *)
Fixpoint strides (sh : list nat) : list nat :=
  match sh with
  | [] => []
  | _ :: rest => size_of rest :: strides rest
  end.

(** Flat offset of a multi-index under the given strides. *)
Fixpoint dot (idx st : list nat) : nat :=
  match idx, st with
  | i :: idx', s :: st' => i * s + dot idx' st'
  | _, _ => 0
  end.

Definition ravel (sh idx : list nat) : nat := dot idx (strides sh).

(** Multi-index of a flat row-major offset. *)
Fixpoint unravel (sh : list nat) (i : nat) : list nat :=
  match sh with
  | [] => []
  | d :: rest => (i / size_of rest) mod d :: unravel rest i
  end.

(** [a.transpose(axes)]: axis [j] of the result is axis [axes[j]] of
    [a]. *)
Definition np_transpose {A} (axes : list nat) (a : ndarray A) : ndarray A :=
  let newshape := map (fun ax => nth ax (shape a) 0) axes in
  let st := map (fun ax => nth ax (strides (shape a)) 0) axes in
  NdArray newshape
    (omap (fun i => data a !! dot (unravel newshape i) st)
          (seq 0 (size_of newshape))).

(** [numpy.core.multiarray.normalize_axis_index]. *)
Definition normalize_axis_index (axis : Z) (n : nat) : outcome nat :=
  if ((- Z.of_nat n <=? axis) && (axis <? Z.of_nat n))%Z
  then Ok (Z.to_nat (if (axis <? 0)%Z then axis + Z.of_nat n else axis)%Z)
  else Raise ValueError.

(** [axes.insert(start, axis)] on a Python list. *)
Definition list_insert_at {X} (i : nat) (x : X) (l : list X) : list X :=
  take i l ++ x :: drop i l.

(** [np.rollaxis(a, axis, start)]: roll [axis] backwards until it lies
    before position [start]; the other axes keep their relative
    order. *)
Definition np_rollaxis {A} (a : ndarray A) (axis start : Z)
  : outcome (ndarray A) :=
  let n := length (shape a) in
  let+ axis := normalize_axis_index axis n in
  let start := (if start <? 0 then start + Z.of_nat n else start)%Z in
  if negb ((0 <=? start) && (start <? Z.of_nat n + 1))%Z
  then Raise ValueError
  else
    let start := (if Z.of_nat axis <? start then start - 1 else start)%Z in
    if (Z.of_nat axis =? start)%Z then Ok a
    else
      let axes := filter (fun k => k <> axis) (seq 0 n) in
      Ok (np_transpose (list_insert_at (Z.to_nat start) axis axes) a).

(** [np.reshape(a, newshape)] in C order: the element sequence is kept;
    a [ValueError] when the sizes differ. *)
Definition np_reshape {A} (a : ndarray A) (newshape : list nat)
  : outcome (ndarray A) :=
  if bool_decide (size_of newshape = length (data a))
  then Ok (NdArray newshape (data a))
  else Raise ValueError.

(** [np.atleast_2d] on one array. *)
Definition np_atleast_2d {A} (a : ndarray A) : ndarray A :=
  match shape a with
  | [] => NdArray [1; 1] (data a)
  | [n] => NdArray [1; n] (data a)
  | _ => a
  end.

(** [np.vstack(arrays)]: concatenation along the first axis of arrays
    that agree on all other axes. *)
Definition np_vstack {A} (arrs : list (ndarray A)) : outcome (ndarray A) :=
  match map np_atleast_2d arrs with
  | [] => Raise ValueError
  | a0 :: rest =>
      if forallb (fun b => bool_decide (tail (shape b) = tail (shape a0))) rest
      then Ok (NdArray (sum_list (map (fun b => hd 0 (shape b)) (a0 :: rest))
                          :: tail (shape a0))
                 (concat (map data (a0 :: rest))))
      else Raise ValueError
  end.

(** [arr.max()] and [arr.min()]; NumPy raises [ValueError] on an empty
    array. *)
Definition np_reduce {A} (f : A -> A -> A) (a : ndarray A) : outcome A :=
  match data a with
  | [] => Raise ValueError
  | x :: xs => Ok (fold_left f xs x)
  end.

(** The element type of an array, with the operations the module needs
    of it. *)
Class Dtype (A : Type) := {
  dzero : A;
  dnonzero : A -> bool;
  dmax : A -> A -> A;
  dmin : A -> A -> A;
  dvalue : A -> value;
}.

#[export] Instance Z_dtype : Dtype Z := {|
  dzero := 0%Z;
  dnonzero z := negb (z =? 0)%Z;
  dmax := Z.max;
  dmin := Z.min;
  dvalue := VInt;
|}.

(* ================================================================== *)
(** ** NiBabel: header classes, image classes, images *)

(** Objects that can be mutated in place live in the store and are
    referred to by their address. *)
Abbreviation loc := nat (only parsing).

(** A header class: its name, whether its instances are mapping-like
    ([dict(hdr)], [k in hdr], [hdr[k] = v]), the fields of a freshly
    constructed instance, and the accessors the module calls.  An
    accessor that some header classes lack is optional. *)
Record hdrclass := HdrClass {
  hc_name : string;
  hc_mapping : bool;
  hc_defaults : gmap string value;
  hc_get_zooms : gmap string value -> list float;
  hc_set_data_shape : list nat -> gmap string value -> gmap string value;
  hc_get_best_affine : option (gmap string value -> value);
  hc_get_data_dtype : bool;
}.

(** A header instance. *)
Record header := Header {
  hdr_class : hdrclass;
  hdr_fields : gmap string value;
}.

(** An image class; [ic_spatial] says whether it derives from
    [nibabel.spatialimages.SpatialImage]. *)
Record imgclass := ImgClass {
  ic_name : string;
  ic_spatial : bool;
  ic_header_class : hdrclass;
}.

(** An image instance: [get_data()] returns the array object at
    [img_dataobj], [header] the header object at [img_header]. *)
Record image := Image {
  img_class : imgclass;
  img_dataobj : loc;
  img_header : loc;
  img_affine : value;
}.

(** What an attribute of the [nibabel] package, or any other Python
    object used where a class is expected, can be. *)
Inductive pyobj :=
| OImgClass (c : imgclass)
| OHdrClass (c : hdrclass)
| OOther.

(** The content of an image file, as [nibabel.load] decodes it. *)
Record imgfile (A : Type) := ImgFile {
  if_class : imgclass;
  if_data : ndarray A;
  if_fields : gmap string value;
  if_affine : value;
}.
Arguments ImgFile {A}.
Arguments if_class {A}.
Arguments if_data {A}.
Arguments if_fields {A}.
Arguments if_affine {A}.

(** The surroundings of the module: the namespace of the [nibabel]
    package ([getattr(nibabel, name)]), the files [nibabel.load] can
    decode, and the interpreter's [__debug__] flag. *)
Record environment (A : Type) := Environment {
  nib_namespace : string -> option pyobj;
  nib_files : string -> option (imgfile A);
  py_debug : bool;
}.
Arguments Environment {A}.
Arguments nib_namespace {A}.
Arguments nib_files {A}.
Arguments py_debug {A}.

(** The store: array objects, header objects, and the warnings issued
    so far (latest last).  The module never writes an array element,
    so arrays that share a buffer are kept by value; what it does
    mutate is the [shape] attribute of an array object and the fields
    of a header object. *)
Record store (A : Type) := Store {
  arrays : list (ndarray A);
  headers : list header;
  warnings : list string;
}.
Arguments Store {A}.
Arguments arrays {A}.
Arguments headers {A}.
Arguments warnings {A}.

(** A source of image data as the loader accepts it: [None], a file
    name, an image instance, a list or tuple of sources, or any other
    object (here: a bare array). *)
#[local] Unset Elimination Schemes.
Inductive source (A : Type) :=
| SNone
| SStr (path : string)
| SImg (img : image)
| SList (l : list (source A))
| SArray (arr : ndarray A).
#[local] Set Elimination Schemes.
Arguments SNone {A}.
Arguments SStr {A}.
Arguments SImg {A}.
Arguments SList {A}.
Arguments SArray {A}.

(* ================================================================== *)
(** ** PyMVPA: mapper, dataset, attribute expansion *)

(** Modelled from the spec: the spatial flattening transform
    ([mvpa2.mappers.flatten.FlattenMapper], section 6), constructed with
    a target spatial shape and an output attribute name.  After a
    column selection of the dataset the mapper also carries the boolean
    selection ([mp_slice]), which [forward1] applies after flattening
    and the reverse operations undo by filling the unselected features
    with zero. *)
Record mapper := Mapper {
  mp_shape : list nat;
  mp_space : option string;
  mp_slice : option (list bool);
}.

(** A feature attribute: per-feature voxel indices, or per-feature
    values of an additional volume. *)
Inductive fattr (A : Type) :=
| FIndices (l : list (list nat))
| FValues (l : list A).
Arguments FIndices {A}.
Arguments FValues {A}.

(** A dataset attribute (an item of [ds.a]). *)
Inductive attr :=
| AStr (s : string)
| AType (c : imgclass)
| AHeader (l : loc)
| ADict (kv : gmap string value)
| AValue (v : value)
| AShape (s : list nat)
| AMapper (m : mapper).

(** Modelled from the spec: the dataset container
    ([mvpa2.datasets.base.Dataset], sections 3 and 6): a samples matrix
    and the three attribute collections [sa], [fa] and [a]. *)
Record Dataset (A : Type) := MkDataset {
  ds_samples : ndarray A;
  ds_sa : gmap string (list value);
  ds_fa : gmap string (fattr A);
  ds_a : gmap string attr;
}.
Arguments MkDataset {A}.
Arguments ds_samples {A}.
Arguments ds_sa {A}.
Arguments ds_fa {A}.
Arguments ds_a {A}.

(** Modelled from the spec: the attribute-expansion helper
    ([mvpa2.base.dataset._expand_attribute], section 6):
    [expand(value_or_sequence, length, name)] broadcasts a scalar and
    fails if a given sequence's length does not match. *)
Definition _expand_attribute (attr : value) (length_ : nat) (attr_name : string)
  : outcome (list value) :=
  match attr with
  | VSeq l => if bool_decide (length l = length_) then Ok l else Raise ValueError
  | v => Ok (replicate length_ v)
  end.

(** [l[mask]] for a boolean mask: the elements at the true positions
    (the mask must be as long as the list, see [select_columns]). *)
Fixpoint compress {X} (mask : list bool) (l : list X) : list X :=
  match mask, l with
  | true :: m, x :: l' => x :: compress m l'
  | false :: m, _ :: l' => compress m l'
  | _, _ => []
  end.

(** The inverse of [compress]: put the elements back at the true
    positions and [z] everywhere else. *)
Fixpoint expand {X} (z : X) (mask : list bool) (l : list X) : list X :=
  match mask with
  | [] => []
  | true :: m => hd z l :: expand z m (tail l)
  | false :: m => z :: expand z m l
  end.

(** The [n] rows of [k] elements each of a row-major matrix. *)
Fixpoint rows {X} (n k : nat) (l : list X) : list (list X) :=
  match n with
  | 0 => []
  | S n' => take k l :: rows n' k (drop k l)
  end.

Definition count_true (mask : list bool) : nat :=
  length (filter (fun b => b = true) mask).

(** [float(i)] for a small natural number, as [np.arange] produces
    it. *)
Fixpoint float_of_nat (i : nat) : float :=
  match i with
  | 0 => 0%float
  | S j => (float_of_nat j + 1)%float
  end.

(* ================================================================== *)
(** ** Computations: store passing with exceptions *)

(** A computation takes the store and returns a value or raises, with
    the store as it is at that point: effects performed before an
    exception stay. *)
Definition M (A X : Type) : Type := store A -> outcome X * store A.

Definition ret {A X} (x : X) : M A X := fun st => (Ok x, st).

Definition raise {A X} (e : exn) : M A X := fun st => (Raise e, st).

Definition bind {A X Y} (m : M A X) (k : X -> M A Y) : M A Y :=
  fun st =>
    match m st with
    | (Ok x, st') => k x st'
    | (Raise e, st') => (Raise e, st')
    end.

Notation "'let*' x := m 'in' k" := (bind m (fun x => k))
  (at level 10, x name, m at level 100, k at level 200).
Notation "'let*' ' p := m 'in' k" := (bind m (fun x => match x with p => k end))
  (at level 10, p pattern, m at level 100, k at level 200).

Definition liftO {A X} (o : outcome X) : M A X := fun st => (o, st).

(** [try: m  except <classes>: handler]. *)
Definition try_except {A X} (m : M A X) (catches : exn -> bool) (handler : M A X)
  : M A X :=
  fun st =>
    match m st with
    | (Ok x, st') => (Ok x, st')
    | (Raise e, st') => if catches e then handler st' else (Raise e, st')
    end.

(** [for x in l: body x]. *)
Fixpoint for_each {A X} (l : list X) (body : X -> M A unit) : M A unit :=
  match l with
  | [] => ret tt
  | x :: l' => let* _ := body x in for_each l' body
  end.

(** [[body x for x in l]]. *)
Definition for_list {A X Y} (l : list X) (body : X -> M A Y) : M A (list Y) :=
  (fix each (l : list X) : M A (list Y) :=
     match l with
     | [] => ret []
     | x :: l' =>
         let* y := body x in
         let* ys := each l' in
         ret (y :: ys)
     end) l.

Definition get_arr {A} (l : loc) : M A (ndarray A) :=
  fun st =>
    match arrays st !! l with
    | Some a => (Ok a, st)
    | None => (Raise SystemError, st)
    end.

Definition alloc_arr {A} (a : ndarray A) : M A loc :=
  fun st => (Ok (length (arrays st)),
             Store (arrays st ++ [a]) (headers st) (warnings st)).

Definition put_arr {A} (l : loc) (a : ndarray A) : M A unit :=
  fun st => (Ok tt, Store (<[l := a]> (arrays st)) (headers st) (warnings st)).

Definition get_hdr {A} (l : loc) : M A header :=
  fun st =>
    match headers st !! l with
    | Some h => (Ok h, st)
    | None => (Raise SystemError, st)
    end.

Definition alloc_hdr {A} (h : header) : M A loc :=
  fun st => (Ok (length (headers st)),
             Store (arrays st) (headers st ++ [h]) (warnings st)).

Definition put_hdr {A} (l : loc) (h : header) : M A unit :=
  fun st => (Ok tt, Store (arrays st) (<[l := h]> (headers st)) (warnings st)).

(** [mvpa2.base.warning(msg)]. *)
Definition warning {A} (msg : string) : M A unit :=
  fun st => (Ok tt, Store (arrays st) (headers st) (warnings st ++ [msg])).

(** [arr.shape = newshape]: the array object is reshaped in place. *)
Definition set_shape {A} (l : loc) (newshape : list nat) : M A unit :=
  let* a := get_arr l in
  let* a' := liftO (np_reshape a newshape) in
  put_arr l a'.

(** [dict(hdr)]. *)
Definition py_dict (h : header) : outcome (gmap string value) :=
  if hc_mapping (hdr_class h) then Ok (hdr_fields h) else Raise TypeError.

(** [k in hdr] for a header instance. *)
Definition hdr_contains {A} (l : loc) (k : string) : M A bool :=
  let* h := get_hdr l in
  let* kv := liftO (py_dict h) in
  ret (bool_decide (is_Some (kv !! k))).

(** [hdr[k] = v]. *)
Definition hdr_setitem {A} (l : loc) (k : string) (v : value) : M A unit :=
  let* h := get_hdr l in
  if hc_mapping (hdr_class h)
  then put_hdr l (Header (hdr_class h) (<[k := v]> (hdr_fields h)))
  else raise TypeError.

(** [hdr.set_data_shape(shape)]. *)
Definition hdr_set_data_shape {A} (l : loc) (sh : list nat) : M A unit :=
  let* h := get_hdr l in
  put_hdr l (Header (hdr_class h)
               (hc_set_data_shape (hdr_class h) sh (hdr_fields h))).

(** [hdr.get_zooms()]. *)
Definition hdr_get_zooms {A} (l : loc) : M A (list float) :=
  let* h := get_hdr l in
  ret (hc_get_zooms (hdr_class h) (hdr_fields h)).

(** [img.shape]. *)
Definition img_shape {A} (img : image) : M A (list nat) :=
  let* a := get_arr (img_dataobj img) in
  ret (shape a).

(** [cls()] for an object taken from the package namespace: a header
    class constructs an instance with its default fields; an image
    class needs arguments and anything else is not such a
    constructor. *)
Definition construct_header {A} (o : pyobj) : M A loc :=
  match o with
  | OHdrClass c => alloc_hdr (Header c (hc_defaults c))
  | _ => raise TypeError
  end.

(** [imgtype(data, None, header)]: the image keeps a copy of the header
    it is given, or a fresh header of its class for [None]; with no
    explicit affine the header's best affine is used. *)
Definition construct_image {A} (c : imgclass) (dataobj : loc) (hdr : option loc)
  : M A image :=
  let* h := match hdr with
            | Some l => get_hdr l
            | None => ret (Header (ic_header_class c)
                             (hc_defaults (ic_header_class c)))
            end in
  let* l := alloc_hdr h in
  ret (Image c dataobj l
         (match hc_get_best_affine (hdr_class h) with
          | Some f => f (hdr_fields h)
          | None => VNone
          end)).

(** [issubclass(o, nibabel.spatialimages.SpatialImage)]. *)
Definition issubclass_spatial (o : pyobj) : outcome bool :=
  match o with
  | OImgClass c => Ok (ic_spatial c)
  | OHdrClass _ => Ok false
  | OOther => Raise TypeError
  end.

Section Mapper.
Context {A : Type} `{Dtype A}.

(** Modelled from the spec: [mapper.forward1(array) -> flat_array] of
    the flattening transform (section 6), followed by the column
    selection if the dataset was masked; a selection of the wrong
    length fails (section 7, ShapeMismatch). *)
Definition mapper_forward1 (m : mapper) (arr : ndarray A)
  : outcome (list A) :=
  match mp_slice m with
  | None => Ok (data arr)
  | Some sel =>
      if bool_decide (length sel = length (data arr))
      then Ok (compress sel (data arr))
      else Raise IndexError
  end.

(** Modelled from the spec: the reverse of the column selection on one
    flat sample, unselected features being zero. *)
Definition unselect (m : mapper) (row : list A) : outcome (list A) :=
  match mp_slice m with
  | None => Ok row
  | Some sel =>
      if bool_decide (count_true sel = length row)
      then Ok (expand dzero sel row)
      else Raise ValueError
  end.

(** Modelled from the spec: [mapper.reverse1(flat_single) ->
    spatial_single] (section 6). *)
Definition mapper_reverse1 (m : mapper) (arr : ndarray A)
  : outcome (ndarray A) :=
  match shape arr with
  | [_] =>
      let+ full := unselect m (data arr) in
      np_reshape (NdArray [length full] full) (mp_shape m)
  | _ => Raise ValueError
  end.

(** Modelled from the spec: [mapper.reverse(flat_batch) ->
    spatial_batch] (section 6). *)
Definition mapper_reverse (m : mapper) (arr : ndarray A)
  : outcome (ndarray A) :=
  match shape arr with
  | [n; k] =>
      let+ full :=
        fold_right (fun row acc =>
                      let+ r := unselect m row in
                      let+ rs := acc in Ok (r ++ rs))
                   (Ok []) (rows n k (data arr)) in
      np_reshape (NdArray [length full] full) (n :: mp_shape m)
  | _ => Raise ValueError
  end.

(** Modelled from the spec: [ds.get_mapped(FlattenMapper(shape=...,
    space=...))] (section 4.4, step 5): every sample is flattened into
    one feature axis, the per-feature indices are stored under [space]
    if given, and the mapper is attached as [a.mapper]. *)
Definition get_mapped_flatten (ds : Dataset A) (sh : list nat)
           (space : option string) : outcome (Dataset A) :=
  let n := hd 0 (shape (ds_samples ds)) in
  let+ flat := np_reshape (ds_samples ds) [n; size_of sh] in
  Ok (MkDataset flat (ds_sa ds)
        (match space with
         | Some name =>
             <[name := FIndices (map (unravel sh) (seq 0 (size_of sh)))]>
               (ds_fa ds)
         | None => ds_fa ds
         end)
        (<["mapper" := AMapper (Mapper sh space None)]> (ds_a ds))).

(** Modelled from the spec: a column selection also selects the
    feature attributes. *)
Definition select_fattr (sel : list bool) (f : fattr A) : fattr A :=
  match f with
  | FIndices l => FIndices (compress sel l)
  | FValues l => FValues (compress sel l)
  end.

(** Modelled from the spec: [ds[:, sel]], the boolean column selection
    of the dataset container (section 6); the selection must be as long
    as the feature axis. *)
Definition select_columns (ds : Dataset A) (sel : list bool)
  : outcome (Dataset A) :=
  match shape (ds_samples ds) with
  | [n; k] =>
      if bool_decide (length sel = k)
      then Ok (MkDataset
                 (NdArray [n; count_true sel]
                    (concat (map (compress sel) (rows n k (data (ds_samples ds))))))
                 (ds_sa ds)
                 (select_fattr sel <$> ds_fa ds)
                 (match ds_a ds !! "mapper" with
                  | Some (AMapper m) =>
                      <["mapper" := AMapper (Mapper (mp_shape m) (mp_space m) (Some sel))]>
                        (ds_a ds)
                  | _ => ds_a ds
                  end))
      else Raise IndexError
  | _ => Raise IndexError
  end.

(** Modelled from the spec: [dataset.a.mapper], the mapper attached to
    the table (section 6). *)
Definition get_mapper (ds : Dataset A) : outcome mapper :=
  match ds_a ds !! "mapper" with
  | Some (AMapper m) => Ok m
  | _ => Raise AttributeError
  end.
End Mapper.

(* ================================================================== *)
(** ** The functions of [mvpa2/datasets/mri.py]

    Calls of [debug(...)] only write to PyMVPA's debug channel and are
    left out. *)

(** The [data] argument of [map2nifti]: an array or a dataset. *)
Inductive dataarg (A : Type) :=
| DArray (arr : ndarray A)
| DDataset (ds : Dataset A).
Arguments DArray {A}.
Arguments DDataset {A}.

(** The [imghdr] argument of [map2nifti]: a plain dict or a header
    instance.  A dict is passed by value. *)
Inductive hdrarg :=
| HDict (kv : gmap string value)
| HInst (l : loc).

(** What the local variable [mask] of [fmri_dataset] holds after the
    attempt to load it: [None], an array, or the object that was passed
    in when it is neither an image nor array-like. *)
Inductive maskval (A : Type) :=
| MNone
| MArr (arr : ndarray A)
| MObj.
Arguments MNone {A}.
Arguments MArr {A}.
Arguments MObj {A}.

(** What [_load_anyimg] returns when something was loaded:
    [(imgdata, imghdr, img)]. *)
Abbreviation loaded := (loc * loc * image)%type (only parsing).

(** Lines 398-411 of [_load_anyimg]: the shape to be enforced, [None]
    when the shape is left alone. *)
Definition enforce_shape (shape : list nat) (enforce_dim : Z)
  : outcome (option (list nat)) :=
  let lshape := Z.of_nat (length shape) in
  if (lshape <? enforce_dim)%Z then
    Ok (Some (replicate (Z.to_nat (enforce_dim - lshape)) 1 ++ shape))
  else if (lshape >? enforce_dim)%Z then
    let bogus_dims := Z.to_nat (lshape - enforce_dim) in
    if bool_decide (take bogus_dims shape <> replicate bogus_dims 1)
    then Raise ValueError
    else Ok (Some (drop bogus_dims shape))
  else Ok None.

(** [x[0]] on a shape tuple. *)
Definition shape0 (sh : list nat) : outcome nat :=
  match sh with
  | d :: _ => Ok d
  | [] => Raise IndexError
  end.

(** [a, b, c = r]: unpacking [None] is a [TypeError]. *)
Definition unpack {X} (r : option X) : outcome X :=
  match r with
  | Some x => Ok x
  | None => Raise TypeError
  end.

Definition set_a {A} (ds : Dataset A) (k : string) (v : attr) : Dataset A :=
  MkDataset (ds_samples ds) (ds_sa ds) (ds_fa ds) (<[k := v]> (ds_a ds)).

Definition del_a {A} (ds : Dataset A) (k : string) : Dataset A :=
  MkDataset (ds_samples ds) (ds_sa ds) (ds_fa ds) (delete k (ds_a ds)).

Definition set_sa {A} (ds : Dataset A) (k : string) (v : list value) : Dataset A :=
  MkDataset (ds_samples ds) (<[k := v]> (ds_sa ds)) (ds_fa ds) (ds_a ds).

Definition set_fa {A} (ds : Dataset A) (k : string) (v : fattr A) : Dataset A :=
  MkDataset (ds_samples ds) (ds_sa ds) (<[k := v]> (ds_fa ds)) (ds_a ds).

Definition is_TypeError (e : exn) : bool :=
  match e with TypeError => true | _ => false end.

Definition any_exception (e : exn) : bool := true.

Section Mri.
Context {A : Type} `{Dtype A}.
Variable env : environment A.

(** [getattr(nibabel, name)] for a string [name]. *)
Definition nibabel_getattr (name : string) : outcome pyobj :=
  match nib_namespace env name with
  | Some o => Ok o
  | None => Raise AttributeError
  end.

(** [nibabel.load(path)]: a new image with its own data and header
    objects. *)
Definition nibabel_load (path : string) : M A image :=
  match nib_files env path with
  | Some f =>
      let* d := alloc_arr (if_data f) in
      let* h := alloc_hdr (Header (ic_header_class (if_class f)) (if_fields f)) in
      ret (Image (if_class f) d h (if_affine f))
  | None => raise IOError
  end.

(** Helper to convert a NiBabel image header to a dict of arrays.
    [scl_slope == scl_inter == 'nan'] holds exactly when both strings
    are ['nan']; a missing field stringifies to the empty string. *)
Definition _hdr2dict (hdr : loc) : M A (gmap string value) :=
  let* h := get_hdr hdr in
  let* kv := liftO (py_dict h) in
  let scl_slope := default (VStr "") (kv !! "scl_slope") in
  let scl_inter := default (VStr "") (kv !! "scl_inter") in
  let* kv :=
    if str_is_nan scl_slope && str_is_nan scl_inter then
      let* _ := warning
        "Detected incorrect (nan) scl_ fields. Resetting to scl_slope=1.0 and scl_inter=0.0" in
      ret (<["scl_inter" := VFloat 0]> (<["scl_slope" := VFloat 1]> kv))
    else ret kv in
  ret (<["hdrtype" := VStr (hc_name (hdr_class h))]> kv).

(** Counterpart of [_hdr2dict]. *)
Definition _dict2hdr (kv : gmap string value) : M A loc :=
  let* hdrtype := liftO (match kv !! "hdrtype" with
                         | Some v => Ok v
                         | None => Raise KeyError
                         end) in
  let* cls := liftO (match hdrtype with
                     | VStr name => nibabel_getattr name
                     | _ => Raise TypeError
                     end) in
  let* hdr := construct_header cls in
  let* _ := for_each (map_to_list kv)
              (fun kv_k =>
                 if bool_decide (kv_k.1 = "hdrtype") then ret tt
                 else hdr_setitem hdr kv_k.1 kv_k.2) in
  ret hdr.

Definition _get_txyz_shaped (arr : loc) : M A loc :=
  let* a := get_arr arr in
  if length (shape a) =? 4 then
    let* r := liftO (np_rollaxis a (-1) 0) in
    alloc_arr r
  else ret arr.

Definition _get_xyzt_shaped (arr : loc) : M A loc :=
  let* a := get_arr arr in
  if length (shape a) =? 4 then
    let* r := liftO (np_rollaxis a 0 4) in
    alloc_arr r
  else ret arr.

Definition _img2data (src : source A) : M A (option loaded) :=
  match src with
  | SNone => ret None
  | _ =>
      let* img := match src with
                  | SStr path => let* i := nibabel_load path in ret (Some i)
                  | SImg i => ret (Some i)
                  | _ => ret None
                  end in
      match img with
      | Some img =>
          if ic_spatial (img_class img) then
            let data := img_dataobj img in
            let header := img_header img in
            let* s := img_shape img in
            let* data :=
              if (length s =? 5) && (nth 3 s 0 =? 1) then
                let* _ := warning
                  "dataset with 5th dimension found but 4th is empty (AFNI  NIFTI conversion syndrome) - squeezing data to 4D" in
                let newshape := [nth 0 s 0; nth 1 s 0; nth 2 s 0; nth 4 s 0] in
                let* _ := hdr_set_data_shape header newshape in
                let* d := get_arr data in
                let* r := liftO (np_reshape d newshape) in
                alloc_arr r
              else ret data in
            let* txyz := _get_txyz_shaped data in
            ret (Some (txyz, header, img))
          else ret None
      | None => ret None
      end
  end.

(** Get the size of a voxel from some image header format. *)
Definition _get_voxdim (hdr : loc) : M A (list float) :=
  let* z := hdr_get_zooms hdr in
  ret (removelast z).

(** Get the TR of a fMRI timeseries from some image header format. *)
Definition _get_dt (hdr : loc) : M A float :=
  let* z := hdr_get_zooms hdr in
  liftO (match last z with
         | Some dt => Ok dt
         | None => Raise IndexError
         end).

(** Load/access NIfTI data from files or instances. *)
Fixpoint _load_anyimg (src : source A) (ensure : bool) (enforce_dim : option Z)
         {struct src} : M A (option loaded) :=
  let single := _img2data src in
  let* r :=
    match src with
    | SList l =>
        match l with
        | _ :: _ =>
            let* srcs := for_list l (fun s => _load_anyimg s ensure enforce_dim) in
            let* _ :=
              if py_debug env then
                let* shapes :=
                  for_list srcs
                    (fun s => let* '(d, _, _) := liftO (unpack s) in
                              let* a := get_arr d in
                              ret (tail (shape a))) in
                if forallb (fun s => bool_decide (Some s = head shapes)) shapes
                then ret tt
                else raise ValueError
              else ret tt in
            let* arrs :=
              for_list srcs
                (fun s => let* '(d, _, _) := liftO (unpack s) in
                          get_arr d) in
            let* stacked := liftO (np_vstack arrs) in
            let* imgdata := alloc_arr stacked in
            let* '(_, imghdr, img) := liftO (unpack (mjoin (head srcs))) in
            ret (Some (imgdata, imghdr, img))
        | [] => single
        end
    | _ => single
    end in
  match r, enforce_dim with
  | Some (imgdata, imghdr, img), Some enforce_dim =>
      let* a := get_arr imgdata in
      let* new_shape := liftO (enforce_shape (shape a) enforce_dim) in
      let* _ := match new_shape with
                | Some new_shape => set_shape imgdata new_shape
                | None => ret tt
                end in
      ret (Some (imgdata, imghdr, img))
  | _, _ => ret r
  end.

(** Strip NiBabel objects from a dataset (in-place modification).
    The result is the dataset after the call; what the Python function
    returns ([None] on the early exits, the dataset otherwise) carries
    no further information. *)
Definition strip_nibabel (ds : Dataset A) : M A (Dataset A) :=
  let ds := match ds_a ds !! "imgtype" with
            | Some (AType c) => set_a ds "imgtype" (AStr (ic_name c))
            | _ => ds
            end in
  match ds_a ds !! "imghdr" with
  | None => ret ds
  | Some imghdr =>
      let* ds := match imghdr with
                 | AHeader l =>
                     let* h := get_hdr l in
                     match hc_get_best_affine (hdr_class h) with
                     | Some f => ret (set_a ds "imgaffine" (AValue (f (hdr_fields h))))
                     | None => ret ds
                     end
                 | _ => ret ds
                 end in
      match imghdr with
      | ADict _ => ret ds
      | _ =>
          try_except
            (let* kv := match imghdr with
                        | AHeader l => _hdr2dict l
                        | _ => raise TypeError
                        end in
             ret (set_a ds "imghdr" (ADict kv)))
            any_exception
            (ret (del_a ds "imghdr"))
      end
  end.

(** [getattr(nibabel, x)] for a dataset attribute [x]: the name must
    be a string. *)
Definition getattr_nibabel (x : attr) : outcome pyobj :=
  match x with
  | AStr name => nibabel_getattr name
  | _ => Raise TypeError
  end.

(** A dataset attribute used as a class. *)
Definition attr_as_pyobj (x : attr) : pyobj :=
  match x with
  | AType c => OImgClass c
  | _ => OOther
  end.

(** A dataset attribute used as image header: a dict or a header
    instance; the membership test on any other object fails. *)
Definition attr_as_header (x : attr) : outcome hdrarg :=
  match x with
  | ADict kv => Ok (HDict kv)
  | AHeader l => Ok (HInst l)
  | _ => Raise TypeError
  end.

(** Lines 149-161 of [map2nifti]: the image class to instantiate.
    Only a [TypeError] of the lookup is caught. *)
Definition resolve_imgtype (dataset : Dataset A) (imgtype : option pyobj)
  : M A pyobj :=
  match imgtype with
  | Some t => ret t
  | None =>
      match ds_a dataset !! "imgtype" with
      | Some x =>
          try_except (liftO (getattr_nibabel x)) is_TypeError
                     (ret (attr_as_pyobj x))
      | None => liftO (nibabel_getattr "Nifti1Image")
      end
  end.

(** Lines 163-171 of [map2nifti] ("set meaningful range"): a header
    that has a [cal_max] entry gets the maximum and minimum of the data
    as [cal_max] and [cal_min]; any exception on the way is ignored.  A
    header instance is updated in place. *)
Definition set_meaningful_range (imghdr : option hdrarg) (dsarray : ndarray A)
  : M A (option hdrarg) :=
  try_except
    (match imghdr with
     | Some (HInst l) =>
         let* c := hdr_contains l "cal_max" in
         if c then
           let* mx := liftO (np_reduce dmax dsarray) in
           let* _ := hdr_setitem l "cal_max" (dvalue mx) in
           let* mn := liftO (np_reduce dmin dsarray) in
           let* _ := hdr_setitem l "cal_min" (dvalue mn) in
           ret imghdr
         else ret imghdr
     | Some (HDict kv) =>
         if bool_decide (is_Some (kv !! "cal_max")) then
           let* mx := liftO (np_reduce dmax dsarray) in
           let* mn := liftO (np_reduce dmin dsarray) in
           ret (Some (HDict (<["cal_min" := dvalue mn]>
                               (<["cal_max" := dvalue mx]> kv))))
         else ret imghdr
     | None => ret imghdr
     end)
    any_exception
    (ret imghdr).

(** Maps data(sets) into the original dataspace and wraps it into an
    Image. *)
Definition map2nifti (dataset : Dataset A) (data : option (dataarg A))
           (imghdr : option hdrarg) (imgtype : option pyobj) : M A image :=
  let data := match data with
              | None => ds_samples dataset
              | Some (DDataset d) => ds_samples d
              | Some (DArray arr) => arr
              end in
  let* mp := liftO (get_mapper dataset) in
  let* dsarray := liftO (if 1 <? length (shape data)
                         then mapper_reverse mp data
                         else mapper_reverse1 mp data) in
  let* imghdr :=
    match imghdr with
    | None =>
        match ds_a dataset !! "imghdr" with
        | Some x => let* h := liftO (attr_as_header x) in ret (Some h)
        | None => ret None
        end
    | Some h => ret (Some h)
    end in
  let* imghdr :=
    match imghdr with
    | Some (HDict kv) =>
        if bool_decide (is_Some (kv !! "hdrtype"))
        then let* l := _dict2hdr kv in ret (Some (HInst l))
        else ret imghdr
    | Some (HInst l) =>
        let* c := hdr_contains l "hdrtype" in
        if c
        then let* h := get_hdr l in
             let* l' := _dict2hdr (hdr_fields h) in
             ret (Some (HInst l'))
        else ret imghdr
    | None => ret None
    end in
  let* imgtype := resolve_imgtype dataset imgtype in
  let* imghdr := set_meaningful_range imghdr dsarray in
  let* spatial := liftO (issubclass_spatial imgtype) in
  let* hdr_ok :=
    if spatial then
      match imghdr with
      | None => ret true
      | Some (HInst l) =>
          let* h := get_hdr l in ret (hc_get_data_dtype (hdr_class h))
      | Some (HDict _) => ret false
      end
    else ret false in
  match hdr_ok, imgtype with
  | true, OImgClass c =>
      let* l := alloc_arr dsarray in
      let* xyzt := _get_xyzt_shaped l in
      construct_image c xyzt
        (match imghdr with Some (HInst h) => Some h | _ => None end)
  | _, _ => raise ValueError
  end.

(** The object passed as [mask], when it could not be loaded as an
    image. *)
Definition mask_object (mask : source A) : maskval A :=
  match mask with
  | SNone => MNone
  | SArray arr => MArr arr
  | SList [] => MArr (NdArray [0] [])
  | _ => MObj
  end.

(** Create a dataset from an fMRI timeseries image. *)
Definition fmri_dataset (samples : source A) (targets chunks : option value)
           (mask : source A) (sprefix tprefix : option string)
           (add_fa : option (list (string * source A)))
  : M A (Dataset A) :=
  (* load the samples *)
  let* r := _load_anyimg samples true (Some 4%Z) in
  let* '(imgdata, imghdr, img) := liftO (unpack r) in
  (* figure out what the mask is *)
  let* maskimg := _load_anyimg mask false None in
  let* mask := match maskimg with
               | None => ret (mask_object mask)
               | Some (d, _, _) => let* m := get_arr d in ret (MArr m)
               end in
  (* compile the samples attributes *)
  let* imgdata := get_arr imgdata in
  let* sa :=
    match targets with
    | Some t =>
        let* n := liftO (shape0 (shape imgdata)) in
        let* v := liftO (_expand_attribute t n "targets") in
        ret (<["targets" := v]> (∅ : gmap string (list value)))
    | None => ret ∅
    end in
  let* sa :=
    match chunks with
    | Some c =>
        let* n := liftO (shape0 (shape imgdata)) in
        let* v := liftO (_expand_attribute c n "chunks") in
        ret (<["chunks" := v]> sa)
    | None => ret sa
    end in
  (* create a dataset *)
  let ds := MkDataset imgdata sa ∅ ∅ in
  let space := match sprefix with
               | None => None
               | Some p => Some (String.append p "_indices")
               end in
  let* ds := liftO (get_mapped_flatten ds (tail (shape imgdata)) space) in
  (* now apply the mask if any *)
  let* ds :=
    match mask with
    | MNone => ret ds
    | MArr m =>
        let* mp := liftO (get_mapper ds) in
        let* flatmask := liftO (mapper_forward1 mp m) in
        liftO (select_columns ds (map dnonzero flatmask))
    | MObj => raise TypeError
    end in
  (* load and store additional feature attributes *)
  let* ds :=
    match add_fa with
    | Some l =>
        fold_left
          (fun acc fattr_src =>
             let* ds := acc in
             let* value := _load_anyimg fattr_src.2 true None in
             let* '(v, _, _) := liftO (unpack value) in
             let* v := get_arr v in
             let* mp := liftO (get_mapper ds) in
             let* f := liftO (mapper_forward1 mp v) in
             ret (set_fa ds fattr_src.1 (FValues f)))
          l (ret ds)
    | None => ret ds
    end in
  (* store interesting NIfTI props in the dataset *)
  let ds := set_a ds "imgaffine" (AValue (img_affine img)) in
  let ds := set_a ds "imgtype" (AStr (ic_name (img_class img))) in
  let ds := set_a ds "imghdr" (AHeader imghdr) in
  let* ds := strip_nibabel ds in
  (* If there is a space assigned, store the extent of that space *)
  let* ds :=
    match sprefix with
    | Some p =>
        let ds := set_a ds (String.append p "_dim") (AShape (tail (shape imgdata))) in
        let* voxdim := _get_voxdim imghdr in
        ret (set_a ds (String.append p "_eldim") (AValue (VSeq (map VFloat voxdim))))
    | None => ret ds
    end in
  let* ds :=
    match tprefix with
    | Some p =>
        let n := hd 0 (shape (ds_samples ds)) in
        let ds := set_sa ds (String.append p "_indices")
                         (map (fun i => VInt (Z.of_nat i)) (seq 0 n)) in
        let* dt := _get_dt imghdr in
        ret (set_sa ds (String.append p "_coords")
                    (map (fun i => VFloat (float_of_nat i * dt)) (seq 0 n)))
    | None => ret ds
    end in
  ret ds.
End Mri.

(* ================================================================== *)
(** ** A concrete NIfTI-like setting for the examples *)

Definition value_float (v : value) : option float :=
  match v with VFloat f => Some f | _ => None end.

(** Zooms of a NIfTI-1 header: [pixdim[1 : ndim + 1]]. *)
Definition nifti_get_zooms (kv : gmap string value) : list float :=
  match kv !! "dim", kv !! "pixdim" with
  | Some (VSeq (VInt n :: _)), Some (VSeq (_ :: p)) =>
      omap value_float (take (Z.to_nat n) p)
  | _, _ => []
  end.

(** [set_data_shape] of a NIfTI-1 header: [dim] holds the rank, the
    shape, and ones up to eight entries. *)
Definition nifti_set_data_shape (sh : list nat) (kv : gmap string value)
  : gmap string value :=
  <["dim" := VSeq (map VInt (Z.of_nat (length sh) :: map Z.of_nat sh
                               ++ replicate (7 - length sh) 1%Z))]> kv.

Definition nifti_best_affine (kv : gmap string value) : value :=
  default VNone (kv !! "srow").

Definition nifti_defaults : gmap string value :=
  list_to_map
    [("sizeof_hdr", VInt 348);
     ("dim", VSeq (map VInt [0; 1; 1; 1; 1; 1; 1; 1]%Z));
     ("pixdim", VSeq (map VFloat [1; 1; 1; 1; 1; 1; 1; 1]%float));
     ("scl_slope", VFloat nan);
     ("scl_inter", VFloat nan);
     ("cal_max", VFloat 0);
     ("cal_min", VFloat 0);
     ("descrip", VStr "");
     ("srow", VNone);
     ("magic", VStr "n+1")].

Definition Nifti1Header : hdrclass :=
  HdrClass "Nifti1Header" true nifti_defaults nifti_get_zooms
           nifti_set_data_shape (Some nifti_best_affine) true.

Definition Nifti1Image : imgclass := ImgClass "Nifti1Image" true Nifti1Header.

(** A header class whose instances are not mapping-like and lack the
    NIfTI accessors, as NiBabel's MINC header. *)
Definition MincHeader : hdrclass :=
  HdrClass "MincHeader" false ∅ (fun _ => [1; 1; 1]%float)
           (fun _ kv => kv) None true.

Definition ex_namespace (name : string) : option pyobj :=
  if bool_decide (name = "Nifti1Image") then Some (OImgClass Nifti1Image)
  else if bool_decide (name = "Nifti1Header") then Some (OHdrClass Nifti1Header)
  else if bool_decide (name = "load") then Some OOther
  else None.

Definition ex_env : environment Z :=
  Environment ex_namespace (fun _ => None) true.

(** A header of a 4-d image with 3 volumes of 2 x 1 x 2 voxels. *)
Definition ex_fields : gmap string value :=
  <["descrip" := VStr "run 1"]>
    (<["pixdim" := VSeq (map VFloat [1; 3; 3; 3; 2; 1; 1; 1]%float)]>
       (<["dim" := VSeq (map VInt [4; 2; 1; 2; 3; 1; 1; 1]%Z)]> nifti_defaults)).

Definition ex_header : header := Header Nifti1Header ex_fields.

Definition ex_arr4 : ndarray Z :=
  NdArray [2; 1; 2; 3] (map Z.of_nat (seq 0 12)).

Definition ex_arr3 : ndarray Z :=
  NdArray [2; 2; 2] (map Z.of_nat (seq 0 8)).

Definition ex_arr5 : ndarray Z :=
  NdArray [2; 1; 2; 1; 3] (map Z.of_nat (seq 0 12)).

Definition ex_header3 : header :=
  Header Nifti1Header
    (<["dim" := VSeq (map VInt [3; 2; 2; 2; 1; 1; 1; 1]%Z)]> ex_fields).

Definition ex_header5 : header :=
  Header Nifti1Header
    (<["dim" := VSeq (map VInt [5; 2; 1; 2; 1; 3; 1; 1]%Z)]> ex_fields).

(** A store with the three arrays and a header for each. *)
Definition ex_store : store Z :=
  Store [ex_arr4; ex_arr3; ex_arr5] [ex_header; ex_header3; ex_header5] [].

Definition ex_img4 : image := Image Nifti1Image 0 0 VNone.
Definition ex_img3 : image := Image Nifti1Image 1 1 VNone.
Definition ex_img5 : image := Image Nifti1Image 2 2 VNone.

(* ================================================================== *)
(** ** Notions used in the statements *)

(** [str(kv.get(k, '')) == 'nan']. *)
Definition stringifies_nan (kv : gmap string value) (k : string) : bool :=
  str_is_nan (default (VStr "") (kv !! k)).

(** The warning of [_hdr2dict]. *)
Definition scl_warning : string :=
  "Detected incorrect (nan) scl_ fields. Resetting to scl_slope=1.0 and scl_inter=0.0".

(** The warning of [_img2data]. *)
Definition afni_warning : string :=
  "dataset with 5th dimension found but 4th is empty (AFNI  NIFTI conversion syndrome) - squeezing data to 4D".


(** A dataset on which [strip_nibabel] has nothing left to do. *)
Definition stripped {A} (ds : Dataset A) : Prop :=
  (forall c, ds_a ds !! "imgtype" <> Some (AType c)) /\
  (ds_a ds !! "imghdr" = None \/ exists kv, ds_a ds !! "imghdr" = Some (ADict kv)).

(** A dataset as PyMVPA before 2.4 stored it: the image class and the
    header instance themselves. *)
Definition ex_ds_old : Dataset Z :=
  MkDataset (NdArray [3; 4] (data ex_arr4)) ∅ ∅
    (<["imgtype" := AType Nifti1Image]>
       (<["imghdr" := AHeader 0]>
          (<["mapper" := AMapper (Mapper [2; 1; 2] None None)]> ∅))).

(** A dataset whose stored image type names no attribute of [nibabel]. *)
Definition ex_ds_badtype : Dataset Z :=
  MkDataset (NdArray [3; 4] (data ex_arr4)) ∅ ∅
    (<["imgtype" := AStr "NoSuchImage"]>
       (<["mapper" := AMapper (Mapper [2; 1; 2] None None)]> ∅)).

(** A dataset that holds a header instance that is not mapping-like. *)
Definition ex_store_minc : store Z :=
  Store [ex_arr4] [Header MincHeader ∅] [].

Definition ex_ds_minc : Dataset Z :=
  MkDataset (NdArray [3; 4] (data ex_arr4)) ∅ ∅
    (<["imgtype" := AStr "Minc1Image"]> (<["imghdr" := AHeader 0]> ∅)).





(** The snapshot that [_hdr2dict] makes of a mapping-like header. *)
Definition snapshot_of (h : header) : gmap string value :=
  <["hdrtype" := VStr (hc_name (hdr_class h))]>
    (if stringifies_nan (hdr_fields h) "scl_slope"
        && stringifies_nan (hdr_fields h) "scl_inter"
     then <["scl_inter" := VFloat 0]> (<["scl_slope" := VFloat 1]> (hdr_fields h))
     else hdr_fields h).






(** Two 3-d images of the same shape, each with its own array. *)
Definition ex_store_vols : store Z :=
  Store [ex_arr3; NdArray [2; 2; 2] (map Z.of_nat (seq 8 8))]
        [ex_header3; ex_header3] [].

Definition ex_vol_a : image := Image Nifti1Image 0 0 VNone.
Definition ex_vol_b : image := Image Nifti1Image 1 1 VNone.

(** A source that holds no image instance: file names, arrays, [None]
    and lists of these. *)
Fixpoint no_instance {A} (src : source A) : bool :=
  match src with
  | SImg _ => false
  | SList l => forallb no_instance l
  | _ => true
  end.

(** [m], run in a store that has at least [na] arrays and [nh]
    headers, leaves these first objects as they are, whether it returns
    or raises; a result it returns satisfies [Q]. *)
Definition writes_above {A X} (na nh : nat) (m : M A X) (Q : X -> Prop) : Prop :=
  forall st, na <= length (arrays st) -> nh <= length (headers st) ->
    na <= length (arrays (m st).2) /\
    nh <= length (headers (m st).2) /\
    (forall l, l < na -> arrays (m st).2 !! l = arrays st !! l) /\
    (forall l, l < nh -> headers (m st).2 !! l = headers st !! l) /\
    (forall x, (m st).1 = Ok x -> Q x).

(** What was loaded lies above the bounds. *)
Definition loaded_above (na nh : nat) (r : option (loc * loc * image)) : Prop :=
  match r with
  | Some (d, h, _) => na <= d /\ nh <= h
  | None => True
  end.

(** An environment in which one file can be loaded: a 5-d image with a
    singleton fourth axis. *)
Definition ex_env_files : environment Z :=
  Environment ex_namespace
    (fun path => if bool_decide (path = "bold.nii")
                 then Some (ImgFile Nifti1Image ex_arr5 (hdr_fields ex_header5) VNone)
                 else None)
    true.

(** A store with a 4-d image and a 3-d mask of its spatial shape. *)
Definition ex_mask : ndarray Z := NdArray [2; 1; 2] [1; 0; 0; 2]%Z.

Definition ex_store_mask : store Z :=
  Store [ex_arr4; ex_mask] [ex_header; ex_header3] [].

Definition ex_mask_img : image := Image Nifti1Image 1 1 VNone.

(* ================================================================== *)
(** * Properties *)

(** ** Row-major indexing *)

Lemma size_of_pos sh i : i < size_of sh -> Forall (fun d => 0 < d) sh.
Proof.
  revert i; induction sh as [|d sh IH]; intros i Hi; constructor.
  - simpl in Hi. destruct d; [simpl in Hi; lia | lia].
  - simpl in Hi. destruct (size_of sh) eqn:E; [lia|]. apply (IH 0). lia.
Qed.

Lemma ravel_unravel sh i : i < size_of sh -> ravel sh (unravel sh i) = i.
Proof.
  assert (G : forall sh i, ravel sh (unravel sh i) = i mod size_of sh).
  { clear. induction sh as [|d sh IH]; intros i.
    - reflexivity.
    - unfold ravel in *. simpl. rewrite IH.
      rewrite (Nat.mul_comm d), Nat.Div0.mod_mul_r. lia. }
  intros Hi. rewrite G. apply Nat.mod_small, Hi.
Qed.

Lemma unravel_add_mul sh k r : unravel sh (k * size_of sh + r) = unravel sh r.
Proof.
  revert k; induction sh as [|d sh IH]; intros k; simpl; [done|].
  f_equal.
  - destruct (size_of sh) as [|s] eqn:E.
    + rewrite !Nat.div_0_r. done.
    + replace (k * (d * S s) + r) with (r + (k * d) * S s) by lia.
      rewrite Nat.div_add by lia.
      rewrite Nat.Div0.add_mod, Nat.Div0.mod_mul, Nat.add_0_r, Nat.Div0.mod_mod. done.
  - replace (k * (d * size_of sh)) with ((k * d) * size_of sh) by lia. apply IH.
Qed.

Lemma ravel_lt sh idx : Forall2 lt idx sh -> ravel sh idx < size_of sh.
Proof.
  unfold ravel. induction 1 as [|i d idx sh Hi _ IH]; simpl; [lia|]. nia.
Qed.

Lemma unravel_ravel sh idx : Forall2 lt idx sh -> unravel sh (ravel sh idx) = idx.
Proof.
  induction 1 as [|i d idx sh Hi Hrest IH]; [done|].
  pose proof (ravel_lt _ _ Hrest) as Hlt.
  unfold ravel in *. simpl. f_equal.
  - rewrite Nat.div_add_l by lia. rewrite Nat.div_small by done.
    rewrite Nat.add_0_r. apply Nat.mod_small, Hi.
  - rewrite unravel_add_mul. apply IH.
Qed.

Lemma unravel_lt sh i : i < size_of sh -> Forall2 lt (unravel sh i) sh.
Proof.
  intros Hi. apply size_of_pos in Hi. induction Hi as [|d sh Hd _ IH]; simpl; constructor; [|done].
  apply Nat.mod_upper_bound. lia.
Qed.

Lemma omap_total_lookup {X Y} (f : X -> option Y) (l : list X) :
  Forall (fun x => is_Some (f x)) l -> forall i, omap f l !! i = (l !! i) ≫= f.
Proof.
  induction 1 as [|x l [y Hy] _ IH]; intros i; [by destruct i|].
  simpl. rewrite Hy. destruct i; simpl; [by rewrite Hy | apply IH].
Qed.

Lemma omap_total_length {X Y} (f : X -> option Y) (l : list X) :
  Forall (fun x => is_Some (f x)) l -> length (omap f l) = length l.
Proof.
  induction 1 as [|x l [y Hy] _ IH]; [done|]. simpl. rewrite Hy. simpl. by f_equal.
Qed.

Section Transpose.
Context {A : Type}.
Implicit Types a : ndarray A.

Lemma np_transpose_total axes a :
  let newshape := map (fun ax => nth ax (shape a) 0) axes in
  let st := map (fun ax => nth ax (strides (shape a)) 0) axes in
  (forall i, i < size_of newshape -> dot (unravel newshape i) st < length (data a)) ->
  length (data (np_transpose axes a)) = size_of newshape /\
  forall i, i < size_of newshape ->
    data (np_transpose axes a) !! i = data a !! dot (unravel newshape i) st.
Proof.
  intros newshape st Hb. unfold np_transpose. fold newshape. fold st. simpl.
  assert (HF : Forall (fun i => is_Some (data a !! dot (unravel newshape i) st))
                      (seq 0 (size_of newshape))).
  { apply Forall_forall. intros i Hi%elem_of_seq. apply lookup_lt_is_Some, Hb. lia. }
  split.
  - rewrite omap_total_length by done. apply length_seq.
  - intros i Hi. rewrite omap_total_lookup by done.
    rewrite lookup_seq_lt by done. reflexivity.
Qed.
End Transpose.

Section Roll.
Context {A : Type}.
Implicit Types a : ndarray A.

Lemma forall2_lt4 (x y z t X Y Z T : nat) :
  Forall2 lt [x; y; z; t] [X; Y; Z; T] <-> x < X /\ y < Y /\ z < Z /\ t < T.
Proof.
  split.
  - intros H. repeat (apply Forall2_cons_1 in H as [? H]). done.
  - intros (?&?&?&?). repeat constructor; done.
Qed.

Lemma unravel4 X Y Z T i :
  i < size_of [X; Y; Z; T] ->
  exists x y z t, unravel [X; Y; Z; T] i = [x; y; z; t] /\
                  x < X /\ y < Y /\ z < Z /\ t < T /\
                  ravel [X; Y; Z; T] [x; y; z; t] = i.
Proof.
  intros Hi. pose proof (unravel_lt _ _ Hi) as HB. pose proof (ravel_unravel _ _ Hi) as HR.
  pose proof (Forall2_length _ _ _ HB) as HL.
  destruct (unravel [X; Y; Z; T] i) as [|x [|y [|z [|t [|]]]]]; try discriminate HL.
  exists x, y, z, t. apply forall2_lt4 in HB. destruct HB as (?&?&?&?).
  repeat split; done.
Qed.

(** Moving the last axis of a 4-d array to the front. *)
Lemma transpose_last_first a X Y Z T :
  shape a = [X; Y; Z; T] -> wf_array a ->
  shape (np_transpose [3; 0; 1; 2] a) = [T; X; Y; Z] /\
  length (data (np_transpose [3; 0; 1; 2] a)) = size_of [T; X; Y; Z] /\
  forall x y z t, x < X -> y < Y -> z < Z -> t < T ->
    data (np_transpose [3; 0; 1; 2] a) !! ravel [T; X; Y; Z] [t; x; y; z]
    = data a !! ravel [X; Y; Z; T] [x; y; z; t].
Proof.
  intros Hs Hwf. red in Hwf. rewrite Hs in Hwf.
  pose proof (np_transpose_total [3; 0; 1; 2] a) as Ht.
  rewrite Hs in Ht. cbn [map nth strides] in Ht.
  assert (Hoff : forall t x y z, t < T -> x < X -> y < Y -> z < Z ->
    dot (unravel [T; X; Y; Z] (ravel [T; X; Y; Z] [t; x; y; z]))
        [size_of []; size_of [Y; Z; T]; size_of [Z; T]; size_of [T]]
    = ravel [X; Y; Z; T] [x; y; z; t]).
  { intros. rewrite unravel_ravel by (apply forall2_lt4; done).
    unfold ravel. simpl. lia. }
  destruct Ht as [Hlen Hlk].
  { intros i Hi. destruct (unravel4 _ _ _ _ _ Hi) as (t&x&y&z&E&?&?&?&?&Hr).
    rewrite <- Hr, Hoff, Hwf by done. apply ravel_lt, forall2_lt4. done. }
  split; [|split].
  - unfold np_transpose. rewrite Hs. reflexivity.
  - done.
  - intros x y z t ????. rewrite Hlk by (apply ravel_lt, forall2_lt4; done).
    rewrite Hoff by done. done.
Qed.

(** Moving the first axis of a 4-d array to the end. *)
Lemma transpose_first_last a X Y Z T :
  shape a = [T; X; Y; Z] -> wf_array a ->
  shape (np_transpose [1; 2; 3; 0] a) = [X; Y; Z; T] /\
  length (data (np_transpose [1; 2; 3; 0] a)) = size_of [X; Y; Z; T] /\
  forall x y z t, x < X -> y < Y -> z < Z -> t < T ->
    data (np_transpose [1; 2; 3; 0] a) !! ravel [X; Y; Z; T] [x; y; z; t]
    = data a !! ravel [T; X; Y; Z] [t; x; y; z].
Proof.
  intros Hs Hwf. red in Hwf. rewrite Hs in Hwf.
  pose proof (np_transpose_total [1; 2; 3; 0] a) as Ht.
  rewrite Hs in Ht. cbn [map nth strides] in Ht.
  assert (Hoff : forall t x y z, t < T -> x < X -> y < Y -> z < Z ->
    dot (unravel [X; Y; Z; T] (ravel [X; Y; Z; T] [x; y; z; t]))
        [size_of [Y; Z]; size_of [Z]; size_of []; size_of [X; Y; Z]]
    = ravel [T; X; Y; Z] [t; x; y; z]).
  { intros. rewrite unravel_ravel by (apply forall2_lt4; done).
    unfold ravel. simpl. lia. }
  destruct Ht as [Hlen Hlk].
  { intros i Hi. destruct (unravel4 _ _ _ _ _ Hi) as (x&y&z&t&E&?&?&?&?&Hr).
    rewrite <- Hr, Hoff, Hwf by done. apply ravel_lt, forall2_lt4. done. }
  split; [|split].
  - unfold np_transpose. rewrite Hs. reflexivity.
  - done.
  - intros x y z t ????. rewrite Hlk by (apply ravel_lt, forall2_lt4; done).
    rewrite Hoff by done. done.
Qed.

Lemma wf_transpose_last_first a X Y Z T :
  shape a = [X; Y; Z; T] -> wf_array a -> wf_array (np_transpose [3; 0; 1; 2] a).
Proof.
  intros Hs Hwf. destruct (transpose_last_first a X Y Z T Hs Hwf) as (E1&E2&_).
  red. by rewrite E1, E2.
Qed.

(** The two moves cancel. *)
Lemma transpose_roundtrip a :
  length (shape a) = 4 -> wf_array a ->
  np_transpose [1; 2; 3; 0] (np_transpose [3; 0; 1; 2] a) = a.
Proof.
  intros Hl Hwf. destruct a as [sh d]. simpl in Hl.
  destruct sh as [|X [|Y [|Z [|T [|]]]]]; try discriminate Hl. clear Hl.
  set (a := NdArray [X; Y; Z; T] d) in *.
  destruct (transpose_last_first a X Y Z T eq_refl Hwf) as (Hs1&Hl1&Hd1).
  pose proof (wf_transpose_last_first a X Y Z T eq_refl Hwf) as Hwf1.
  destruct (transpose_first_last _ X Y Z T Hs1 Hwf1) as (Hs2&Hl2&Hd2).
  destruct (np_transpose [1; 2; 3; 0] (np_transpose [3; 0; 1; 2] a)) as [sh2 d2].
  cbn [shape data] in Hs2, Hl2, Hd2. subst sh2. unfold a. f_equal.
  apply list_eq. intros i.
  assert (Hld : length d = size_of [X; Y; Z; T]) by exact Hwf.
  destruct (decide (i < size_of [X; Y; Z; T])) as [Hi|Hi].
  - destruct (unravel4 _ _ _ _ _ Hi) as (x&y&z&t&_&?&?&?&?&Hr).
    rewrite <- Hr, Hd2, Hd1 by done. done.
  - rewrite !lookup_ge_None_2; [done| |]; lia.
Qed.

Lemma np_rollaxis_last a :
  length (shape a) = 4 -> np_rollaxis a (-1) 0 = Ok (np_transpose [3; 0; 1; 2] a).
Proof. intros Hl. unfold np_rollaxis. rewrite Hl. reflexivity. Qed.

Lemma np_rollaxis_first a :
  length (shape a) = 4 -> np_rollaxis a 0 4 = Ok (np_transpose [1; 2; 3; 0] a).
Proof. intros Hl. unfold np_rollaxis. rewrite Hl. reflexivity. Qed.
End Roll.

(** ** Dimensionality enforcement *)

Lemma size_of_replicate_1 k sh : size_of (replicate k 1 ++ sh) = size_of sh.
Proof. induction k as [|k IH]; simpl; [done|]. rewrite IH. lia. Qed.

Lemma enforce_shape_lt sh e :
  (Z.of_nat (length sh) < e)%Z ->
  enforce_shape sh e = Ok (Some (replicate (Z.to_nat (e - Z.of_nat (length sh))) 1 ++ sh)).
Proof. intros Hlt. unfold enforce_shape. apply Z.ltb_lt in Hlt. by rewrite Hlt. Qed.

Lemma enforce_shape_eq sh e :
  Z.of_nat (length sh) = e -> enforce_shape sh e = Ok None.
Proof.
  intros <-. unfold enforce_shape. rewrite Z.ltb_irrefl.
  destruct (Z.gtb_spec (Z.of_nat (length sh)) (Z.of_nat (length sh))); [lia|done].
Qed.

Lemma enforce_shape_gt sh e :
  (e < Z.of_nat (length sh))%Z ->
  enforce_shape sh e =
    let bogus := Z.to_nat (Z.of_nat (length sh) - e) in
    if bool_decide (take bogus sh = replicate bogus 1)
    then Ok (Some (drop bogus sh)) else Raise ValueError.
Proof.
  intros Hlt. unfold enforce_shape.
  destruct (Z.ltb_spec (Z.of_nat (length sh)) e); [lia|].
  destruct (Z.gtb_spec (Z.of_nat (length sh)) e); [|lia].
  cbv zeta. rewrite bool_decide_not. by destruct (bool_decide _).
Qed.


Lemma enforce_shape_size sh e ns :
  enforce_shape sh e = Ok (Some ns) -> size_of ns = size_of sh.
Proof.
  intros H. destruct (Z.lt_trichotomy (Z.of_nat (length sh)) e) as [Hlt|[Heq|Hgt]].
  - rewrite enforce_shape_lt in H by done. injection H as <-. apply size_of_replicate_1.
  - rewrite enforce_shape_eq in H by done. discriminate.
  - rewrite enforce_shape_gt in H by done. cbv zeta in H.
    case_bool_decide as Hones; [|discriminate]. injection H as <-.
    set (k := Z.to_nat (Z.of_nat (length sh) - e)) in *.
    transitivity (size_of (take k sh ++ drop k sh)); [|by rewrite take_drop].
    by rewrite Hones, size_of_replicate_1.
Qed.

(** ** Running computations *)

Section Run.
Context {A : Type}.
Implicit Types st : store A.

Lemma bind_ok {X Y} (m : M A X) (k : X -> M A Y) st x st' :
  m st = (Ok x, st') -> bind m k st = k x st'.
Proof. intros E. unfold bind. by rewrite E. Qed.

Lemma bind_raise {X Y} (m : M A X) (k : X -> M A Y) st e st' :
  m st = (Raise e, st') -> bind m k st = (Raise e, st').
Proof. intros E. unfold bind. by rewrite E. Qed.

Lemma get_arr_ok st l a : arrays st !! l = Some a -> get_arr l st = (Ok a, st).
Proof. intros E. unfold get_arr. by rewrite E. Qed.

Lemma get_hdr_ok st l h : headers st !! l = Some h -> get_hdr l st = (Ok h, st).
Proof. intros E. unfold get_hdr. by rewrite E. Qed.

Lemma get_txyz_shaped_4d st l a :
  arrays st !! l = Some a -> length (shape a) = 4 ->
  _get_txyz_shaped l st =
    (Ok (length (arrays st)),
     Store (arrays st ++ [np_transpose [3; 0; 1; 2] a]) (headers st) (warnings st)).
Proof.
  intros Hl H4. unfold _get_txyz_shaped.
  rewrite (bind_ok _ _ _ _ _ (get_arr_ok _ _ _ Hl)).
  rewrite H4. simpl. unfold bind, liftO. by rewrite np_rollaxis_last.
Qed.

Lemma get_txyz_shaped_other st l a :
  arrays st !! l = Some a -> length (shape a) <> 4 ->
  _get_txyz_shaped l st = (Ok l, st).
Proof.
  intros Hl H4. unfold _get_txyz_shaped.
  rewrite (bind_ok _ _ _ _ _ (get_arr_ok _ _ _ Hl)).
  destruct (Nat.eqb_spec (length (shape a)) 4); done.
Qed.

Lemma get_xyzt_shaped_4d st l a :
  arrays st !! l = Some a -> length (shape a) = 4 ->
  _get_xyzt_shaped l st =
    (Ok (length (arrays st)),
     Store (arrays st ++ [np_transpose [1; 2; 3; 0] a]) (headers st) (warnings st)).
Proof.
  intros Hl H4. unfold _get_xyzt_shaped.
  rewrite (bind_ok _ _ _ _ _ (get_arr_ok _ _ _ Hl)).
  rewrite H4. simpl. unfold bind, liftO. by rewrite np_rollaxis_first.
Qed.

Lemma get_xyzt_shaped_other st l a :
  arrays st !! l = Some a -> length (shape a) <> 4 ->
  _get_xyzt_shaped l st = (Ok l, st).
Proof.
  intros Hl H4. unfold _get_xyzt_shaped.
  rewrite (bind_ok _ _ _ _ _ (get_arr_ok _ _ _ Hl)).
  destruct (Nat.eqb_spec (length (shape a)) 4); done.
Qed.

Lemma shape_transpose_last_first (a : ndarray A) :
  length (shape a) = 4 -> length (shape (np_transpose [3; 0; 1; 2] a)) = 4.
Proof. intros _. unfold np_transpose. reflexivity. Qed.

(** C4. Forward shape normalisation followed by the inverse one
    returns an array equal to the one it started from, for a 3-d or
    4-d array and in fact for an array of any rank.  Nothing else in
    the store changes: the two calls at most add the intermediate
    views. *)
Theorem txyz_xyzt_roundtrip st (l : loc) (a : ndarray A) :
  arrays st !! l = Some a -> wf_array a ->
  exists l' st',
    (let* t := _get_txyz_shaped l in _get_xyzt_shaped t) st = (Ok l', st') /\
    arrays st' !! l' = Some a /\
    (forall j, j < length (arrays st) -> arrays st' !! j = arrays st !! j) /\
    headers st' = headers st /\ warnings st' = warnings st.
Proof.
  intros Hl Hwf. destruct (decide (length (shape a) = 4)) as [H4|H4].
  - eexists _, _. split; [|split; [|split; [|split]]].
    + erewrite bind_ok by (by apply get_txyz_shaped_4d).
      eapply get_xyzt_shaped_4d.
      * simpl. rewrite lookup_app_r by done. rewrite Nat.sub_diag. reflexivity.
      * by apply shape_transpose_last_first.
    + simpl. rewrite lookup_app_r by (rewrite length_app; simpl; lia).
      rewrite length_app. simpl. replace (_ - _) with 0 by lia. simpl.
      by rewrite transpose_roundtrip.
    + intros j Hj. simpl. by rewrite !lookup_app_l by (rewrite ?length_app; simpl; lia).
    + done.
    + done.
  - exists l, st. split; [|done].
    erewrite bind_ok by (by eapply get_txyz_shaped_other).
    by eapply get_xyzt_shaped_other.
Qed.
End Run.

Lemma txyz_xyzt_roundtrip_witness :
  arrays ex_store !! 0 = Some ex_arr4 /\ wf_array ex_arr4 /\
  exists l' st',
    (let* t := _get_txyz_shaped 0 in _get_xyzt_shaped t) ex_store = (Ok l', st') /\
    arrays st' !! l' = Some ex_arr4 /\
    (forall j, j < length (arrays ex_store) -> arrays st' !! j = arrays ex_store !! j) /\
    headers st' = headers ex_store /\ warnings st' = warnings ex_store.
Proof.
  split; [reflexivity|]. split; [reflexivity|].
  apply (txyz_xyzt_roundtrip ex_store 0 ex_arr4); reflexivity.
Defined.

(** ** The header codec *)



Section Codec.
Context {A : Type}.
Implicit Types st : store A.

End Codec.

Section Codec2.
Context {A : Type}.
Implicit Types st : store A.

Lemma hdr2dict_run st l h :
  headers st !! l = Some h -> hc_mapping (hdr_class h) = true ->
  _hdr2dict l st =
    if stringifies_nan (hdr_fields h) "scl_slope" && stringifies_nan (hdr_fields h) "scl_inter"
    then (Ok (<["hdrtype" := VStr (hc_name (hdr_class h))]>
                (<["scl_inter" := VFloat 0]> (<["scl_slope" := VFloat 1]> (hdr_fields h)))),
          Store (arrays st) (headers st) (warnings st ++ [scl_warning]))
    else (Ok (<["hdrtype" := VStr (hc_name (hdr_class h))]> (hdr_fields h)), st).
Proof.
  intros Hl Hm. unfold _hdr2dict.
  rewrite (bind_ok _ _ _ _ _ (get_hdr_ok _ _ _ Hl)).
  unfold py_dict. rewrite Hm. unfold stringifies_nan.
  rewrite (bind_ok _ _ _ (hdr_fields h) st) by done.
  destruct (_ && _); reflexivity.
Qed.

(** C6. Encoding a mapping-like header to a snapshot: when
    [scl_slope] and [scl_inter] both stringify to ["nan"], the
    snapshot has [scl_slope = 1.0] and [scl_inter = 0.0], one warning
    is issued, and every other field of the snapshot equals the
    header's field; when at most one of the two is ["nan"], no
    warning is issued and every field of the snapshot equals the
    header's field.  In both cases the snapshot also carries the
    [hdrtype] tag, which is the name of the header's class, and the
    store's objects stay as they are. *)
Theorem hdr2dict_scale_repair st (l : loc) (h : header) :
  headers st !! l = Some h -> hc_mapping (hdr_class h) = true ->
  exists kv st',
    _hdr2dict l st = (Ok kv, st') /\
    arrays st' = arrays st /\ headers st' = headers st /\
    kv !! "hdrtype" = Some (VStr (hc_name (hdr_class h))) /\
    (stringifies_nan (hdr_fields h) "scl_slope" = true ->
     stringifies_nan (hdr_fields h) "scl_inter" = true ->
     kv !! "scl_slope" = Some (VFloat 1) /\
     kv !! "scl_inter" = Some (VFloat 0) /\
     warnings st' = warnings st ++ [scl_warning] /\
     forall k, k <> "scl_slope" -> k <> "scl_inter" -> k <> "hdrtype" ->
               kv !! k = hdr_fields h !! k) /\
    (stringifies_nan (hdr_fields h) "scl_slope" = false \/
     stringifies_nan (hdr_fields h) "scl_inter" = false ->
     warnings st' = warnings st /\
     forall k, k <> "hdrtype" -> kv !! k = hdr_fields h !! k).
Proof.
  intros Hl Hm. rewrite (hdr2dict_run _ _ _ Hl Hm).
  destruct (stringifies_nan (hdr_fields h) "scl_slope") eqn:E1,
           (stringifies_nan (hdr_fields h) "scl_inter") eqn:E2; cbn [andb].
  1: { eexists _, _. split; [reflexivity|]. cbn [arrays headers warnings].
       split; [done|]. split; [done|]. split; [apply lookup_insert_eq|]. split.
       - intros _ _. split; [|split; [|split]].
         + by simplify_map_eq.
         + by simplify_map_eq.
         + done.
         + intros k ? ? ?. by simplify_map_eq.
       - intros [?|?]; discriminate. }
  all: exists (<["hdrtype" := VStr (hc_name (hdr_class h))]> (hdr_fields h)), st;
    (split; [reflexivity|]); (split; [done|]); (split; [done|]);
    (split; [apply lookup_insert_eq|]); (split; [intros; discriminate|]);
    intros _; (split; [done|]); intros k ?; by simplify_map_eq.
Qed.
End Codec2.

Section Codec3.
Context {A : Type}.
Variable env : environment A.
Implicit Types st : store A.


End Codec3.

Lemma hdr2dict_scale_repair_witness :
  headers ex_store !! 0 = Some ex_header /\
  hc_mapping (hdr_class ex_header) = true /\
  exists kv st',
    _hdr2dict 0 ex_store = (Ok kv, st') /\
    arrays st' = arrays ex_store /\ headers st' = headers ex_store /\
    kv !! "hdrtype" = Some (VStr (hc_name (hdr_class ex_header))) /\
    (stringifies_nan (hdr_fields ex_header) "scl_slope" = true ->
     stringifies_nan (hdr_fields ex_header) "scl_inter" = true ->
     kv !! "scl_slope" = Some (VFloat 1) /\
     kv !! "scl_inter" = Some (VFloat 0) /\
     warnings st' = warnings ex_store ++ [scl_warning] /\
     forall k, k <> "scl_slope" -> k <> "scl_inter" -> k <> "hdrtype" ->
               kv !! k = hdr_fields ex_header !! k) /\
    (stringifies_nan (hdr_fields ex_header) "scl_slope" = false \/
     stringifies_nan (hdr_fields ex_header) "scl_inter" = false ->
     warnings st' = warnings ex_store /\
     forall k, k <> "hdrtype" -> kv !! k = hdr_fields ex_header !! k).
Proof.
  split; [reflexivity|]. split; [reflexivity|].
  apply (hdr2dict_scale_repair ex_store 0 ex_header); reflexivity.
Defined.


(** ** [strip_nibabel] *)

Section Strip.
Context {A : Type}.
Implicit Types (st : store A) (ds : Dataset A).

Lemma strip_nibabel_stripped ds st :
  stripped ds -> strip_nibabel ds st = (Ok ds, st).
Proof.
  intros [Hty Hhdr]. unfold strip_nibabel.
  assert (E : match ds_a ds !! "imgtype" with
              | Some (AType c) => set_a ds "imgtype" (AStr (ic_name c))
              | _ => ds
              end = ds).
  { destruct (ds_a ds !! "imgtype") as [[]|] eqn:E; try done. by destruct (Hty c). }
  rewrite E. destruct Hhdr as [->|[kv ->]]; reflexivity.
Qed.

Lemma strip_nibabel_total ds st :
  (forall l, ds_a ds !! "imghdr" = Some (AHeader l) -> is_Some (headers st !! l)) ->
  exists ds1 st1,
    strip_nibabel ds st = (Ok ds1, st1) /\ stripped ds1 /\
    (forall s, ds_a ds !! "imgtype" = Some (AStr s) -> ds_a ds1 !! "imgtype" = Some (AStr s)) /\
    (ds_a ds !! "imghdr" = None -> st1 = st /\ ds_a ds1 !! "imghdr" = None) /\
    (forall kv, ds_a ds !! "imghdr" = Some (ADict kv) ->
                st1 = st /\ ds_a ds1 !! "imghdr" = Some (ADict kv)).
Proof.
  intros Hvalid. unfold strip_nibabel.
  set (ds0 := match ds_a ds !! "imgtype" with
              | Some (AType c) => set_a ds "imgtype" (AStr (ic_name c))
              | _ => ds
              end).
  assert (Hty0 : forall c, ds_a ds0 !! "imgtype" <> Some (AType c)).
  { intros c. subst ds0. destruct (ds_a ds !! "imgtype") as [[]|] eqn:E;
      rewrite ?E; try done. unfold set_a. simpl. by rewrite lookup_insert_eq. }
  assert (Hstr0 : forall s, ds_a ds !! "imgtype" = Some (AStr s) ->
                            ds_a ds0 !! "imgtype" = Some (AStr s)).
  { intros s E. subst ds0. by rewrite E. }
  assert (Hh0 : ds_a ds0 !! "imghdr" = ds_a ds !! "imghdr").
  { subst ds0. destruct (ds_a ds !! "imgtype") as [[]|]; try done.
    unfold set_a. simpl. by rewrite lookup_insert_ne. }
  clearbody ds0. rewrite Hh0.
  destruct (ds_a ds !! "imghdr") as [x|] eqn:Ex.
  2: { exists ds0, st. split; [done|]. split; [split; [done|by left]|]. 
       split; [done|]. split; [done|]. intros; discriminate. }
  destruct x as [s|c|l|kv|v|sh|m].
  1,2,5,6,7:
    solve [exists (del_a ds0 "imghdr"), st; split; [reflexivity|];
     split; [split; [intros c'; unfold del_a; simpl; rewrite lookup_delete_ne by done; apply Hty0
                    |left; unfold del_a; simpl; apply lookup_delete_eq]|];
     split; [intros s' E; unfold del_a; simpl; rewrite lookup_delete_ne by done; by apply Hstr0|];
     split; intros; discriminate].
  - (* a header instance *)
    destruct (Hvalid l eq_refl) as [h Hl].
    rewrite (bind_ok _ _ _
               (match hc_get_best_affine (hdr_class h) with
                | Some f => set_a ds0 "imgaffine" (AValue (f (hdr_fields h)))
                | None => ds0
                end) st); last first.
    { rewrite (bind_ok _ _ _ _ _ (get_hdr_ok _ _ _ Hl)).
      by destruct (hc_get_best_affine (hdr_class h)). }
    set (ds2 := match hc_get_best_affine (hdr_class h) with
                | Some f => set_a ds0 "imgaffine" (AValue (f (hdr_fields h)))
                | None => ds0
                end).
    assert (Hty2 : forall c, ds_a ds2 !! "imgtype" <> Some (AType c)).
    { intros c. subst ds2. destruct (hc_get_best_affine (hdr_class h)); [|done].
      unfold set_a. simpl. rewrite lookup_insert_ne by done. apply Hty0. }
    assert (Hstr2 : forall s, ds_a ds !! "imgtype" = Some (AStr s) ->
                              ds_a ds2 !! "imgtype" = Some (AStr s)).
    { intros s E. subst ds2. destruct (hc_get_best_affine (hdr_class h)); [|by apply Hstr0].
      unfold set_a. simpl. rewrite lookup_insert_ne by done. by apply Hstr0. }
    clearbody ds2. unfold try_except.
    destruct (hc_mapping (hdr_class h)) eqn:Hm.
    + pose proof (hdr2dict_run st l h Hl Hm) as Hrun.
      destruct (_ && _) in Hrun; rewrite (bind_ok _ _ _ _ _ Hrun);
        eexists _, _; (split; [reflexivity|]);
        (split; [split; [intros c'; unfold set_a; simpl; rewrite lookup_insert_ne by done; apply Hty2
                        |right; eexists; unfold set_a; simpl; apply lookup_insert_eq]|]);
        (split; [intros s' E; unfold set_a; simpl; rewrite lookup_insert_ne by done; by apply Hstr2|]);
        split; intros; discriminate.
    + rewrite (bind_raise _ _ st TypeError st); last first.
      { unfold _hdr2dict. rewrite (bind_ok _ _ _ _ _ (get_hdr_ok _ _ _ Hl)).
        unfold py_dict. rewrite Hm. reflexivity. }
      cbn [any_exception].
      exists (del_a ds2 "imghdr"), st. split; [reflexivity|].
      split; [split; [intros c'; unfold del_a; simpl; rewrite lookup_delete_ne by done; apply Hty2
                     |left; unfold del_a; simpl; apply lookup_delete_eq]|].
      split; [intros s' E; unfold del_a; simpl; rewrite lookup_delete_ne by done; by apply Hstr2|].
      split; intros; discriminate.
  - (* already a plain dict *)
    exists ds0, st. split; [reflexivity|].
    split; [split; [done|right; by eexists]|].
    split; [done|]. split; [intros; discriminate|]. intros kv' [= <-]. done.
Qed.

(** C10. [strip_nibabel] is idempotent: on a dataset whose header
    attribute, if it is a header instance, refers to a header of the
    store, the call returns, and a second call on the result changes
    neither the dataset nor the store.  A stored [imgtype] that is
    already a string is left as it is; with no [imghdr] the function returns
    without touching the store; an [imghdr] that is already a plain
    dict is left untouched. *)
Theorem strip_nibabel_idempotent ds st :
  (forall l, ds_a ds !! "imghdr" = Some (AHeader l) -> is_Some (headers st !! l)) ->
  exists ds1 st1,
    strip_nibabel ds st = (Ok ds1, st1) /\
    strip_nibabel ds1 st1 = (Ok ds1, st1) /\
    (forall s, ds_a ds !! "imgtype" = Some (AStr s) -> ds_a ds1 !! "imgtype" = Some (AStr s)) /\
    (ds_a ds !! "imghdr" = None -> st1 = st /\ ds_a ds1 !! "imghdr" = None) /\
    (forall kv, ds_a ds !! "imghdr" = Some (ADict kv) ->
                st1 = st /\ ds_a ds1 !! "imghdr" = Some (ADict kv)).
Proof.
  intros Hvalid. destruct (strip_nibabel_total ds st Hvalid) as (ds1&st1&E&Hs&Ha&Hb&Hc).
  exists ds1, st1. split; [done|]. split; [by apply strip_nibabel_stripped|]. done.
Qed.
End Strip.

Lemma strip_nibabel_idempotent_witness :
  (forall l, ds_a ex_ds_old !! "imghdr" = Some (AHeader l) ->
             is_Some (headers ex_store !! l)) /\
  exists ds1 st1,
    strip_nibabel ex_ds_old ex_store = (Ok ds1, st1) /\
    strip_nibabel ds1 st1 = (Ok ds1, st1) /\
    (forall s, ds_a ex_ds_old !! "imgtype" = Some (AStr s) ->
               ds_a ds1 !! "imgtype" = Some (AStr s)) /\
    (ds_a ex_ds_old !! "imghdr" = None ->
     st1 = ex_store /\ ds_a ds1 !! "imghdr" = None) /\
    (forall kv, ds_a ex_ds_old !! "imghdr" = Some (ADict kv) ->
                st1 = ex_store /\ ds_a ds1 !! "imghdr" = Some (ADict kv)).
Proof.
  assert (H : forall l, ds_a ex_ds_old !! "imghdr" = Some (AHeader l) ->
                        is_Some (headers ex_store !! l)).
  { intros l E. vm_compute in E. injection E as <-. eexists. reflexivity. }
  split; [exact H|].
  apply (strip_nibabel_idempotent ex_ds_old ex_store H).
Defined.

(** A header that cannot be snapshotted is dropped from the dataset, and
    no exception reaches the caller. *)
Example strip_nibabel_drops_minc_header :
  let r := strip_nibabel ex_ds_minc ex_store_minc in
  (exists ds, r.1 = Ok ds /\ ds_a ds !! "imghdr" = None
              /\ ds_a ds !! "imgtype" = Some (AStr "Minc1Image")) /\
  r.2 = ex_store_minc.
Proof. split; [eexists; repeat split; reflexivity|reflexivity]. Qed.

(** ** Resolving the image class, and the [ensure] flag *)

Section Resolve.
Context {A : Type}.
Variable env : environment A.
Implicit Types (st : store A) (ds : Dataset A).

(** C8 (amended). With no explicit image class, a stored [imgtype]
    that is a string is looked up in the [nibabel] namespace, and a
    name that is not there raises [AttributeError], which is not
    caught; only the [TypeError] of a lookup with a stored value that is
    not a string is absorbed, and that value is then used as the class.
    Without a stored [imgtype] the default class [Nifti1Image] is
    taken. *)
Theorem resolve_imgtype_spec ds st :
  resolve_imgtype env ds None st =
    match ds_a ds !! "imgtype" with
    | Some (AStr name) =>
        match nib_namespace env name with
        | Some o => (Ok o, st)
        | None => (Raise AttributeError, st)
        end
    | Some x => (Ok (attr_as_pyobj x), st)
    | None => (nibabel_getattr env "Nifti1Image", st)
    end.
Proof.
  unfold resolve_imgtype.
  destruct (ds_a ds !! "imgtype") as [x|]; [|reflexivity].
  unfold try_except, liftO, getattr_nibabel, nibabel_getattr.
  destruct x; try reflexivity.
  by destruct (nib_namespace env s).
Qed.
End Resolve.

(** C8 as stated fails: the name ["NoSuchImage"] does not resolve, and
    the [AttributeError] of the lookup leaves the resolution step and
    [map2nifti]. *)
Lemma resolve_imgtype_unknown_name :
  ds_a ex_ds_badtype !! "imgtype" = Some (AStr "NoSuchImage") /\
  nib_namespace ex_env "NoSuchImage" = None /\
  resolve_imgtype ex_env ex_ds_badtype None ex_store = (Raise AttributeError, ex_store) /\
  map2nifti ex_env ex_ds_badtype None None None ex_store = (Raise AttributeError, ex_store).
Proof. repeat split; vm_compute; reflexivity. Qed.

Section Ensure.
Context {A : Type} `{Dtype A}.
Variable env : environment A.
Implicit Types (st : store A).

(** C2: what the code does.  [_load_anyimg] takes [ensure] only to pass
    it on to the loads of a list's items: with [ensure=True] a source
    that is [None], not an image, or an empty list still yields [None]
    and not an exception, against the docstring of the function.
    [fmri_dataset] then fails on unpacking that [None], with a
    [TypeError]. *)
Theorem load_anyimg_ensure_ignored (enforce_dim : option Z) st :
  _load_anyimg env SNone true enforce_dim st = (Ok None, st) /\
  (forall arr, _load_anyimg env (SArray arr) true enforce_dim st = (Ok None, st)) /\
  _load_anyimg env (SList []) true enforce_dim st = (Ok None, st) /\
  (forall img, ic_spatial (img_class img) = false ->
               _load_anyimg env (SImg img) true enforce_dim st = (Ok None, st)) /\
  (forall targets chunks mask sprefix tprefix add_fa,
     fmri_dataset env SNone targets chunks mask sprefix tprefix add_fa st
     = (Raise TypeError, st)).
Proof.
  repeat split; try reflexivity.
  intros img Hsp. simpl. unfold bind, ret. simpl. rewrite Hsp. reflexivity.
Qed.
End Ensure.

(** ** The 5-d squeeze *)

Section Squeeze.
Context {A : Type}.
Variable env : environment A.
Implicit Types (st : store A) (a : ndarray A).

Lemma load_anyimg_single src ensure enforce_dim :
  (forall s l, src <> SList (s :: l)) ->
  _load_anyimg env src ensure enforce_dim =
    let* r := _img2data env src in
    match r, enforce_dim with
    | Some (imgdata, imghdr, img), Some enforce_dim =>
        let* a := get_arr imgdata in
        let* new_shape := liftO (enforce_shape (shape a) enforce_dim) in
        let* _ := match new_shape with
                  | Some new_shape => set_shape imgdata new_shape
                  | None => ret tt
                  end in
        ret (Some (imgdata, imghdr, img))
    | _, _ => ret r
    end.
Proof.
  intros Hs. destruct src as [ | | |l| ]; try reflexivity.
  destruct l as [|s l]; [reflexivity|]. by destruct (Hs s l).
Qed.

Lemma img2data_5d st img a h X Y Z T :
  ic_spatial (img_class img) = true ->
  arrays st !! img_dataobj img = Some a ->
  shape a = [X; Y; Z; 1; T] ->
  wf_array a ->
  headers st !! img_header img = Some h ->
  _img2data env (SImg img) st =
    (Ok (Some (S (length (arrays st)), img_header img, img)),
     Store (arrays st ++ [NdArray [X; Y; Z; T] (data a);
                          np_transpose [3; 0; 1; 2] (NdArray [X; Y; Z; T] (data a))])
           (<[img_header img :=
                Header (hdr_class h)
                       (hc_set_data_shape (hdr_class h) [X; Y; Z; T] (hdr_fields h))]>
              (headers st))
           (warnings st ++ [afni_warning])).
Proof.
  intros Hsp Ha Hs Hwf Hh. unfold _img2data.
  rewrite (bind_ok _ _ _ (Some img) st) by done. rewrite Hsp.
  rewrite (bind_ok _ _ _ (shape a) st); last first.
  { unfold img_shape. by rewrite (bind_ok _ _ _ _ _ (get_arr_ok _ _ _ Ha)). }
  rewrite Hs. cbn [length Nat.eqb nth andb].
  set (st1 := Store (arrays st ++ [NdArray [X; Y; Z; T] (data a)])
                    (<[img_header img :=
                         Header (hdr_class h)
                           (hc_set_data_shape (hdr_class h) [X; Y; Z; T] (hdr_fields h))]>
                       (headers st))
                    (warnings st ++ [afni_warning])).
  rewrite (bind_ok _ _ _ (length (arrays st)) st1); last first.
  { erewrite bind_ok by reflexivity.
    erewrite bind_ok; last first.
    { unfold hdr_set_data_shape. erewrite bind_ok; [reflexivity|].
      apply get_hdr_ok. exact Hh. }
    erewrite bind_ok; last first.
    { apply get_arr_ok. exact Ha. }
    unfold np_reshape. rewrite bool_decide_eq_true_2; last first.
    { red in Hwf. rewrite Hwf, Hs. simpl. lia. }
    reflexivity. }
  erewrite bind_ok; last first.
  { apply get_txyz_shaped_4d with (a := NdArray [X; Y; Z; T] (data a)); [|done].
    subst st1. simpl. rewrite lookup_app_r by done. by rewrite Nat.sub_diag. }
  subst st1. unfold ret. simpl. rewrite length_app. simpl.
  rewrite Nat.add_1_r. rewrite <- app_assoc. reflexivity.
Qed.

(** C5 (amended). Loading an image whose data has shape
    [(X, Y, Z, 1, T)] returns an array of shape [(T, X, Y, Z)]: the
    data squeezed to [(X, Y, Z, T)] and then brought into time-major
    order.  The header's data shape is set to [(X, Y, Z, T)] in place,
    one warning is issued, and the image's own array keeps its five
    dimensions. *)
Theorem load_5d_squeeze st img a h X Y Z T ensure enforce_dim :
  ic_spatial (img_class img) = true ->
  arrays st !! img_dataobj img = Some a ->
  shape a = [X; Y; Z; 1; T] ->
  wf_array a ->
  headers st !! img_header img = Some h ->
  enforce_dim = None \/ enforce_dim = Some 4%Z ->
  exists d st' a',
    _load_anyimg env (SImg img) ensure enforce_dim st
      = (Ok (Some (d, img_header img, img)), st') /\
    arrays st' !! d = Some a' /\
    shape a' = [T; X; Y; Z] /\
    a' = np_transpose [3; 0; 1; 2] (NdArray [X; Y; Z; T] (data a)) /\
    arrays st' !! img_dataobj img = Some a /\
    headers st' !! img_header img
      = Some (Header (hdr_class h)
                (hc_set_data_shape (hdr_class h) [X; Y; Z; T] (hdr_fields h))) /\
    warnings st' = warnings st ++ [afni_warning].
Proof.
  intros Hsp Ha Hs Hwf Hh Hed.
  pose proof (img2data_5d st img a h X Y Z T Hsp Ha Hs Hwf Hh) as Hrun.
  pose proof (lookup_lt_Some _ _ _ Ha) as Hlt.
  pose proof (lookup_lt_Some _ _ _ Hh) as Hlth.
  set (a' := np_transpose [3; 0; 1; 2] (NdArray [X; Y; Z; T] (data a))) in *.
  assert (Hget : forall st2, arrays st2 = arrays st ++ [NdArray [X; Y; Z; T] (data a); a'] ->
                             arrays st2 !! S (length (arrays st)) = Some a').
  { intros st2 ->. rewrite lookup_app_r by lia.
    replace (S (length (arrays st)) - length (arrays st)) with 1 by lia. done. }
  eexists _, _, a'. rewrite load_anyimg_single by done.
  rewrite (bind_ok _ _ _ _ _ Hrun). split.
  - destruct Hed as [-> | ->]; [reflexivity|].
    erewrite bind_ok by (apply get_arr_ok, Hget; reflexivity).
    reflexivity.
  - split; [by apply Hget|]. split; [done|]. split; [done|].
    simpl. split; [by rewrite lookup_app_l|].
    split; [by apply list_lookup_insert_eq|done].
Qed.
End Squeeze.

Lemma load_5d_squeeze_witness :
  ic_spatial (img_class ex_img5) = true /\
  arrays ex_store !! img_dataobj ex_img5 = Some ex_arr5 /\
  shape ex_arr5 = [2; 1; 2; 1; 3] /\
  wf_array ex_arr5 /\
  headers ex_store !! img_header ex_img5 = Some ex_header5 /\
  exists d st' a',
    _load_anyimg ex_env (SImg ex_img5) false None ex_store
      = (Ok (Some (d, img_header ex_img5, ex_img5)), st') /\
    arrays st' !! d = Some a' /\
    shape a' = [3; 2; 1; 2] /\
    a' = np_transpose [3; 0; 1; 2] (NdArray [2; 1; 2; 3] (data ex_arr5)) /\
    arrays st' !! img_dataobj ex_img5 = Some ex_arr5 /\
    headers st' !! img_header ex_img5
      = Some (Header (hdr_class ex_header5)
                (hc_set_data_shape (hdr_class ex_header5) [2; 1; 2; 3]
                                   (hdr_fields ex_header5))) /\
    warnings st' = warnings ex_store ++ [afni_warning].
Proof.
  repeat (split; [reflexivity|]).
  apply (load_5d_squeeze ex_env ex_store ex_img5 ex_arr5 ex_header5 2 1 2 3 false None);
    try reflexivity.
  left; reflexivity.
Defined.

(** C5 as stated fails: the array loaded from an image of shape
    [(2, 1, 2, 1, 3)] has shape [(3, 2, 1, 2)], not [(2, 1, 2, 3)]. *)
Lemma load_5d_shape_is_time_major :
  shape ex_arr5 = [2; 1; 2; 1; 3] /\
  exists d st',
    _load_anyimg ex_env (SImg ex_img5) false None ex_store
      = (Ok (Some (d, 2, ex_img5)), st') /\
    shape <$> arrays st' !! d = Some [3; 2; 1; 2] /\
    [3; 2; 1; 2] <> [2; 1; 2; 3].
Proof.
  split; [reflexivity|]. eexists _, _. split; [vm_compute; reflexivity|].
  split; [reflexivity|discriminate].
Qed.

(** ** Enforcement on a loaded image *)

Section Enforce.
Context {A : Type}.
Variable env : environment A.
Implicit Types (st : store A) (a : ndarray A).

(** How the enforcement reaches the loaded array: an image whose data is
    neither rolled (rank 4) nor squeezed (rank 5 with a singleton fourth
    axis) is loaded as its own array object, and that object gets the
    enforced shape in place, with its elements kept. *)
Lemma load_anyimg_enforces st img a ensure (r : Z) :
  ic_spatial (img_class img) = true ->
  arrays st !! img_dataobj img = Some a ->
  wf_array a ->
  length (shape a) <> 4 ->
  (length (shape a) =? 5) && (nth 3 (shape a) 0 =? 1) = false ->
  _load_anyimg env (SImg img) ensure (Some r) st =
    match enforce_shape (shape a) r with
    | Ok (Some ns) =>
        (Ok (Some (img_dataobj img, img_header img, img)),
         Store (<[img_dataobj img := NdArray ns (data a)]> (arrays st))
               (headers st) (warnings st))
    | Ok None => (Ok (Some (img_dataobj img, img_header img, img)), st)
    | Raise e => (Raise e, st)
    end.
Proof.
  intros Hsp Ha Hwf H4 H5. rewrite load_anyimg_single by done.
  rewrite (bind_ok _ _ _ (Some (img_dataobj img, img_header img, img)) st); last first.
  { unfold _img2data. rewrite (bind_ok _ _ _ (Some img) st) by done. rewrite Hsp.
    rewrite (bind_ok _ _ _ (shape a) st); last first.
    { unfold img_shape. by rewrite (bind_ok _ _ _ _ _ (get_arr_ok _ _ _ Ha)). }
    rewrite H5. rewrite (bind_ok _ _ _ (img_dataobj img) st) by done.
    by rewrite (bind_ok _ _ _ _ _ (get_txyz_shaped_other _ _ _ Ha H4)). }
  rewrite (bind_ok _ _ _ _ _ (get_arr_ok _ _ _ Ha)).
  destruct (enforce_shape (shape a) r) as [[ns|]|e] eqn:E; [|done|done].
  rewrite (bind_ok _ _ _ (Some ns) st) by done.
  erewrite bind_ok; [reflexivity|].
  unfold set_shape. rewrite (bind_ok _ _ _ _ _ (get_arr_ok _ _ _ Ha)).
  unfold np_reshape. rewrite bool_decide_eq_true_2; [reflexivity|].
  rewrite (enforce_shape_size _ _ _ E). symmetry. exact Hwf.
Qed.
End Enforce.

(** A 3-d image loaded with rank 4 enforced. *)
Example load_3d_enforced :
  (let r := _load_anyimg ex_env (SImg ex_img3) true (Some 4%Z) ex_store in
   r.1 = Ok (Some (1, 1, ex_img3)) /\
   arrays r.2 !! 1 = Some (NdArray [1; 2; 2; 2] (data ex_arr3))).
Proof. split; reflexivity. Qed.

(** A 5-d array with a non-singleton leading axis cannot be brought to
    rank 4. *)
Example enforce_5d_fails : enforce_shape [2; 3; 4; 5; 6] 4 = Raise ValueError.
Proof. reflexivity. Qed.

Example enforce_5d_strips : enforce_shape [1; 3; 4; 5; 6] 4 = Ok (Some [3; 4; 5; 6]).
Proof. reflexivity. Qed.

(** ** What [fmri_dataset] does to its inputs *)

Lemma source_ind' {A} (P : source A -> Prop) :
  P SNone -> (forall p, P (SStr p)) -> (forall i, P (SImg i)) ->
  (forall l, Forall P l -> P (SList l)) -> (forall a, P (SArray a)) ->
  forall s, P s.
Proof.
  intros HN HS HI HL HA. fix IH 1.
  intros [ | p | i | l | a]; [exact HN | apply HS | apply HI | | apply HA].
  apply HL. induction l as [|s l IHl]; constructor; [apply IH | exact IHl].
Qed.

Section Frame.
Context {A : Type}.
Implicit Types (st : store A) (a : ndarray A).



















Variable env : environment A.











Context `{Dtype A}.

End Frame.


(** ** The round trip through [fmri_dataset] and [map2nifti] *)

Section Roundtrip.
Context {A : Type} `{Dtype A}.
Variable env : environment A.
Implicit Types (st : store A) (a : ndarray A).

Lemma img2data_4d st img a :
  ic_spatial (img_class img) = true ->
  arrays st !! img_dataobj img = Some a ->
  length (shape a) = 4 ->
  _img2data env (SImg img) st =
    (Ok (Some (length (arrays st), img_header img, img)),
     Store (arrays st ++ [np_transpose [3; 0; 1; 2] a]) (headers st) (warnings st)).
Proof.
  intros Hsp Ha H4. unfold _img2data.
  rewrite (bind_ok _ _ _ (Some img) st) by done. rewrite Hsp.
  rewrite (bind_ok _ _ _ (shape a) st); last first.
  { unfold img_shape. by rewrite (bind_ok _ _ _ _ _ (get_arr_ok _ _ _ Ha)). }
  rewrite H4. cbn [Nat.eqb andb].
  rewrite (bind_ok _ _ _ (img_dataobj img) st) by done.
  erewrite bind_ok by (by apply get_txyz_shaped_4d). reflexivity.
Qed.

Lemma load_anyimg_4d st img a ensure :
  ic_spatial (img_class img) = true ->
  arrays st !! img_dataobj img = Some a ->
  length (shape a) = 4 ->
  _load_anyimg env (SImg img) ensure (Some 4%Z) st =
    (Ok (Some (length (arrays st), img_header img, img)),
     Store (arrays st ++ [np_transpose [3; 0; 1; 2] a]) (headers st) (warnings st)).
Proof.
  intros Hsp Ha H4. rewrite load_anyimg_single by done.
  rewrite (bind_ok _ _ _ _ _ (img2data_4d st img a Hsp Ha H4)).
  erewrite bind_ok; last first.
  { apply get_arr_ok. simpl. rewrite lookup_app_r by done. rewrite Nat.sub_diag. reflexivity. }
  rewrite enforce_shape_eq by (by rewrite shape_transpose_last_first).
  reflexivity.
Qed.




Lemma prefix_key_ne (p : string) :
  (String.append p "_dim" <> "mapper" /\ String.append p "_dim" <> "imgtype" /\
   String.append p "_dim" <> "imghdr") /\
  (String.append p "_eldim" <> "mapper" /\ String.append p "_eldim" <> "imgtype" /\
   String.append p "_eldim" <> "imghdr").
Proof.
  repeat split; intros E;
    do 8 (destruct p as [|? p]; [discriminate E|]); discriminate E.
Qed.








End Roundtrip.



(* ================================================================== *)
(** * Further properties *)

(** ** Axis order *)

Section ShapeMore.
Context {A : Type}.
Implicit Types (st : store A) (a : ndarray A).

Lemma wf_transpose_first_last a X Y Z T :
  shape a = [T; X; Y; Z] -> wf_array a -> wf_array (np_transpose [1; 2; 3; 0] a).
Proof.
  intros Hs Hwf. destruct (transpose_first_last a X Y Z T Hs Hwf) as (E1&E2&_).
  red. by rewrite E1, E2.
Qed.

Lemma transpose_roundtrip_rev a :
  length (shape a) = 4 -> wf_array a ->
  np_transpose [3; 0; 1; 2] (np_transpose [1; 2; 3; 0] a) = a.
Proof.
  intros Hl Hwf. destruct a as [sh d]. simpl in Hl.
  destruct sh as [|T [|X [|Y [|Z [|]]]]]; try discriminate Hl. clear Hl.
  set (a := NdArray [T; X; Y; Z] d) in *.
  destruct (transpose_first_last a X Y Z T eq_refl Hwf) as (Hs1&Hl1&Hd1).
  pose proof (wf_transpose_first_last a X Y Z T eq_refl Hwf) as Hwf1.
  destruct (transpose_last_first _ X Y Z T Hs1 Hwf1) as (Hs2&Hl2&Hd2).
  destruct (np_transpose [3; 0; 1; 2] (np_transpose [1; 2; 3; 0] a)) as [sh2 d2].
  cbn [shape data] in Hs2, Hl2, Hd2. subst sh2. unfold a. f_equal.
  apply list_eq. intros i.
  assert (Hld : length d = size_of [T; X; Y; Z]) by exact Hwf.
  destruct (decide (i < size_of [T; X; Y; Z])) as [Hi|Hi].
  - destruct (unravel4 _ _ _ _ _ Hi) as (t&x&y&z&_&?&?&?&?&Hr).
    rewrite <- Hr, Hd2, Hd1 by done. done.
  - rewrite !lookup_ge_None_2; [done| |]; lia.
Qed.

(** X1. [_get_txyz_shaped] on a 4-d array of shape [(X, Y, Z, T)]
    returns a new array of shape [(T, X, Y, Z)] whose element
    [(t, x, y, z)] is element [(x, y, z, t)] of the input; the input
    array object is left as it is. *)
Theorem get_txyz_shaped_elements st (l : loc) a X Y Z T :
  arrays st !! l = Some a ->
  shape a = [X; Y; Z; T] ->
  wf_array a ->
  exists l' st' b,
    _get_txyz_shaped l st = (Ok l', st') /\
    arrays st' !! l' = Some b /\
    shape b = [T; X; Y; Z] /\
    wf_array b /\
    (forall x y z t, x < X -> y < Y -> z < Z -> t < T ->
       data b !! ravel [T; X; Y; Z] [t; x; y; z]
       = data a !! ravel [X; Y; Z; T] [x; y; z; t]) /\
    l' <> l /\
    arrays st' !! l = Some a.
Proof.
  intros Hl Hs Hwf.
  destruct (transpose_last_first a X Y Z T Hs Hwf) as (E1&E2&E3).
  pose proof (lookup_lt_Some _ _ _ Hl) as Hlt.
  eexists _, _, _. split; [apply get_txyz_shaped_4d; [exact Hl|by rewrite Hs]|].
  cbn [arrays]. split; [by apply list_lookup_middle|].
  split; [done|]. split; [red; by rewrite E1, E2|]. split; [done|].
  split; [lia|]. by rewrite lookup_app_l.
Qed.

(** X2. [_get_xyzt_shaped] on a 4-d array of shape [(T, X, Y, Z)]
    returns a new array of shape [(X, Y, Z, T)] whose element
    [(x, y, z, t)] is element [(t, x, y, z)] of the input; the input
    array object is left as it is. *)
Theorem get_xyzt_shaped_elements st (l : loc) a X Y Z T :
  arrays st !! l = Some a ->
  shape a = [T; X; Y; Z] ->
  wf_array a ->
  exists l' st' b,
    _get_xyzt_shaped l st = (Ok l', st') /\
    arrays st' !! l' = Some b /\
    shape b = [X; Y; Z; T] /\
    wf_array b /\
    (forall x y z t, x < X -> y < Y -> z < Z -> t < T ->
       data b !! ravel [X; Y; Z; T] [x; y; z; t]
       = data a !! ravel [T; X; Y; Z] [t; x; y; z]) /\
    l' <> l /\
    arrays st' !! l = Some a.
Proof.
  intros Hl Hs Hwf.
  destruct (transpose_first_last a X Y Z T Hs Hwf) as (E1&E2&E3).
  pose proof (lookup_lt_Some _ _ _ Hl) as Hlt.
  eexists _, _, _. split; [apply get_xyzt_shaped_4d; [exact Hl|by rewrite Hs]|].
  cbn [arrays]. split; [by apply list_lookup_middle|].
  split; [done|]. split; [red; by rewrite E1, E2|]. split; [done|].
  split; [lia|]. by rewrite lookup_app_l.
Qed.

(** X3. The inverse normalisation followed by the forward one returns
    an array equal to the one it started from, for every rank. *)
Theorem xyzt_txyz_roundtrip st (l : loc) a :
  arrays st !! l = Some a -> wf_array a ->
  exists l' st',
    (let* t := _get_xyzt_shaped l in _get_txyz_shaped t) st = (Ok l', st') /\
    arrays st' !! l' = Some a /\
    (forall j, j < length (arrays st) -> arrays st' !! j = arrays st !! j) /\
    headers st' = headers st /\ warnings st' = warnings st.
Proof.
  intros Hl Hwf. destruct (decide (length (shape a) = 4)) as [H4|H4].
  - eexists _, _. split; [|split; [|split; [|split]]].
    + erewrite bind_ok by (by apply get_xyzt_shaped_4d).
      eapply get_txyz_shaped_4d.
      * simpl. by apply list_lookup_middle.
      * unfold np_transpose. reflexivity.
    + simpl. rewrite transpose_roundtrip_rev by done.
      apply list_lookup_middle. rewrite length_app. simpl. lia.
    + intros j Hj. simpl. by rewrite !lookup_app_l by (rewrite ?length_app; simpl; lia).
    + done.
    + done.
  - exists l, st. split; [|done].
    erewrite bind_ok by (by eapply get_xyzt_shaped_other).
    by eapply get_txyz_shaped_other.
Qed.
End ShapeMore.

Lemma get_txyz_shaped_elements_witness :
  arrays ex_store !! 0 = Some ex_arr4 /\
  shape ex_arr4 = [2; 1; 2; 3] /\
  wf_array ex_arr4 /\
  exists l' st' b,
    _get_txyz_shaped 0 ex_store = (Ok l', st') /\
    arrays st' !! l' = Some b /\
    shape b = [3; 2; 1; 2] /\
    wf_array b /\
    (forall x y z t, x < 2 -> y < 1 -> z < 2 -> t < 3 ->
       data b !! ravel [3; 2; 1; 2] [t; x; y; z]
       = data ex_arr4 !! ravel [2; 1; 2; 3] [x; y; z; t]) /\
    l' <> 0 /\
    arrays st' !! 0 = Some ex_arr4.
Proof.
  repeat (split; [reflexivity|]).
  apply (get_txyz_shaped_elements ex_store 0 ex_arr4 2 1 2 3); reflexivity.
Defined.

Lemma get_xyzt_shaped_elements_witness :
  arrays ex_store !! 0 = Some ex_arr4 /\
  shape ex_arr4 = [2; 1; 2; 3] /\
  wf_array ex_arr4 /\
  exists l' st' b,
    _get_xyzt_shaped 0 ex_store = (Ok l', st') /\
    arrays st' !! l' = Some b /\
    shape b = [1; 2; 3; 2] /\
    wf_array b /\
    (forall x y z t, x < 1 -> y < 2 -> z < 3 -> t < 2 ->
       data b !! ravel [1; 2; 3; 2] [x; y; z; t]
       = data ex_arr4 !! ravel [2; 1; 2; 3] [t; x; y; z]) /\
    l' <> 0 /\
    arrays st' !! 0 = Some ex_arr4.
Proof.
  repeat (split; [reflexivity|]).
  apply (get_xyzt_shaped_elements ex_store 0 ex_arr4 1 2 3 2); reflexivity.
Defined.

Lemma xyzt_txyz_roundtrip_witness :
  arrays ex_store !! 0 = Some ex_arr4 /\ wf_array ex_arr4 /\
  exists l' st',
    (let* t := _get_xyzt_shaped 0 in _get_txyz_shaped t) ex_store = (Ok l', st') /\
    arrays st' !! l' = Some ex_arr4 /\
    (forall j, j < length (arrays ex_store) -> arrays st' !! j = arrays ex_store !! j) /\
    headers st' = headers ex_store /\ warnings st' = warnings ex_store.
Proof.
  split; [reflexivity|]. split; [reflexivity|].
  apply (xyzt_txyz_roundtrip ex_store 0 ex_arr4); reflexivity.
Defined.

(** ** Decoding and encoding headers *)


Section CodecMore.
Context {A : Type}.
Variable env : environment A.
Implicit Types (st : store A).

(** X4. [_hdr2dict] only reads: whatever it is given, the arrays and
    headers of the store are the same afterwards, also when it repairs
    the scale fields (the repair is made in the snapshot), and at most
    the one warning is added.  On a header that is not mapping-like it
    raises [TypeError]. *)
Theorem hdr2dict_reads_only st (l : loc) :
  let r := _hdr2dict l st in
  arrays r.2 = arrays st /\
  headers r.2 = headers st /\
  (warnings r.2 = warnings st \/ warnings r.2 = warnings st ++ [scl_warning]) /\
  (forall h, headers st !! l = Some h -> hc_mapping (hdr_class h) = false ->
             r = (Raise TypeError, st)).
Proof.
  cbv zeta. unfold _hdr2dict, bind, get_hdr.
  destruct (headers st !! l) as [h|]; [|repeat split; auto; discriminate].
  unfold liftO, py_dict. destruct (hc_mapping (hdr_class h)) eqn:Hm.
  - destruct (_ && _); simpl; repeat split; auto; intros ? [= <-]; congruence.
  - repeat split; auto.
Qed.


End CodecMore.


(** ** Stripping a header instance *)

Section StripMore.
Context {A : Type}.
Implicit Types (st : store A) (ds : Dataset A).

(** X7. [strip_nibabel] on a dataset that holds a header instance:
    the header is replaced by its snapshot, or removed when the header
    is not mapping-like, and no exception is raised either way;
    [imgaffine] becomes the header's best affine when the header has
    one; an [imgtype] that is a class becomes its name; every other
    attribute, the samples, and the arrays and headers of the store stay
    as they are. *)
Theorem strip_nibabel_converts ds st (l : loc) (h : header) :
  ds_a ds !! "imghdr" = Some (AHeader l) ->
  headers st !! l = Some h ->
  exists ds1 st1,
    strip_nibabel ds st = (Ok ds1, st1) /\
    ds_a ds1 !! "imghdr"
      = (if hc_mapping (hdr_class h) then Some (ADict (snapshot_of h)) else None) /\
    ds_a ds1 !! "imgaffine"
      = match hc_get_best_affine (hdr_class h) with
        | Some f => Some (AValue (f (hdr_fields h)))
        | None => ds_a ds !! "imgaffine"
        end /\
    ds_a ds1 !! "imgtype"
      = match ds_a ds !! "imgtype" with
        | Some (AType c) => Some (AStr (ic_name c))
        | x => x
        end /\
    (forall k, k <> "imghdr" -> k <> "imgaffine" -> k <> "imgtype" ->
               ds_a ds1 !! k = ds_a ds !! k) /\
    ds_samples ds1 = ds_samples ds /\ ds_sa ds1 = ds_sa ds /\ ds_fa ds1 = ds_fa ds /\
    arrays st1 = arrays st /\ headers st1 = headers st.
Proof.
  intros Hhdr Hl. unfold strip_nibabel.
  set (ds0 := match ds_a ds !! "imgtype" with
              | Some (AType c) => set_a ds "imgtype" (AStr (ic_name c))
              | _ => ds
              end).
  assert (H0 : ds_a ds0 !! "imgtype"
               = match ds_a ds !! "imgtype" with
                 | Some (AType c) => Some (AStr (ic_name c))
                 | x => x
                 end /\
               (forall k, k <> "imgtype" -> ds_a ds0 !! k = ds_a ds !! k) /\
               ds_samples ds0 = ds_samples ds /\ ds_sa ds0 = ds_sa ds /\
               ds_fa ds0 = ds_fa ds).
  { subst ds0. destruct (ds_a ds !! "imgtype") as [[]|] eqn:E; rewrite ?E; try done.
    unfold set_a. simpl. rewrite lookup_insert_eq. repeat split.
    intros k Hk. by rewrite lookup_insert_ne. }
  destruct H0 as (Hty0&Hk0&Hs0&Hsa0&Hfa0). clearbody ds0.
  rewrite Hk0, Hhdr by done.
  set (ds2 := match hc_get_best_affine (hdr_class h) with
              | Some f => set_a ds0 "imgaffine" (AValue (f (hdr_fields h)))
              | None => ds0
              end).
  rewrite (bind_ok _ _ _ ds2 st); last first.
  { rewrite (bind_ok _ _ _ _ _ (get_hdr_ok _ _ _ Hl)).
    subst ds2. by destruct (hc_get_best_affine (hdr_class h)). }
  assert (H2 : ds_a ds2 !! "imgaffine"
               = match hc_get_best_affine (hdr_class h) with
                 | Some f => Some (AValue (f (hdr_fields h)))
                 | None => ds_a ds !! "imgaffine"
                 end /\
               (forall k, k <> "imgaffine" -> ds_a ds2 !! k = ds_a ds0 !! k) /\
               ds_samples ds2 = ds_samples ds0 /\ ds_sa ds2 = ds_sa ds0 /\
               ds_fa ds2 = ds_fa ds0).
  { subst ds2. destruct (hc_get_best_affine (hdr_class h)).
    - unfold set_a. simpl. rewrite lookup_insert_eq. repeat split.
      intros k Hk. by rewrite lookup_insert_ne.
    - split; [by apply Hk0|done]. }
  destruct H2 as (Haf2&Hk2&Hs2&Hsa2&Hfa2). clearbody ds2.
  unfold try_except. destruct (hc_mapping (hdr_class h)) eqn:Hm.
  - pose proof (hdr2dict_run st l h Hl Hm) as Hrun.
    fold (snapshot_of h).
    assert (Hsnap : exists w, _hdr2dict l st
                      = (Ok (snapshot_of h), Store (arrays st) (headers st) w)).
    { rewrite Hrun. unfold snapshot_of.
      destruct (_ && _); [by eexists|]. exists (warnings st). by destruct st. }
    destruct Hsnap as [w Hsnap]. rewrite (bind_ok _ _ _ _ _ Hsnap).
    eexists _, _. split; [reflexivity|]. unfold set_a. cbn.
    split; [apply lookup_insert_eq|].
    split; [by rewrite lookup_insert_ne|].
    split; [by rewrite lookup_insert_ne, Hk2, Hty0|].
    split; [intros k ? ? ?; by rewrite lookup_insert_ne, Hk2, Hk0|].
    repeat split; congruence.
  - rewrite (bind_raise _ _ st TypeError st); last first.
    { unfold _hdr2dict. rewrite (bind_ok _ _ _ _ _ (get_hdr_ok _ _ _ Hl)).
      unfold py_dict. rewrite Hm. reflexivity. }
    cbn [any_exception]. eexists _, _. split; [reflexivity|]. unfold del_a. cbn.
    split; [apply lookup_delete_eq|].
    split; [by rewrite lookup_delete_ne|].
    split; [by rewrite lookup_delete_ne, Hk2, Hty0|].
    split; [intros k ? ? ?; by rewrite lookup_delete_ne, Hk2, Hk0|].
    repeat split; congruence.
Qed.
End StripMore.

Lemma strip_nibabel_converts_witness :
  ds_a ex_ds_old !! "imghdr" = Some (AHeader 0) /\
  headers ex_store !! 0 = Some ex_header /\
  exists ds1 st1,
    strip_nibabel ex_ds_old ex_store = (Ok ds1, st1) /\
    ds_a ds1 !! "imghdr"
      = (if hc_mapping (hdr_class ex_header) then Some (ADict (snapshot_of ex_header))
         else None) /\
    ds_a ds1 !! "imgaffine"
      = match hc_get_best_affine (hdr_class ex_header) with
        | Some f => Some (AValue (f (hdr_fields ex_header)))
        | None => ds_a ex_ds_old !! "imgaffine"
        end /\
    ds_a ds1 !! "imgtype"
      = match ds_a ex_ds_old !! "imgtype" with
        | Some (AType c) => Some (AStr (ic_name c))
        | x => x
        end /\
    (forall k, k <> "imghdr" -> k <> "imgaffine" -> k <> "imgtype" ->
               ds_a ds1 !! k = ds_a ex_ds_old !! k) /\
    ds_samples ds1 = ds_samples ex_ds_old /\ ds_sa ds1 = ds_sa ex_ds_old /\
    ds_fa ds1 = ds_fa ex_ds_old /\
    arrays st1 = arrays ex_store /\ headers st1 = headers ex_store.
Proof.
  split; [reflexivity|]. split; [reflexivity|].
  apply (strip_nibabel_converts ex_ds_old ex_store 0 ex_header); reflexivity.
Defined.

(** ** [map2nifti] in general *)

Section MapMore.
Context {A : Type} `{Dtype A}.
Variable env : environment A.
Implicit Types (st : store A) (ds : Dataset A).






End MapMore.




(** ** The attributes [fmri_dataset] attaches *)

Lemma append_inj_r (p a b : string) : String.append p a = String.append p b -> a = b.
Proof. induction p as [|c p IH]; simpl; [done|]. intros E. apply IH. by injection E. Qed.

Lemma ravel_time_major X Y Z T t x y z :
  ravel [T; X; Y; Z] [t; x; y; z] = t * size_of [X; Y; Z] + ravel [X; Y; Z] [x; y; z].
Proof. unfold ravel. simpl. lia. Qed.

Section DatasetMore.
Context {A : Type} `{Dtype A}.
Variable env : environment A.
Implicit Types (st : store A) (a : ndarray A) (ds : Dataset A).

Lemma strip_nibabel_keeps ds st (l : loc) (h : header) s :
  ds_a ds !! "imgtype" = Some (AStr s) ->
  ds_a ds !! "imghdr" = Some (AHeader l) ->
  headers st !! l = Some h ->
  exists ds1 st1,
    strip_nibabel ds st = (Ok ds1, st1) /\
    (forall k, k <> "imghdr" -> k <> "imgaffine" -> ds_a ds1 !! k = ds_a ds !! k) /\
    ds_samples ds1 = ds_samples ds /\ ds_sa ds1 = ds_sa ds /\ ds_fa ds1 = ds_fa ds /\
    arrays st1 = arrays st /\ headers st1 = headers st.
Proof.
  intros Hty Hhdr Hl. unfold strip_nibabel. rewrite Hty, Hhdr.
  set (ds2 := match hc_get_best_affine (hdr_class h) with
              | Some f => set_a ds "imgaffine" (AValue (f (hdr_fields h)))
              | None => ds
              end).
  rewrite (bind_ok _ _ _ ds2 st); last first.
  { rewrite (bind_ok _ _ _ _ _ (get_hdr_ok _ _ _ Hl)).
    subst ds2. by destruct (hc_get_best_affine (hdr_class h)). }
  assert (H2 : (forall k, k <> "imgaffine" -> ds_a ds2 !! k = ds_a ds !! k) /\
               ds_samples ds2 = ds_samples ds /\ ds_sa ds2 = ds_sa ds /\
               ds_fa ds2 = ds_fa ds).
  { subst ds2. destruct (hc_get_best_affine (hdr_class h)); [|done].
    unfold set_a. simpl. repeat split. intros k Hk. by rewrite lookup_insert_ne. }
  destruct H2 as (Hk2&Hs2&Hsa2&Hfa2). clearbody ds2.
  unfold try_except. destruct (hc_mapping (hdr_class h)) eqn:Hm.
  - pose proof (hdr2dict_run st l h Hl Hm) as Hrun.
    assert (Hsnap : exists kv w, _hdr2dict l st
                      = (Ok kv, Store (arrays st) (headers st) w)).
    { rewrite Hrun. destruct (_ && _); [by eexists _, _|].
      eexists _, (warnings st). by destruct st. }
    destruct Hsnap as (kv&w&Hsnap). rewrite (bind_ok _ _ _ _ _ Hsnap).
    eexists _, _. split; [reflexivity|]. unfold set_a. cbn.
    split; [intros k ? ?; by rewrite lookup_insert_ne, Hk2|].
    repeat split; congruence.
  - rewrite (bind_raise _ _ st TypeError st); last first.
    { unfold _hdr2dict. rewrite (bind_ok _ _ _ _ _ (get_hdr_ok _ _ _ Hl)).
      unfold py_dict. rewrite Hm. reflexivity. }
    cbn [any_exception]. eexists _, _. split; [reflexivity|]. unfold del_a. cbn.
    split; [intros k ? ?; by rewrite lookup_delete_ne, Hk2|].
    repeat split; congruence.
Qed.

(** X11. [fmri_dataset] on an unmasked 4-d image of shape
    [(X, Y, Z, T)]: the samples are [T] rows of [X*Y*Z] features, row
    [t] holding volume [t] in row-major voxel order; scalar [targets]
    and [chunks] are expanded to [T] entries; the time prefix adds the
    indices [0 .. T-1] and the coordinates [i * dt], [dt] being the last
    zoom; the space prefix adds the voxel indices as feature attribute,
    the volume shape and the voxel size (all zooms but the last).
    Without a time prefix the last zoom is not read. *)
Theorem fmri_dataset_attributes st img a h X Y Z T targets chunks tv cv
        sprefix tprefix dt :
  ic_spatial (img_class img) = true ->
  arrays st !! img_dataobj img = Some a ->
  shape a = [X; Y; Z; T] ->
  wf_array a ->
  headers st !! img_header img = Some h ->
  (forall t, targets = Some t -> _expand_attribute t T "targets" = Ok tv) ->
  (forall c, chunks = Some c -> _expand_attribute c T "chunks" = Ok cv) ->
  (tprefix <> None -> last (hc_get_zooms (hdr_class h) (hdr_fields h)) = Some dt) ->
  let sa := match chunks with Some _ => <["chunks" := cv]> | None => id end
              (match targets with Some _ => <["targets" := tv]> ∅ | None => ∅ end) in
  exists ds st1,
    fmri_dataset env (SImg img) targets chunks SNone sprefix tprefix None st
      = (Ok ds, st1) /\
    shape (ds_samples ds) = [T; size_of [X; Y; Z]] /\
    (forall t x y z, t < T -> x < X -> y < Y -> z < Z ->
       data (ds_samples ds) !! (t * size_of [X; Y; Z] + ravel [X; Y; Z] [x; y; z])
       = data a !! ravel [X; Y; Z; T] [x; y; z; t]) /\
    ds_sa ds
      = match tprefix with
        | Some tp =>
            <[String.append tp "_coords" :=
                map (fun i => VFloat (float_of_nat i * dt)) (seq 0 T)]>
              (<[String.append tp "_indices" :=
                   map (fun i => VInt (Z.of_nat i)) (seq 0 T)]> sa)
        | None => sa
        end /\
    ds_fa ds
      = match sprefix with
        | Some sp =>
            <[String.append sp "_indices" :=
                FIndices (map (unravel [X; Y; Z]) (seq 0 (size_of [X; Y; Z])))]> ∅
        | None => ∅
        end /\
    (forall sp, sprefix = Some sp ->
       ds_a ds !! String.append sp "_dim" = Some (AShape [X; Y; Z]) /\
       ds_a ds !! String.append sp "_eldim"
         = Some (AValue (VSeq (map VFloat
                   (removelast (hc_get_zooms (hdr_class h) (hdr_fields h))))))) /\
    ds_a ds !! "imgtype" = Some (AStr (ic_name (img_class img))) /\
    ds_a ds !! "mapper"
      = Some (AMapper (Mapper [X; Y; Z]
                (match sprefix with
                 | Some sp => Some (String.append sp "_indices")
                 | None => None
                 end) None)).
Proof.
  intros Hsp Ha Hs Hwf Hh Htg Hch Hz sa.
  assert (H4 : length (shape a) = 4) by (by rewrite Hs).
  destruct (transpose_last_first a X Y Z T Hs Hwf) as (E1&E2&E3).
  set (ta := np_transpose [3; 0; 1; 2] a) in *.
  unfold fmri_dataset.
  rewrite (bind_ok _ _ _ _ _ (load_anyimg_4d env st img a true Hsp Ha H4)).
  fold ta. set (st1 := Store (arrays st ++ [ta]) (headers st) (warnings st)).
  rewrite (bind_ok _ _ _ (length (arrays st), img_header img, img) st1) by done.
  rewrite (bind_ok _ _ _ None st1) by done.
  rewrite (bind_ok _ _ _ MNone st1) by done.
  rewrite (bind_ok _ _ _ ta st1); last first.
  { apply get_arr_ok. simpl. rewrite lookup_app_r by done. by rewrite Nat.sub_diag. }
  set (sa1 := match targets with Some _ => <["targets" := tv]> ∅ | None => ∅ end) in *.
  rewrite (bind_ok _ _ _ sa1 st1); last first.
  { subst sa1. destruct targets as [t|]; [|done].
    rewrite E1. cbn [shape0]. rewrite (bind_ok _ _ _ T st1) by done.
    rewrite (Htg t eq_refl). by rewrite (bind_ok _ _ _ tv st1). }
  rewrite (bind_ok _ _ _ sa st1); last first.
  { subst sa. destruct chunks as [c|]; [|done].
    rewrite E1. cbn [shape0]. rewrite (bind_ok _ _ _ T st1) by done.
    rewrite (Hch c eq_refl). by rewrite (bind_ok _ _ _ cv st1). }
  set (space := match sprefix with
                | Some p => Some (String.append p "_indices")
                | None => None
                end).
  unfold get_mapped_flatten, np_reshape. cbn [ds_samples ds_sa ds_fa ds_a].
  rewrite E1. cbn [hd tail].
  rewrite bool_decide_eq_true_2 by (rewrite E2; simpl; lia).
  cbn [obind].
  erewrite bind_ok by reflexivity.
  erewrite bind_ok by reflexivity.
  erewrite bind_ok by reflexivity.
  match goal with |- context [strip_nibabel ?d] => set (ds0 := d) end.
  destruct (strip_nibabel_keeps ds0 st1 (img_header img) h (ic_name (img_class img)))
    as (ds1&st2&Hstrip&Hoth1&Hs1&Hsa1&Hfa1&Harr&Hhdrs); try done.
  rewrite (bind_ok _ _ _ _ _ Hstrip).
  assert (Hget : get_hdr (img_header img) st2 = (Ok h, st2)).
  { apply get_hdr_ok. by rewrite Hhdrs. }
  set (zooms := hc_get_zooms (hdr_class h) (hdr_fields h)) in *.
  set (ds2 := match sprefix with
              | Some p =>
                  set_a (set_a ds1 (String.append p "_dim") (AShape [X; Y; Z]))
                        (String.append p "_eldim")
                        (AValue (VSeq (map VFloat (removelast zooms))))
              | None => ds1
              end).
  rewrite (bind_ok _ _ _ ds2 st2); last first.
  { subst ds2. destruct sprefix as [p|]; [|done].
    unfold _get_voxdim, hdr_get_zooms.
    rewrite (bind_ok _ _ _ (removelast zooms) st2); [done|].
    rewrite (bind_ok _ _ _ zooms st2); [done|].
    by rewrite (bind_ok _ _ _ _ _ Hget). }
  assert (Hs2 : ds_samples ds2 = ds_samples ds0 /\ ds_sa ds2 = sa /\
                ds_fa ds2 = ds_fa ds0).
  { subst ds2. destruct sprefix; simpl; by rewrite ?Hs1, ?Hsa1, ?Hfa1. }
  destruct Hs2 as (Hs2&Hsa2&Hfa2).
  set (n := hd 0 (shape (ds_samples ds2))).
  assert (Hn : n = T) by (subst n; by rewrite Hs2).
  set (ds3 := match tprefix with
              | Some p =>
                  set_sa (set_sa ds2 (String.append p "_indices")
                                 (map (fun i => VInt (Z.of_nat i)) (seq 0 n)))
                         (String.append p "_coords")
                         (map (fun i => VFloat (float_of_nat i * dt)) (seq 0 n))
              | None => ds2
              end).
  rewrite (bind_ok _ _ _ ds3 st2); last first.
  { subst ds3. destruct tprefix as [p|]; [|done].
    unfold _get_dt, hdr_get_zooms.
    rewrite (bind_ok _ _ _ dt st2); [done|].
    rewrite (bind_ok _ _ _ zooms st2); [by rewrite Hz|].
    by rewrite (bind_ok _ _ _ _ _ Hget). }
  assert (H3 : ds_samples ds3 = ds_samples ds2 /\ ds_fa ds3 = ds_fa ds2 /\
               ds_a ds3 = ds_a ds2).
  { subst ds3. by destruct tprefix. }
  destruct H3 as (Hs3&Hfa3&Ha3).
  exists ds3, st2. split; [reflexivity|].
  split; [by rewrite Hs3, Hs2|].
  split.
  { intros t x y z Ht Hx Hy Hz'. rewrite Hs3, Hs2. cbn [ds0 ds_samples set_a data].
    rewrite <- (ravel_time_major X Y Z T). by apply E3. }
  split.
  { subst ds3. destruct tprefix as [p|]; [|done].
    unfold set_sa. cbn [ds_sa]. by rewrite Hsa2, Hn. }
  split.
  { rewrite Hfa3, Hfa2. subst ds0 space. cbn [ds_fa set_a]. by destruct sprefix. }
  split.
  { intros sp ->. rewrite Ha3. subst ds2. unfold set_a. cbn [ds_a].
    split; [|apply lookup_insert_eq].
    rewrite lookup_insert_ne; [apply lookup_insert_eq|].
    intros E. apply append_inj_r in E. discriminate E. }
  assert (Hkeep : forall k, k = "mapper" \/ k = "imgtype" ->
                            ds_a ds3 !! k = ds_a ds0 !! k).
  { intros k Hk. rewrite Ha3. subst ds2.
    assert (Hk1 : ds_a ds1 !! k = ds_a ds0 !! k)
      by (apply Hoth1; destruct Hk as [-> | ->]; done).
    destruct sprefix as [p|]; [|done].
    destruct (prefix_key_ne p) as [(?&?&?) (?&?&?)].
    unfold set_a. cbn [ds_a].
    destruct Hk as [-> | ->]; by rewrite !lookup_insert_ne. }
  split; rewrite Hkeep by auto; subst ds0; unfold set_a; cbn [ds_a]; by simplify_map_eq.
Qed.
End DatasetMore.

Lemma fmri_dataset_attributes_witness :
  exists ds st1,
    fmri_dataset ex_env (SImg ex_img4) (Some (VStr "rest"))
                 (Some (VSeq [VInt 0; VInt 0; VInt 1]))
                 SNone (Some "voxel") (Some "time") None ex_store = (Ok ds, st1) /\
    shape (ds_samples ds) = [3; size_of [2; 1; 2]] /\
    (forall t x y z, t < 3 -> x < 2 -> y < 1 -> z < 2 ->
       data (ds_samples ds) !! (t * size_of [2; 1; 2] + ravel [2; 1; 2] [x; y; z])
       = data ex_arr4 !! ravel [2; 1; 2; 3] [x; y; z; t]) /\
    ds_sa ds
      = <["time_coords" := map (fun i => VFloat (float_of_nat i * 2)) (seq 0 3)]>
          (<["time_indices" := map (fun i => VInt (Z.of_nat i)) (seq 0 3)]>
             (<["chunks" := [VInt 0; VInt 0; VInt 1]]>
                (<["targets" := [VStr "rest"; VStr "rest"; VStr "rest"]]> ∅))) /\
    ds_fa ds
      = <["voxel_indices" :=
            FIndices (map (unravel [2; 1; 2]) (seq 0 (size_of [2; 1; 2])))]> ∅ /\
    (forall sp, Some "voxel" = Some sp ->
       ds_a ds !! String.append sp "_dim" = Some (AShape [2; 1; 2]) /\
       ds_a ds !! String.append sp "_eldim"
         = Some (AValue (VSeq (map VFloat
                   (removelast (hc_get_zooms (hdr_class ex_header)
                                             (hdr_fields ex_header))))))) /\
    ds_a ds !! "imgtype" = Some (AStr (ic_name (img_class ex_img4))) /\
    ds_a ds !! "mapper"
      = Some (AMapper (Mapper [2; 1; 2] (Some "voxel_indices") None)).
Proof.
  apply (fmri_dataset_attributes ex_env ex_store ex_img4 ex_arr4 ex_header 2 1 2 3
           (Some (VStr "rest")) (Some (VSeq [VInt 0; VInt 0; VInt 1]))
           [VStr "rest"; VStr "rest"; VStr "rest"] [VInt 0; VInt 0; VInt 1]
           (Some "voxel") (Some "time") 2%float); try reflexivity.
  - intros t [= <-]. reflexivity.
  - intros c [= <-]. reflexivity.
Defined.

(** ** Lists of sources *)

Section ListMore.
Context {A : Type} `{Dtype A}.
Variable env : environment A.
Implicit Types (st : store A) (a : ndarray A).

(** A comprehension whose body only reads the store. *)
Lemma for_list_reads {X Y} (l : list X) (body : X -> M A Y) (f : X -> Y) st :
  (forall x, x ∈ l -> body x st = (Ok (f x), st)) ->
  for_list l body st = (Ok (map f l), st).
Proof.
  induction l as [|x l IH]; intros Hb; [done|].
  cbn [for_list map]. rewrite (bind_ok _ _ _ _ _ (Hb x ltac:(left))).
  change ((fix each (l0 : list X) : M A (list Y) :=
             match l0 with
             | [] => ret []
             | x0 :: l' => let* y := body x0 in let* ys := each l' in ret (y :: ys)
             end) l) with (for_list l body).
  rewrite (bind_ok _ _ _ _ _ (IH ltac:(intros; apply Hb; by right))).
  reflexivity.
Qed.

Lemma for_list_cons {X Y} (x : X) (l : list X) (body : X -> M A Y) :
  for_list (x :: l) body
  = (let* y := body x in let* ys := for_list l body in ret (y :: ys)).
Proof. reflexivity. Qed.

(** Loading 4-d images one after the other: each gets a new time-major
    array at the end of the store. *)
Lemma for_list_load_4d ensure (imgs : list image) (vols : list (ndarray A)) st :
  Forall2 (fun img a => ic_spatial (img_class img) = true /\
                        arrays st !! img_dataobj img = Some a /\
                        length (shape a) = 4) imgs vols ->
  for_list (map SImg imgs) (fun s => _load_anyimg env s ensure (Some 4%Z)) st
  = (Ok (imap (fun k img => Some (length (arrays st) + k, img_header img, img)) imgs),
     Store (arrays st ++ map (np_transpose [3; 0; 1; 2]) vols) (headers st) (warnings st)).
Proof.
  intros HF. revert st HF. revert vols.
  induction imgs as [|img imgs IH]; intros vols st HF.
  - apply Forall2_nil_inv_l in HF as ->. cbn. rewrite app_nil_r. by destruct st.
  - apply Forall2_cons_inv_l in HF as (a&vols'&(Hsp&Ha&H4)&HF&->).
    cbn [map]. rewrite for_list_cons.
    rewrite (bind_ok _ _ _ _ _ (load_anyimg_4d env st img a ensure Hsp Ha H4)).
    set (st1 := Store (arrays st ++ [np_transpose [3; 0; 1; 2] a]) (headers st) (warnings st)).
    assert (HF1 : Forall2 (fun img a => ic_spatial (img_class img) = true /\
                        arrays st1 !! img_dataobj img = Some a /\
                        length (shape a) = 4) imgs vols').
    { eapply Forall2_impl; [exact HF|]. intros i b (?&Hb&?). repeat split; try done.
      cbn [st1 arrays]. by apply lookup_app_l_Some. }
    rewrite (bind_ok _ _ _ _ _ (IH vols' st1 HF1)).
    unfold ret. cbn [imap st1 arrays headers warnings map].
    rewrite Nat.add_0_r, <- app_assoc. cbn [app]. do 3 f_equal.
    apply imap_ext. intros k i _. cbn. rewrite length_app. cbn.
    do 3 f_equal. lia.
Qed.

Lemma sum_list_with_map {X} (f : X -> nat) (l : list X) :
  sum_list (map f l) = sum_list_with f l.
Proof. induction l; simpl; congruence. Qed.

Lemma np_vstack_same_tail (arrs : list (ndarray A)) (sh : list nat) :
  arrs <> [] -> sh <> [] ->
  Forall (fun r => exists n, shape r = n :: sh) arrs ->
  np_vstack arrs
  = Ok (NdArray (sum_list (map (fun r => hd 0 (shape r)) arrs) :: sh)
                (concat (map data arrs))).
Proof.
  intros Hne Hsh HF. unfold np_vstack.
  assert (E : map np_atleast_2d arrs = arrs).
  { clear Hne. induction HF as [|r l (n&Hr) _ IH]; [done|]. cbn [map]. rewrite IH. f_equal.
    unfold np_atleast_2d. rewrite Hr. by destruct sh. }
  rewrite E. destruct arrs as [|a0 rest]; [done|].
  apply Forall_cons in HF as [(n0&H0) HF].
  rewrite (proj2 (forallb_forall _ _)); last first.
  { intros b Hb%list_elem_of_In. apply bool_decide_eq_true_2.
    rewrite Forall_forall in HF. destruct (HF b Hb) as (n&Hn). by rewrite Hn, H0. }
  by rewrite H0.
Qed.

(** X12. A list of 4-d images that agree on the spatial shape
    [(X, Y, Z)] is loaded as one time series: every image is brought
    to time-major order in an array of its own, the runs are stacked
    along the time axis in the order given, and the header and image
    returned are those of the first entry.  Nothing that was in the
    store is changed, so the same image may be given more than once. *)
Theorem load_anyimg_list_of_runs st ensure (img0 : image) (imgs : list image)
        (vols : list (ndarray A)) X Y Z :
  Forall2 (fun img a => ic_spatial (img_class img) = true /\
                        arrays st !! img_dataobj img = Some a /\
                        exists T, shape a = [X; Y; Z; T]) (img0 :: imgs) vols ->
  let runs := map (np_transpose [3; 0; 1; 2]) vols in
  let stacked := NdArray (sum_list (map (fun a => nth 3 (shape a) 0) vols) :: [X; Y; Z])
                         (concat (map data runs)) in
  _load_anyimg env (SList (map SImg (img0 :: imgs))) ensure (Some 4%Z) st
  = (Ok (Some (length (arrays st) + length vols, img_header img0, img0)),
     Store (arrays st ++ runs ++ [stacked]) (headers st) (warnings st)).
Proof.
  intros HF runs stacked.
  assert (HF4 : Forall2 (fun img a => ic_spatial (img_class img) = true /\
                        arrays st !! img_dataobj img = Some a /\
                        length (shape a) = 4) (img0 :: imgs) vols).
  { eapply Forall2_impl; [exact HF|]. intros i b (?&?&T&E). by rewrite E. }
  assert (Hruns : Forall (fun r => exists n, shape r = n :: [X; Y; Z]) runs).
  { subst runs. clear -HF. revert HF. generalize (img0 :: imgs). intros l HF.
    induction HF as [|i b ? ? (?&?&T&E) ? IH]; cbn [map]; constructor; [|done].
    exists T. unfold np_transpose. cbn [shape]. by rewrite E. }
  assert (Hhd : map (fun r => hd 0 (shape r)) runs
                = map (fun a => nth 3 (shape a) 0) vols).
  { subst runs. rewrite map_map. reflexivity. }
  pose proof (Forall2_length _ _ _ HF) as Hlen. cbn [length] in Hlen.
  pose proof (for_list_load_4d ensure (img0 :: imgs) vols st HF4) as Hload.
  fold runs in Hload.
  set (st1 := Store (arrays st ++ runs) (headers st) (warnings st)) in *.
  set (srcs := imap (fun k img => Some (length (arrays st) + k, img_header img, img))
                    (img0 :: imgs)) in *.
  assert (Hsrc : forall s, s ∈ srcs ->
            exists k img r, s = Some (length (arrays st) + k, img_header img, img) /\
                            arrays st1 !! (length (arrays st) + k) = Some r /\
                            runs !! k = Some r).
  { intros s (k&img&->&Hk)%elem_of_lookup_imap.
    destruct (Forall2_lookup_l _ _ _ _ _ HF Hk) as (b&Hb&_).
    exists k, img, (np_transpose [3; 0; 1; 2] b). split; [done|].
    assert (runs !! k = Some (np_transpose [3; 0; 1; 2] b))
      by (subst runs; by rewrite list_lookup_fmap, Hb).
    split; [|done]. cbn [st1 arrays]. rewrite lookup_app_r by lia.
    by replace (length (arrays st) + k - length (arrays st)) with k by lia. }
  cbn [_load_anyimg map].
  change (SImg img0 :: map SImg imgs) with (map (@SImg A) (img0 :: imgs)).
  set (st2 := Store (arrays st ++ runs ++ [stacked]) (headers st) (warnings st)).
  match goal with |- bind ?m _ _ = _ =>
    assert (Hinner : m st = (Ok (Some (length (arrays st) + length vols,
                                       img_header img0, img0)), st2)) end.
  { rewrite (bind_ok _ _ _ _ _ Hload).
    rewrite (bind_ok _ _ _ tt st1); last first.
    { destruct (py_debug env); [|done].
      erewrite bind_ok; last first.
      { apply (for_list_reads _ _ (fun _ => [X; Y; Z])). intros s Hs.
        destruct (Hsrc s Hs) as (k&img&r&->&Hr&Hk).
        cbn beta. cbn [unpack].
        rewrite (bind_ok _ _ _ (length (arrays st) + k, img_header img, img) st1) by done.
        rewrite (bind_ok _ _ _ _ _ (get_arr_ok _ _ _ Hr)).
        rewrite Forall_forall in Hruns.
        destruct (Hruns r) as (n&Hn); [by eapply list_elem_of_lookup_2|].
        by rewrite Hn. }
      rewrite (proj2 (forallb_forall _ _)); [done|].
      intros x Hx%in_map_iff. destruct Hx as (?&<-&_).
      apply bool_decide_eq_true_2. reflexivity. }
    erewrite bind_ok; last first.
    { apply (for_list_reads _ _
               (fun s => match s with
                         | Some (d, _, _) => default (NdArray [] []) (arrays st1 !! d)
                         | None => NdArray [] []
                         end)).
      intros s Hs. destruct (Hsrc s Hs) as (k&img&r&->&Hr&Hk).
      cbn beta. cbn [unpack].
        rewrite (bind_ok _ _ _ (length (arrays st) + k, img_header img, img) st1) by done.
      rewrite (get_arr_ok _ _ _ Hr). by rewrite Hr. }
    match goal with |- context [np_vstack ?l] =>
      assert (Harrs : l = runs) end.
    { apply list_eq. intros k. rewrite list_lookup_fmap. subst srcs.
      rewrite list_lookup_imap.
      destruct ((img0 :: imgs) !! k) as [img|] eqn:Hk.
      - destruct (Forall2_lookup_l _ _ _ _ _ HF Hk) as (b&Hb&_).
        cbn [fmap option_fmap option_map].
        cbn [st1 arrays]. rewrite lookup_app_r by lia.
        replace (length (arrays st) + k - length (arrays st)) with k by lia.
        subst runs. rewrite list_lookup_fmap, Hb. reflexivity.
      - cbn. symmetry. apply lookup_ge_None_2. subst runs. rewrite length_map.
        apply lookup_ge_None_1 in Hk. cbn [length] in Hk. lia. }
    rewrite Harrs.
    rewrite (np_vstack_same_tail runs [X; Y; Z]); [| |done|exact Hruns]; last first.
    { subst runs. destruct vols; [discriminate Hlen|done]. }
    rewrite Hhd. fold stacked.
    rewrite (bind_ok _ _ _ stacked st1 eq_refl).
    unfold alloc_arr. erewrite bind_ok by reflexivity.
    cbn [st1 arrays headers warnings srcs imap head mjoin option_join unpack].
    rewrite Nat.add_0_r.
    erewrite bind_ok by reflexivity.
    unfold ret, st2. rewrite length_app, <- app_assoc. subst runs. rewrite length_map.
    reflexivity. }
  rewrite (bind_ok _ _ _ _ _ Hinner).
  erewrite bind_ok; last first.
  { apply get_arr_ok. cbn [st2 arrays]. rewrite app_assoc.
    apply list_lookup_middle. rewrite length_app. subst runs. by rewrite length_map. }
  rewrite enforce_shape_eq by done.
  reflexivity.
Qed.

(** Loading 3-d images one after the other: the array of each is made
    4-d in place. *)
Lemma for_list_load_3d ensure (imgs : list image) (vols : list (ndarray A)) X Y Z st :
  NoDup (map img_dataobj imgs) ->
  Forall2 (fun img a => ic_spatial (img_class img) = true /\
                        arrays st !! img_dataobj img = Some a /\
                        shape a = [X; Y; Z] /\ wf_array a) imgs vols ->
  exists arrs,
    for_list (map SImg imgs) (fun s => _load_anyimg env s ensure (Some 4%Z)) st
    = (Ok (map (fun img => Some (img_dataobj img, img_header img, img)) imgs),
       Store arrs (headers st) (warnings st)) /\
    length arrs = length (arrays st) /\
    Forall2 (fun img a => arrs !! img_dataobj img = Some (NdArray [1; X; Y; Z] (data a)))
            imgs vols /\
    (forall l, l ∉ map img_dataobj imgs -> arrs !! l = arrays st !! l).
Proof.
  intros Hnd HF. revert st Hnd HF. revert vols.
  induction imgs as [|img imgs IH]; intros vols st Hnd HF.
  - apply Forall2_nil_inv_l in HF as ->. exists (arrays st).
    split; [by destruct st|]. split; [done|]. split; [constructor|done].
  - apply Forall2_cons_inv_l in HF as (a&vols'&(Hsp&Ha&Hs&Hwf)&HF&->).
    cbn [map] in Hnd. apply NoDup_cons in Hnd as [Hnotin Hnd].
    pose proof (load_anyimg_enforces env st img a ensure 4%Z Hsp Ha Hwf) as Hload.
    rewrite Hs in Hload. specialize (Hload ltac:(done) eq_refl).
    cbn in Hload.
    set (st1 := Store (<[img_dataobj img := NdArray [1; X; Y; Z] (data a)]> (arrays st))
                      (headers st) (warnings st)) in *.
    assert (HF1 : Forall2 (fun img a => ic_spatial (img_class img) = true /\
                        arrays st1 !! img_dataobj img = Some a /\
                        shape a = [X; Y; Z] /\ wf_array a) imgs vols').
    { clear -HF Hnotin. induction HF as [|i b ? ? (?&Hb&?&?) ? IH']; constructor.
      - repeat split; try done. cbn [st1 arrays].
        rewrite list_lookup_insert_ne; [done|].
        intros E. apply Hnotin. cbn [map]. rewrite E. left.
      - apply IH'. intros Hin. apply Hnotin. cbn [map]. by right. }
    destruct (IH vols' st1 Hnd HF1) as (arrs&Hrun&Hlen&Hvols&Hrest).
    exists arrs. cbn [map]. rewrite for_list_cons.
    rewrite (bind_ok _ _ _ _ _ Hload), (bind_ok _ _ _ _ _ Hrun).
    split; [reflexivity|].
    split; [by rewrite Hlen; cbn [st1 arrays]; rewrite length_insert|].
    split.
    + constructor; [|done]. rewrite (Hrest _ Hnotin). cbn [st1 arrays].
      apply list_lookup_insert_eq. by eapply lookup_lt_Some.
    + intros l Hl. rewrite Hrest by (intros Hin; apply Hl; by right).
      cbn [st1 arrays]. apply list_lookup_insert_ne. intros E. apply Hl. rewrite <- E. left.
Qed.

(** X13. A list of 3-d images of the same shape whose data arrays are
    different objects is loaded as one 4-d array with one time point
    per volume, in the order given, with the header and image of the
    first entry.  On the way the data array of every volume is itself
    given a leading axis of length one; no other array and no header
    is changed. *)
Theorem load_anyimg_list_of_volumes st ensure (img0 : image) (imgs : list image)
        (vols : list (ndarray A)) X Y Z :
  NoDup (map img_dataobj (img0 :: imgs)) ->
  Forall2 (fun img a => ic_spatial (img_class img) = true /\
                        arrays st !! img_dataobj img = Some a /\
                        shape a = [X; Y; Z] /\ wf_array a) (img0 :: imgs) vols ->
  exists st',
    _load_anyimg env (SList (map SImg (img0 :: imgs))) ensure (Some 4%Z) st
    = (Ok (Some (length (arrays st), img_header img0, img0)), st') /\
    arrays st' !! length (arrays st)
      = Some (NdArray [length vols; X; Y; Z] (concat (map data vols))) /\
    Forall2 (fun img a =>
               arrays st' !! img_dataobj img = Some (NdArray [1; X; Y; Z] (data a)))
            (img0 :: imgs) vols /\
    (forall l, l < length (arrays st) -> l ∉ map img_dataobj (img0 :: imgs) ->
               arrays st' !! l = arrays st !! l) /\
    headers st' = headers st /\ warnings st' = warnings st.
Proof.
  intros Hnd HF.
  destruct (for_list_load_3d ensure (img0 :: imgs) vols X Y Z st Hnd HF)
    as (arrs&Hload&Hlen&Hvols&Hrest).
  pose proof (Forall2_length _ _ _ HF) as Hlen2. cbn [length] in Hlen2.
  set (st1 := Store arrs (headers st) (warnings st)) in *.
  set (srcs := map (fun img => Some (img_dataobj img, img_header img, img))
                   (img0 :: imgs)) in *.
  set (vols4 := map (fun a => NdArray [1; X; Y; Z] (data a)) vols).
  set (stacked := NdArray [length vols; X; Y; Z] (concat (map data vols))).
  assert (Hsrc : forall s, s ∈ srcs ->
            exists img a, s = Some (img_dataobj img, img_header img, img) /\
                          arrs !! img_dataobj img = Some (NdArray [1; X; Y; Z] (data a))).
  { intros s (img&->&Hin)%list_elem_of_fmap.
    apply list_elem_of_lookup in Hin as (k&Hk).
    destruct (Forall2_lookup_l _ _ _ _ _ Hvols Hk) as (b&Hb&Hlk).
    by exists img, b. }
  cbn [_load_anyimg map].
  change (SImg img0 :: map SImg imgs) with (map (@SImg A) (img0 :: imgs)).
  set (st2 := Store (arrs ++ [stacked]) (headers st) (warnings st)).
  match goal with |- context [bind ?m _ st = _] =>
    assert (Hinner : m st = (Ok (Some (length (arrays st),
                                       img_header img0, img0)), st2)) end.
  { rewrite (bind_ok _ _ _ _ _ Hload).
    rewrite (bind_ok _ _ _ tt st1); last first.
    { destruct (py_debug env); [|done].
      erewrite bind_ok; last first.
      { apply (for_list_reads _ _ (fun _ => [X; Y; Z])). intros s Hs.
        destruct (Hsrc s Hs) as (img&b&->&Hr).
        cbn beta. cbn [unpack].
        rewrite (bind_ok _ _ _ (img_dataobj img, img_header img, img) st1) by done.
        by rewrite (bind_ok _ _ _ _ _ (get_arr_ok st1 _ _ Hr)). }
      rewrite (proj2 (forallb_forall _ _)); [done|].
      intros x Hx%in_map_iff. destruct Hx as (?&<-&_).
      apply bool_decide_eq_true_2. reflexivity. }
    erewrite bind_ok; last first.
    { apply (for_list_reads _ _
               (fun s => match s with
                         | Some (d, _, _) => default (NdArray [] []) (arrs !! d)
                         | None => NdArray [] []
                         end)).
      intros s Hs. destruct (Hsrc s Hs) as (img&b&->&Hr).
      cbn beta. cbn [unpack].
      rewrite (bind_ok _ _ _ (img_dataobj img, img_header img, img) st1) by done.
      rewrite (get_arr_ok st1 _ _ Hr). by rewrite Hr. }
    match goal with |- context [np_vstack ?l] =>
      assert (Harrs : l = vols4) end.
    { apply list_eq. intros k. subst srcs vols4. rewrite !list_lookup_fmap.
      destruct ((img0 :: imgs) !! k) as [img|] eqn:Hk.
      - destruct (Forall2_lookup_l _ _ _ _ _ Hvols Hk) as (b&Hb&Hlk).
        rewrite Hb. cbn. by rewrite Hlk.
      - cbn. apply lookup_ge_None_1 in Hk. cbn [length] in Hk.
        rewrite lookup_ge_None_2 by lia. done. }
    rewrite Harrs.
    rewrite (np_vstack_same_tail vols4 [X; Y; Z]); [| |done|]; first last.
    { subst vols4. apply Forall_fmap, Forall_true. intros b. by exists 1. }
    { subst vols4. destruct vols; [discriminate Hlen2|done]. }
    assert (Estack : NdArray (sum_list (map (fun r => hd 0 (shape r)) vols4) :: [X; Y; Z])
                             (concat (map data vols4)) = stacked).
    { subst vols4 stacked. rewrite !map_map. cbn [shape data hd]. f_equal.
      f_equal. clear. induction vols; simpl; congruence. }
    rewrite Estack.
    rewrite (bind_ok _ _ _ stacked st1 eq_refl).
    unfold alloc_arr. erewrite bind_ok by reflexivity.
    cbn [st1 arrays headers warnings srcs map head mjoin option_join unpack].
    erewrite bind_ok by reflexivity.
    unfold ret, st2. by rewrite Hlen. }
  exists st2.
  rewrite (bind_ok _ _ _ _ _ Hinner).
  assert (Hst : arrays st2 !! length (arrays st) = Some stacked).
  { cbn [st2 arrays]. rewrite <- Hlen. by apply list_lookup_middle. }
  rewrite (bind_ok _ _ _ _ _ (get_arr_ok _ _ _ Hst)).
  rewrite enforce_shape_eq by done.
  split; [reflexivity|]. split; [exact Hst|].
  split.
  { eapply Forall2_impl; [exact Hvols|]. intros i b Hb. cbn [st2 arrays].
    by apply lookup_app_l_Some. }
  split; [|done].
  intros l Hl Hnot. cbn [st2 arrays]. rewrite lookup_app_l by lia. by apply Hrest.
Qed.
End ListMore.

Lemma load_anyimg_list_of_runs_witness :
  _load_anyimg ex_env (SList (map SImg [ex_img4; ex_img4])) true (Some 4%Z) ex_store
  = (Ok (Some (length (arrays ex_store) + 2, img_header ex_img4, ex_img4)),
     Store (arrays ex_store
              ++ map (np_transpose [3; 0; 1; 2]) [ex_arr4; ex_arr4]
              ++ [NdArray [6; 2; 1; 2]
                    (concat (map data (map (np_transpose [3; 0; 1; 2])
                                           [ex_arr4; ex_arr4])))])
           (headers ex_store) (warnings ex_store)).
Proof.
  apply (load_anyimg_list_of_runs ex_env ex_store true ex_img4 [ex_img4]
           [ex_arr4; ex_arr4] 2 1 2).
  repeat constructor; by exists 3.
Defined.

Lemma load_anyimg_list_of_volumes_witness :
  exists st',
    _load_anyimg ex_env (SList (map SImg [ex_vol_a; ex_vol_b])) true (Some 4%Z)
                 ex_store_vols
    = (Ok (Some (2, img_header ex_vol_a, ex_vol_a)), st') /\
    arrays st' !! 2 = Some (NdArray [2; 2; 2; 2] (map Z.of_nat (seq 0 16))) /\
    Forall2 (fun img a =>
               arrays st' !! img_dataobj img = Some (NdArray [1; 2; 2; 2] (data a)))
            [ex_vol_a; ex_vol_b] (arrays ex_store_vols) /\
    (forall l, l < 2 -> l ∉ map img_dataobj [ex_vol_a; ex_vol_b] ->
               arrays st' !! l = arrays ex_store_vols !! l) /\
    headers st' = headers ex_store_vols /\ warnings st' = warnings ex_store_vols.
Proof.
  apply (load_anyimg_list_of_volumes ex_env ex_store_vols true ex_vol_a [ex_vol_b]
           (arrays ex_store_vols) 2 2 2).
  - apply NoDup_cons. split; [|apply NoDup_singleton].
    intros Hin%list_elem_of_singleton. discriminate Hin.
  - repeat constructor.
Defined.

(** ** Loading from files leaves existing objects alone *)

Section Above.
Context {A : Type}.
Variables na nh : nat.
Implicit Types (st : store A) (a : ndarray A).

Lemma wa_weaken {X} (m : M A X) (P Q : X -> Prop) :
  writes_above na nh m P -> (forall x, P x -> Q x) -> writes_above na nh m Q.
Proof.
  intros Hm HPQ st Ha Hh. destruct (Hm st Ha Hh) as (?&?&?&?&HP).
  repeat split; try done. intros x Ex. by apply HPQ, HP.
Qed.

Lemma wa_reads {X} (m : M A X) (Q : X -> Prop) :
  (forall st, (m st).2 = st) -> (forall st x, (m st).1 = Ok x -> Q x) ->
  writes_above na nh m Q.
Proof.
  intros Hst HQ st Ha Hh. rewrite Hst. repeat split; try done. apply HQ.
Qed.

Lemma wa_ret {X} (x : X) (Q : X -> Prop) : Q x -> writes_above (A := A) na nh (ret x) Q.
Proof. intros HQ. apply wa_reads; [done|]. by intros st y [= <-]. Qed.

Lemma wa_raise {X} e (Q : X -> Prop) : writes_above (A := A) na nh (raise e) Q.
Proof. by apply wa_reads. Qed.

Lemma wa_liftO {X} (o : outcome X) (Q : X -> Prop) :
  (forall x, o = Ok x -> Q x) -> writes_above (A := A) na nh (liftO o) Q.
Proof. intros HQ. apply wa_reads; [done|]. intros st x. apply HQ. Qed.

Lemma wa_liftO_any {X} (o : outcome X) :
  writes_above (A := A) na nh (liftO o) (fun _ => True).
Proof. by apply wa_liftO. Qed.

Lemma wa_bind {X Y} (m : M A X) (k : X -> M A Y) (P : X -> Prop) (Q : Y -> Prop) :
  writes_above na nh m P -> (forall x, P x -> writes_above na nh (k x) Q) ->
  writes_above na nh (bind m k) Q.
Proof.
  intros Hm Hk st Ha Hh. unfold bind. destruct (Hm st Ha Hh) as (Ha1&Hh1&Hka&Hkh&HP).
  destruct (m st) as [[x|e] st1]; cbn [fst snd] in *; [|by repeat split].
  destruct (Hk x (HP x eq_refl) st1 Ha1 Hh1) as (Ha2&Hh2&Hka2&Hkh2&HQ).
  repeat split; try done.
  - intros l Hl. by rewrite Hka2, Hka.
  - intros l Hl. by rewrite Hkh2, Hkh.
Qed.

Lemma wa_try_except {X} (m : M A X) catches handler (Q : X -> Prop) :
  writes_above na nh m Q -> writes_above na nh handler Q ->
  writes_above na nh (try_except m catches handler) Q.
Proof.
  intros Hm Hh st Ha Hhd. unfold try_except. destruct (Hm st Ha Hhd) as (Ha1&Hh1&Hka&Hkh&HP).
  destruct (m st) as [[x|e] st1]; cbn [fst snd] in *; [by repeat split|].
  destruct (catches e); [|by repeat split].
  destruct (Hh st1 Ha1 Hh1) as (Ha2&Hh2&Hka2&Hkh2&HQ).
  repeat split; try done.
  - intros l Hl. by rewrite Hka2, Hka.
  - intros l Hl. by rewrite Hkh2, Hkh.
Qed.

Lemma wa_get_arr l : writes_above (A := A) na nh (get_arr l) (fun _ => True).
Proof. apply wa_reads; [|done]. intros st. unfold get_arr. by destruct (_ !! _). Qed.

Lemma wa_get_hdr l : writes_above (A := A) na nh (get_hdr l) (fun _ => True).
Proof. apply wa_reads; [|done]. intros st. unfold get_hdr. by destruct (_ !! _). Qed.

Lemma wa_alloc_arr a : writes_above na nh (alloc_arr a) (fun l => na <= l).
Proof.
  intros st Ha Hh. cbn. rewrite length_app. repeat split; try lia.
  - intros l Hl. apply lookup_app_l. lia.
  - intros x [= <-]. done.
Qed.

Lemma wa_alloc_hdr h : writes_above (A := A) na nh (alloc_hdr h) (fun l => nh <= l).
Proof.
  intros st Ha Hh. cbn. rewrite length_app. repeat split; try lia.
  - intros l Hl. apply lookup_app_l. lia.
  - intros x [= <-]. done.
Qed.

Lemma wa_warning msg : writes_above (A := A) na nh (warning msg) (fun _ => True).
Proof. intros st Ha Hh. cbn. by repeat split. Qed.

Lemma wa_put_arr l a : na <= l -> writes_above na nh (put_arr l a) (fun _ => True).
Proof.
  intros Hl st Ha Hh. cbn. rewrite length_insert. repeat split; try done.
  intros l' Hl'. apply list_lookup_insert_ne. lia.
Qed.

Lemma wa_put_hdr l h : nh <= l -> writes_above (A := A) na nh (put_hdr l h) (fun _ => True).
Proof.
  intros Hl st Ha Hh. cbn. rewrite length_insert. repeat split; try done.
  intros l' Hl'. apply list_lookup_insert_ne. lia.
Qed.

Lemma wa_set_shape l sh :
  na <= l -> writes_above (A := A) na nh (set_shape l sh) (fun _ => True).
Proof.
  intros Hl. unfold set_shape.
  eapply wa_bind; [apply wa_get_arr|]. intros a _.
  eapply wa_bind; [apply wa_liftO_any|]. intros a' _. by apply wa_put_arr.
Qed.

Lemma wa_hdr_set_data_shape l sh :
  nh <= l -> writes_above (A := A) na nh (hdr_set_data_shape l sh) (fun _ => True).
Proof.
  intros Hl. unfold hdr_set_data_shape.
  eapply wa_bind; [apply wa_get_hdr|]. intros h _. by apply wa_put_hdr.
Qed.

Lemma wa_for_list {X Y} (l : list X) (body : X -> M A Y) (Q : Y -> Prop) :
  Forall (fun x => writes_above na nh (body x) Q) l ->
  writes_above na nh (for_list l body) (Forall Q).
Proof.
  unfold for_list. induction 1 as [|x l Hx _ IH]; [by apply wa_ret|].
  eapply wa_bind; [exact Hx|]. intros y Hy.
  eapply wa_bind; [exact IH|]. intros ys Hys. apply wa_ret. by constructor.
Qed.

Lemma wa_get_txyz_shaped l :
  na <= l -> writes_above (A := A) na nh (_get_txyz_shaped l) (fun l' => na <= l').
Proof.
  intros Hl. unfold _get_txyz_shaped.
  eapply wa_bind; [apply wa_get_arr|]. intros a _.
  destruct (_ =? _); [|by apply wa_ret].
  eapply wa_bind; [apply wa_liftO_any|]. intros r _. apply wa_alloc_arr.
Qed.

(** The enforcement step of [_load_anyimg]. *)
Lemma wa_enforce (d h : loc) (img : image) (e : Z) :
  na <= d -> nh <= h ->
  writes_above (A := A) na nh
    (let* a := get_arr d in
     let* new_shape := liftO (enforce_shape (shape a) e) in
     let* _ := match new_shape with
               | Some new_shape => set_shape d new_shape
               | None => ret tt
               end in
     ret (Some (d, h, img)))
    (loaded_above na nh).
Proof.
  intros Hd Hh.
  eapply wa_bind; [apply wa_get_arr|]. intros a _.
  eapply wa_bind; [apply wa_liftO_any|]. intros ns _.
  eapply (wa_bind _ _ (fun _ => True)).
  { destruct ns; [by apply wa_set_shape|by apply wa_ret]. }
  intros _ _. by apply wa_ret.
Qed.

Variable env : environment A.

Lemma wa_nibabel_load path :
  writes_above na nh (nibabel_load env path)
               (fun img => na <= img_dataobj img /\ nh <= img_header img).
Proof.
  unfold nibabel_load. destruct (nib_files env path) as [f|]; [|apply wa_raise].
  eapply wa_bind; [apply wa_alloc_arr|]. intros d Hd.
  eapply wa_bind; [apply wa_alloc_hdr|]. intros h Hh.
  by apply wa_ret.
Qed.

Lemma wa_img2data_image img :
  na <= img_dataobj img -> nh <= img_header img ->
  writes_above (A := A) na nh
    (if ic_spatial (img_class img) then
       let data := img_dataobj img in
       let header := img_header img in
       let* s := img_shape img in
       let* data :=
         if (length s =? 5) && (nth 3 s 0 =? 1) then
           let* _ := warning
             "dataset with 5th dimension found but 4th is empty (AFNI  NIFTI conversion syndrome) - squeezing data to 4D" in
           let newshape := [nth 0 s 0; nth 1 s 0; nth 2 s 0; nth 4 s 0] in
           let* _ := hdr_set_data_shape header newshape in
           let* d := get_arr data in
           let* r := liftO (np_reshape d newshape) in
           alloc_arr r
         else ret data in
       let* txyz := _get_txyz_shaped data in
       ret (Some (txyz, header, img))
     else ret None)
    (loaded_above na nh).
Proof.
  intros Hd Hh. destruct (ic_spatial _); [|by apply wa_ret]. cbv zeta.
  eapply (wa_bind _ _ (fun _ => True)).
  { unfold img_shape. eapply wa_bind; [apply wa_get_arr|]. intros; by apply wa_ret. }
  intros s _.
  eapply (wa_bind _ _ (fun l => na <= l)).
  { destruct (_ && _); [|by apply wa_ret].
    eapply wa_bind; [apply wa_warning|]. intros _ _.
    eapply wa_bind; [by apply wa_hdr_set_data_shape|]. intros _ _.
    eapply wa_bind; [apply wa_get_arr|]. intros a _.
    eapply wa_bind; [apply wa_liftO_any|]. intros r _. apply wa_alloc_arr. }
  intros d' Hd'.
  eapply wa_bind; [by apply wa_get_txyz_shaped|]. intros t Ht. by apply wa_ret.
Qed.

Lemma wa_img2data src :
  (forall i, src <> SImg i) ->
  writes_above na nh (_img2data env src) (loaded_above na nh).
Proof.
  intros Hsrc. destruct src as [ | p | i | l | a]; cbn [_img2data].
  - by apply wa_ret.
  - eapply wa_bind.
    { eapply wa_bind; [apply wa_nibabel_load|]. intros i Hi.
      apply (wa_ret _ (fun o => match o with
                                | Some i => na <= img_dataobj i /\ nh <= img_header i
                                | None => True
                                end)). exact Hi. }
    intros [i|] Hi; [|by apply wa_ret]. destruct Hi. by apply wa_img2data_image.
  - by destruct (Hsrc i).
  - eapply (wa_bind _ _ (fun o => o = None)); [by apply wa_ret|].
    intros o ->. by apply wa_ret.
  - eapply (wa_bind _ _ (fun o => o = None)); [by apply wa_ret|].
    intros o ->. by apply wa_ret.
Qed.

Lemma wa_single src enforce_dim :
  (forall i, src <> SImg i) ->
  writes_above na nh
    (let* r := _img2data env src in
     match r, enforce_dim with
     | Some (imgdata, imghdr, img), Some enforce_dim =>
         let* a := get_arr imgdata in
         let* new_shape := liftO (enforce_shape (shape a) enforce_dim) in
         let* _ := match new_shape with
                   | Some new_shape => set_shape imgdata new_shape
                   | None => ret tt
                   end in
         ret (Some (imgdata, imghdr, img))
     | _, _ => ret r
     end)
    (loaded_above na nh).
Proof.
  intros Hsrc. eapply wa_bind; [by apply wa_img2data|].
  intros [[[d h] i]|] Hr; [|destruct enforce_dim; by apply wa_ret].
  destruct Hr. destruct enforce_dim as [e|]; [by apply wa_enforce|by apply wa_ret].
Qed.

Lemma wa_load_anyimg src ensure enforce_dim :
  no_instance src = true ->
  writes_above na nh (_load_anyimg env src ensure enforce_dim) (loaded_above na nh).
Proof.
  induction src as [ | p | i | l IH | a] using source_ind'; intros Hno.
  1,2,5: (rewrite load_anyimg_single by done; by apply wa_single).
  { discriminate Hno. }
  destruct l as [|s l].
  { rewrite load_anyimg_single by done. by apply wa_single. }
  cbn [_load_anyimg]. cbn [no_instance] in Hno.
  rewrite forallb_forall in Hno.
  eapply wa_bind.
  - eapply wa_bind.
    { apply wa_for_list. rewrite Forall_forall in IH. apply Forall_forall.
      intros x Hx. apply IH; [done|]. by apply Hno, list_elem_of_In. }
    intros srcs Hsrcs.
    eapply (wa_bind _ _ (fun _ => True)).
    { destruct (py_debug env); [|by apply wa_ret].
      eapply (wa_bind _ _ (fun _ => True)).
      - eapply wa_weaken; [|done]. apply wa_for_list, Forall_forall. intros x _.
        eapply (wa_bind _ _ (fun _ => True)); [apply wa_liftO_any|].
        intros [[d h] i] _.
        eapply wa_bind; [apply wa_get_arr|]. intros; by apply (wa_ret _ (fun _ => True)).
      - intros shapes _. destruct (forallb _ _); [by apply wa_ret|apply wa_raise]. }
    intros _ _.
    eapply (wa_bind _ _ (fun _ => True)).
    { eapply wa_weaken; [|done]. apply wa_for_list, Forall_forall. intros x _.
      eapply (wa_bind _ _ (fun _ => True)); [apply wa_liftO_any|].
      intros [[d h] i] _. apply wa_get_arr. }
    intros arrs _.
    eapply (wa_bind _ _ (fun _ => True)); [apply wa_liftO_any|]. intros stacked _.
    eapply wa_bind; [apply wa_alloc_arr|]. intros d Hd.
    eapply (wa_bind _ _ (fun x => nh <= x.1.2)).
    { apply wa_liftO. intros [[d0 h0] i0] E.
      destruct srcs as [|[[[d1 h1] i1]|] srcs]; try discriminate E.
      injection E as -> -> ->. apply Forall_cons in Hsrcs as [[? ?] _]. done. }
    intros [[d0 h0] i0] Hh0. apply (wa_ret _ (loaded_above na nh)). done.
  - intros [[[d h] i]|] Hr; [|destruct enforce_dim; by apply wa_ret].
    destruct Hr. destruct enforce_dim as [e|]; [by apply wa_enforce|by apply wa_ret].
Qed.

Ltac wa_step :=
  match goal with
  | |- writes_above _ _ (bind _ _) _ =>
      eapply (wa_bind _ _ (fun _ => True)); [|intros ? _]
  | |- writes_above _ _ (ret _) _ => by apply wa_ret
  | |- writes_above _ _ (raise _) _ => apply wa_raise
  | |- writes_above _ _ (liftO _) _ => apply wa_liftO_any
  | |- writes_above _ _ (get_arr _) _ => apply wa_get_arr
  | |- writes_above _ _ (get_hdr _) _ => apply wa_get_hdr
  | |- writes_above _ _ (warning _) _ => apply wa_warning
  | |- writes_above _ _ (try_except _ _ _) _ => apply wa_try_except
  | |- writes_above _ _ (match ?x with _ => _ end) _ => destruct x
  end.

Lemma wa_hdr2dict l : writes_above (A := A) na nh (_hdr2dict l) (fun _ => True).
Proof. unfold _hdr2dict. repeat wa_step. Qed.

Lemma wa_strip_nibabel ds : writes_above (A := A) na nh (strip_nibabel ds) (fun _ => True).
Proof.
  unfold strip_nibabel.
  repeat first [apply wa_hdr2dict | wa_step].
Qed.

Lemma wa_get_voxdim l : writes_above (A := A) na nh (_get_voxdim l) (fun _ => True).
Proof. unfold _get_voxdim, hdr_get_zooms. repeat wa_step. Qed.

Lemma wa_get_dt l : writes_above (A := A) na nh (_get_dt l) (fun _ => True).
Proof. unfold _get_dt, hdr_get_zooms. repeat wa_step. Qed.

Lemma wa_fold_left {X Y} (f : M A Y -> X -> M A Y) (l : list X) (acc : M A Y) :
  Forall (fun x => forall m, writes_above na nh m (fun _ => True) ->
                             writes_above na nh (f m x) (fun _ => True)) l ->
  writes_above na nh acc (fun _ => True) ->
  writes_above na nh (fold_left f l acc) (fun _ => True).
Proof.
  intros Hf. revert acc. induction Hf as [|x l Hx _ IH]; intros acc Hacc; [done|].
  simpl. apply IH. by apply Hx.
Qed.

Context `{Dtype A}.

Lemma wa_fmri_dataset samples targets chunks mask sprefix tprefix add_fa :
  no_instance samples = true ->
  no_instance mask = true ->
  (forall l, add_fa = Some l -> Forall (fun kv => no_instance kv.2 = true) l) ->
  writes_above na nh
    (fmri_dataset env samples targets chunks mask sprefix tprefix add_fa)
    (fun _ => True).
Proof.
  intros Hs Hm Hfa. unfold fmri_dataset.
  eapply wa_bind; [by apply wa_load_anyimg|]. intros r Hr.
  eapply (wa_bind _ _ (fun _ => True)); [apply wa_liftO_any|].
  intros [[imgdata imghdr] img] _.
  eapply wa_bind; [by apply wa_load_anyimg|]. intros maskimg _.
  eapply (wa_bind _ _ (fun _ => True)); [repeat wa_step|]. intros mask' _.
  eapply (wa_bind _ _ (fun _ => True)); [repeat wa_step|]. intros arr _.
  eapply (wa_bind _ _ (fun _ => True)); [repeat wa_step|]. intros sa1 _.
  eapply (wa_bind _ _ (fun _ => True)); [repeat wa_step|]. intros sa2 _.
  eapply (wa_bind _ _ (fun _ => True)); [repeat wa_step|]. intros ds1 _.
  eapply (wa_bind _ _ (fun _ => True)); [repeat wa_step|]. intros ds2 _.
  eapply (wa_bind _ _ (fun _ => True)).
  { destruct add_fa as [l|]; [|by apply wa_ret].
    apply wa_fold_left; [|by apply wa_ret].
    eapply Forall_impl; [exact (Hfa l eq_refl)|].
    intros x Hx m Hacc.
    eapply wa_bind; [exact Hacc|]. intros ds _.
    eapply wa_bind; [by apply wa_load_anyimg|]. intros v _.
    repeat wa_step. }
  intros ds3 _.
  eapply wa_bind; [apply wa_strip_nibabel|]. intros ds4 _.
  eapply (wa_bind _ _ (fun _ => True)).
  { destruct sprefix; [|by apply wa_ret].
    eapply wa_bind; [apply wa_get_voxdim|]. intros; by apply wa_ret. }
  intros ds5 _.
  eapply (wa_bind _ _ (fun _ => True)).
  { destruct tprefix; [|by apply wa_ret].
    eapply wa_bind; [apply wa_get_dt|]. intros; by apply wa_ret. }
  intros ds6 _. by apply wa_ret.
Qed.
End Above.

Section FromFiles.
Context {A : Type} `{Dtype A}.
Variable env : environment A.
Implicit Types (st : store A).

(** X14. [_load_anyimg] on a source that holds no image instance
    (file names, lists of file names, arrays, [None]) never changes an
    array or header that exists already, for every [ensure] and
    [enforce_dim] and whether it returns or raises: squeezing and shape
    enforcement act on the objects [nibabel.load] has just created.
    What it returns is new, and for a file name that cannot be loaded
    the error of [nibabel.load] (here [IOError]) propagates at once. *)
Theorem load_anyimg_no_instance src ensure enforce_dim st :
  no_instance src = true ->
  let r := _load_anyimg env src ensure enforce_dim st in
  (forall l, l < length (arrays st) -> arrays r.2 !! l = arrays st !! l) /\
  (forall l, l < length (headers st) -> headers r.2 !! l = headers st !! l) /\
  (forall d h img, r.1 = Ok (Some (d, h, img)) ->
     length (arrays st) <= d /\ length (headers st) <= h) /\
  (forall path, src = SStr path -> nib_files env path = None -> r = (Raise IOError, st)).
Proof.
  intros Hno r.
  destruct (wa_load_anyimg (length (arrays st)) (length (headers st)) env
              src ensure enforce_dim Hno st (le_n _) (le_n _)) as (_&_&Ha&Hh&HQ).
  fold r in Ha, Hh, HQ.
  split; [exact Ha|]. split; [exact Hh|]. split.
  - intros d h img E. exact (HQ _ E).
  - intros path -> Hnone. subst r. rewrite load_anyimg_single by done.
    apply bind_raise. unfold _img2data. apply bind_raise. apply bind_raise.
    unfold nibabel_load. by rewrite Hnone.
Qed.

(** X15. [fmri_dataset] called with file names only (samples, mask
    and additional feature attributes hold no image instance) leaves
    every existing array and header as it is, whether it returns or
    raises. *)
Theorem fmri_dataset_no_instance samples targets chunks mask sprefix tprefix add_fa st :
  no_instance samples = true ->
  no_instance mask = true ->
  (forall l, add_fa = Some l -> Forall (fun kv => no_instance kv.2 = true) l) ->
  let r := fmri_dataset env samples targets chunks mask sprefix tprefix add_fa st in
  (forall l, l < length (arrays st) -> arrays r.2 !! l = arrays st !! l) /\
  (forall l, l < length (headers st) -> headers r.2 !! l = headers st !! l).
Proof.
  intros Hs Hm Hfa r.
  destruct (wa_fmri_dataset (length (arrays st)) (length (headers st)) env
              samples targets chunks mask sprefix tprefix add_fa Hs Hm Hfa
              st (le_n _) (le_n _)) as (_&_&Ha&Hh&_).
  by split.
Qed.
End FromFiles.

Lemma load_anyimg_no_instance_witness :
  no_instance (@SStr Z "bold.nii") = true /\
  let r := _load_anyimg ex_env_files (SStr "bold.nii") true (Some 4%Z) ex_store in
  (forall l, l < length (arrays ex_store) -> arrays r.2 !! l = arrays ex_store !! l) /\
  (forall l, l < length (headers ex_store) -> headers r.2 !! l = headers ex_store !! l) /\
  (forall d h img, r.1 = Ok (Some (d, h, img)) ->
     length (arrays ex_store) <= d /\ length (headers ex_store) <= h) /\
  (forall path, @SStr Z "bold.nii" = SStr path ->
     nib_files ex_env_files path = None -> r = (Raise IOError, ex_store)).
Proof.
  split; [reflexivity|].
  apply (load_anyimg_no_instance ex_env_files (SStr "bold.nii") true (Some 4%Z) ex_store).
  reflexivity.
Defined.

Lemma fmri_dataset_no_instance_witness :
  no_instance (@SStr Z "bold.nii") = true /\
  let r := fmri_dataset ex_env_files (SStr "bold.nii") None None SNone
                        (Some "voxel") (Some "time")
                        (Some [("run", SStr "bold.nii")]) ex_store in
  (forall l, l < length (arrays ex_store) -> arrays r.2 !! l = arrays ex_store !! l) /\
  (forall l, l < length (headers ex_store) -> headers r.2 !! l = headers ex_store !! l).
Proof.
  split; [reflexivity|].
  apply (fmri_dataset_no_instance ex_env_files (SStr "bold.nii") None None SNone
           (Some "voxel") (Some "time") (Some [("run", SStr "bold.nii")]) ex_store).
  - reflexivity.
  - reflexivity.
  - intros l [= <-]. by repeat constructor.
Defined.

(** ** Masks, feature attributes and sample attributes *)

Section MaskMore.
Context {A : Type} `{Dtype A}.
Variable env : environment A.
Implicit Types (st : store A) (a : ndarray A) (ds : Dataset A).

Lemma load_anyimg_plain st img m ensure :
  ic_spatial (img_class img) = true ->
  arrays st !! img_dataobj img = Some m ->
  length (shape m) = 3 ->
  _load_anyimg env (SImg img) ensure None st
  = (Ok (Some (img_dataobj img, img_header img, img)), st).
Proof.
  intros Hsp Hm H3. rewrite load_anyimg_single by done.
  rewrite (bind_ok _ _ _ (Some (img_dataobj img, img_header img, img)) st); [done|].
  unfold _img2data. rewrite (bind_ok _ _ _ (Some img) st) by done. rewrite Hsp.
  rewrite (bind_ok _ _ _ (shape m) st); last first.
  { unfold img_shape. by rewrite (bind_ok _ _ _ _ _ (get_arr_ok _ _ _ Hm)). }
  rewrite H3. cbn [Nat.eqb andb].
  rewrite (bind_ok _ _ _ (img_dataobj img) st) by done.
  rewrite (bind_ok _ _ _ (img_dataobj img) st); [done|].
  apply (get_txyz_shaped_other _ _ m); [done|by rewrite H3].
Qed.

(** The loop over [add_fa] of [fmri_dataset], for 3-d images. *)
Lemma add_fa_run st (fas : list (string * image)) (fvols : list (ndarray A))
      (sel : list bool) sh space (acc : M A (Dataset A)) ds0 :
  Forall2 (fun e f => ic_spatial (img_class e.2) = true /\
                      arrays st !! img_dataobj e.2 = Some f /\
                      length (shape f) = 3 /\
                      length (data f) = length sel) fas fvols ->
  acc st = (Ok ds0, st) ->
  ds_a ds0 !! "mapper" = Some (AMapper (Mapper sh space (Some sel))) ->
  fold_left
    (fun acc fattr_src =>
       let* ds := acc in
       let* value := _load_anyimg env fattr_src.2 true None in
       let* '(v, _, _) := liftO (unpack value) in
       let* v := get_arr v in
       let* mp := liftO (get_mapper ds) in
       let* f := liftO (mapper_forward1 mp v) in
       ret (set_fa ds fattr_src.1 (FValues f)))
    (map (fun e => (e.1, SImg e.2)) fas) acc st
  = (Ok (MkDataset (ds_samples ds0) (ds_sa ds0)
           (fold_left (fun fa ef => <[ef.1.1 := FValues (compress sel (data ef.2))]> fa)
                      (zip fas fvols) (ds_fa ds0))
           (ds_a ds0)), st).
Proof.
  intros HF. revert acc ds0. induction HF as [|e f fas fvols (Hsp&Hf&H3&Hlen) _ IH];
    intros acc ds0 Hacc Hmap.
  - cbn. rewrite Hacc. by destruct ds0.
  - cbn [map fold_left zip zip_with].
    rewrite (IH _ (set_fa ds0 e.1 (FValues (compress sel (data f))))); [reflexivity| |exact Hmap].
    rewrite (bind_ok _ _ _ _ _ Hacc). cbn [snd fst].
    rewrite (bind_ok _ _ _ _ _ (load_anyimg_plain st e.2 f true Hsp Hf H3)).
    rewrite (bind_ok _ _ _ (img_dataobj e.2, img_header e.2, e.2) st) by done.
    rewrite (bind_ok _ _ _ _ _ (get_arr_ok _ _ _ Hf)).
    unfold get_mapper. rewrite Hmap.
    rewrite (bind_ok _ _ _ (Mapper sh space (Some sel)) st) by done.
    unfold mapper_forward1. cbn [mp_slice].
    rewrite bool_decide_eq_true_2 by done.
    rewrite (bind_ok _ _ _ (compress sel (data f)) st) by done.
    reflexivity.
Qed.

(** X16. [fmri_dataset] with a 3-d mask image of the volume's shape
    and additional 3-d feature volumes: the features are the voxels
    where the mask is non-zero, in row-major order, for the samples,
    the voxel indices and every additional feature attribute alike;
    the mapper records the selection.  The mask is loaded without
    dimensionality enforcement, so its own array stays 3-d. *)
Theorem fmri_dataset_masked st img mimg a m h X Y Z T sprefix tprefix dt
        (fas : list (string * image)) (fvols : list (ndarray A)) :
  ic_spatial (img_class img) = true ->
  arrays st !! img_dataobj img = Some a ->
  shape a = [X; Y; Z; T] ->
  wf_array a ->
  headers st !! img_header img = Some h ->
  ic_spatial (img_class mimg) = true ->
  arrays st !! img_dataobj mimg = Some m ->
  shape m = [X; Y; Z] ->
  wf_array m ->
  Forall2 (fun e f => ic_spatial (img_class e.2) = true /\
                      arrays st !! img_dataobj e.2 = Some f /\
                      shape f = [X; Y; Z] /\ wf_array f) fas fvols ->
  (tprefix <> None -> last (hc_get_zooms (hdr_class h) (hdr_fields h)) = Some dt) ->
  let sel := map dnonzero (data m) in
  let space := match sprefix with
               | Some sp => Some (String.append sp "_indices")
               | None => None
               end in
  exists ds st1,
    fmri_dataset env (SImg img) None None (SImg mimg) sprefix tprefix
                 (Some (map (fun e => (e.1, SImg e.2)) fas)) st
      = (Ok ds, st1) /\
    ds_samples ds
      = NdArray [T; count_true sel]
          (concat (map (compress sel)
                       (rows T (size_of [X; Y; Z])
                             (data (np_transpose [3; 0; 1; 2] a))))) /\
    ds_fa ds
      = fold_left (fun fa ef => <[ef.1.1 := FValues (compress sel (data ef.2))]> fa)
          (zip fas fvols)
          (match space with
           | Some name =>
               <[name := FIndices (compress sel (map (unravel [X; Y; Z])
                                                     (seq 0 (size_of [X; Y; Z]))))]> ∅
           | None => ∅
           end) /\
    ds_a ds !! "mapper" = Some (AMapper (Mapper [X; Y; Z] space (Some sel))) /\
    arrays st1 !! img_dataobj mimg = Some m.
Proof.
  intros Hsp Ha Hs Hwf Hh Hmsp Hma Hms Hmwf Hfas Hz sel space.
  assert (H4 : length (shape a) = 4) by (by rewrite Hs).
  destruct (transpose_last_first a X Y Z T Hs Hwf) as (E1&E2&E3).
  set (ta := np_transpose [3; 0; 1; 2] a) in *.
  unfold fmri_dataset.
  rewrite (bind_ok _ _ _ _ _ (load_anyimg_4d env st img a true Hsp Ha H4)).
  fold ta. set (st1 := Store (arrays st ++ [ta]) (headers st) (warnings st)).
  rewrite (bind_ok _ _ _ (length (arrays st), img_header img, img) st1) by done.
  assert (Hma1 : arrays st1 !! img_dataobj mimg = Some m)
    by (by apply lookup_app_l_Some).
  rewrite (bind_ok _ _ _ _ _ (load_anyimg_plain st1 mimg m false Hmsp Hma1
                                ltac:(by rewrite Hms))).
  rewrite (bind_ok _ _ _ (MArr m) st1); last first.
  { by rewrite (bind_ok _ _ _ _ _ (get_arr_ok _ _ _ Hma1)). }
  rewrite (bind_ok _ _ _ ta st1); last first.
  { apply get_arr_ok. simpl. rewrite lookup_app_r by done. by rewrite Nat.sub_diag. }
  rewrite (bind_ok _ _ _ ∅ st1) by done.
  rewrite (bind_ok _ _ _ ∅ st1) by done.
  fold space.
  unfold get_mapped_flatten, np_reshape. cbn [ds_samples ds_sa ds_fa ds_a].
  rewrite E1. cbn [hd tail].
  rewrite bool_decide_eq_true_2 by (rewrite E2; simpl; lia).
  cbn [obind].
  erewrite bind_ok by reflexivity.
  set (fa0 := match space with
              | Some name =>
                  <[name := FIndices (map (unravel [X; Y; Z]) (seq 0 (size_of [X; Y; Z])))]>
                    (∅ : gmap string (fattr A))
              | None => ∅
              end).
  set (dsm := MkDataset
                (NdArray [T; count_true sel]
                   (concat (map (compress sel) (rows T (size_of [X; Y; Z]) (data ta)))))
                ∅ (select_fattr sel <$> fa0)
                (<["mapper" := AMapper (Mapper [X; Y; Z] space (Some sel))]>
                   (<["mapper" := AMapper (Mapper [X; Y; Z] space None)]> ∅))).
  rewrite (bind_ok _ _ _ dsm st1); last first.
  { unfold get_mapper. cbn [ds_a]. rewrite lookup_insert_eq.
    rewrite (bind_ok _ _ _ (Mapper [X; Y; Z] space None) st1) by done.
    unfold mapper_forward1. cbn [mp_slice].
    rewrite (bind_ok _ _ _ (data m) st1) by done.
    unfold select_columns. cbn [ds_samples shape data ds_sa ds_fa ds_a].
    rewrite bool_decide_eq_true_2; last first.
    { subst sel. rewrite length_map. red in Hmwf. rewrite Hmwf, Hms. reflexivity. }
    rewrite lookup_insert_eq. reflexivity. }
  set (fa1 := fold_left
                (fun fa ef => <[ef.1.1 := FValues (compress sel (data ef.2))]> fa)
                (zip fas fvols) (select_fattr sel <$> fa0)).
  rewrite (bind_ok _ _ _ (MkDataset (ds_samples dsm) ∅ fa1 (ds_a dsm)) st1); last first.
  { apply (add_fa_run st1 fas fvols sel [X; Y; Z] space (ret dsm) dsm); [|done|].
    - eapply Forall2_impl; [exact Hfas|]. intros e f (?&Hf&Hfs&Hfw).
      split; [done|]. split; [by apply lookup_app_l_Some|].
      split; [by rewrite Hfs|]. subst sel. rewrite length_map.
      red in Hfw, Hmwf. by rewrite Hfw, Hmwf, Hfs, Hms.
    - subst dsm. cbn [ds_a]. by rewrite lookup_insert_eq. }
  match goal with |- context [strip_nibabel ?d] => set (ds0 := d) end.
  destruct (strip_nibabel_keeps ds0 st1 (img_header img) h (ic_name (img_class img)))
    as (ds1&st2&Hstrip&Hoth1&Hs1&Hsa1&Hfa1&Harr&Hhdrs); try done.
  rewrite (bind_ok _ _ _ _ _ Hstrip).
  assert (Hget : get_hdr (img_header img) st2 = (Ok h, st2)).
  { apply get_hdr_ok. by rewrite Hhdrs. }
  set (zooms := hc_get_zooms (hdr_class h) (hdr_fields h)) in *.
  set (ds2 := match sprefix with
              | Some p =>
                  set_a (set_a ds1 (String.append p "_dim") (AShape [X; Y; Z]))
                        (String.append p "_eldim")
                        (AValue (VSeq (map VFloat (removelast zooms))))
              | None => ds1
              end).
  rewrite (bind_ok _ _ _ ds2 st2); last first.
  { subst ds2. destruct sprefix as [p|]; [|done].
    unfold _get_voxdim, hdr_get_zooms.
    rewrite (bind_ok _ _ _ (removelast zooms) st2); [done|].
    rewrite (bind_ok _ _ _ zooms st2); [done|].
    by rewrite (bind_ok _ _ _ _ _ Hget). }
  assert (Hs2 : ds_samples ds2 = ds_samples ds0 /\ ds_fa ds2 = ds_fa ds0).
  { subst ds2. destruct sprefix; simpl; by rewrite ?Hs1, ?Hfa1. }
  destruct Hs2 as (Hs2&Hfa2).
  set (n := hd 0 (shape (ds_samples ds2))).
  set (ds3 := match tprefix with
              | Some p =>
                  set_sa (set_sa ds2 (String.append p "_indices")
                                 (map (fun i => VInt (Z.of_nat i)) (seq 0 n)))
                         (String.append p "_coords")
                         (map (fun i => VFloat (float_of_nat i * dt)) (seq 0 n))
              | None => ds2
              end).
  rewrite (bind_ok _ _ _ ds3 st2); last first.
  { subst ds3. destruct tprefix as [p|]; [|done].
    unfold _get_dt, hdr_get_zooms.
    rewrite (bind_ok _ _ _ dt st2); [done|].
    rewrite (bind_ok _ _ _ zooms st2); [by rewrite Hz|].
    by rewrite (bind_ok _ _ _ _ _ Hget). }
  assert (H3 : ds_samples ds3 = ds_samples ds2 /\ ds_fa ds3 = ds_fa ds2 /\
               ds_a ds3 = ds_a ds2).
  { subst ds3. by destruct tprefix. }
  destruct H3 as (Hs3&Hfa3&Ha3).
  exists ds3, st2. split; [reflexivity|].
  split; [by rewrite Hs3, Hs2|].
  split.
  { rewrite Hfa3, Hfa2. subst ds0 fa1 fa0. cbn [ds_fa set_a]. f_equal.
    destruct space; [|apply fmap_empty].
    by rewrite fmap_insert, fmap_empty. }
  split.
  { rewrite Ha3. subst ds2.
    assert (Hk1 : ds_a ds1 !! "mapper" = ds_a ds0 !! "mapper") by (by apply Hoth1).
    assert (Hk0 : ds_a ds0 !! "mapper"
                  = Some (AMapper (Mapper [X; Y; Z] space (Some sel)))).
    { subst ds0 dsm. unfold set_a. cbn [ds_a]. by simplify_map_eq. }
    destruct sprefix as [p|]; [|by rewrite Hk1].
    destruct (prefix_key_ne p) as [(?&?&?) (?&?&?)].
    unfold set_a. cbn [ds_a]. rewrite !lookup_insert_ne by done. by rewrite Hk1. }
  rewrite Harr. exact Hma1.
Qed.

(** X17. [fmri_dataset] with [targets] or [chunks] given as a
    sequence whose length is not the number of volumes raises
    [ValueError]; by then the samples have been loaded, so the
    time-major array exists in the store. *)
Theorem fmri_dataset_wrong_length st img a X Y Z T (l : list value) chunks
        sprefix tprefix :
  ic_spatial (img_class img) = true ->
  arrays st !! img_dataobj img = Some a ->
  shape a = [X; Y; Z; T] ->
  length l <> T ->
  let st1 := Store (arrays st ++ [np_transpose [3; 0; 1; 2] a]) (headers st) (warnings st) in
  fmri_dataset env (SImg img) (Some (VSeq l)) chunks SNone sprefix tprefix None st
    = (Raise ValueError, st1) /\
  fmri_dataset env (SImg img) None (Some (VSeq l)) SNone sprefix tprefix None st
    = (Raise ValueError, st1).
Proof.
  intros Hsp Ha Hs Hl st1.
  assert (H4 : length (shape a) = 4) by (by rewrite Hs).
  assert (E1 : shape (np_transpose [3; 0; 1; 2] a) = [T; X; Y; Z]).
  { unfold np_transpose. cbn [shape]. by rewrite Hs. }
  set (ta := np_transpose [3; 0; 1; 2] a) in *.
  assert (Hexp : forall name, _expand_attribute (VSeq l) T name = Raise ValueError).
  { intros name. unfold _expand_attribute. by rewrite bool_decide_eq_false_2. }
  split; unfold fmri_dataset;
    rewrite (bind_ok _ _ _ _ _ (load_anyimg_4d env st img a true Hsp Ha H4));
    fold ta; fold st1;
    rewrite (bind_ok _ _ _ (length (arrays st), img_header img, img) st1) by done;
    rewrite (bind_ok _ _ _ None st1) by done;
    rewrite (bind_ok _ _ _ MNone st1) by done;
    (rewrite (bind_ok _ _ _ ta st1);
       [|apply get_arr_ok; simpl; rewrite lookup_app_r by done; by rewrite Nat.sub_diag]);
    rewrite E1; cbn [shape0].
  - apply bind_raise. rewrite (bind_ok _ _ _ T st1) by done.
    apply bind_raise. by rewrite Hexp.
  - rewrite (bind_ok _ _ _ ∅ st1) by done.
    apply bind_raise. rewrite (bind_ok _ _ _ T st1) by done.
    apply bind_raise. by rewrite Hexp.
Qed.
End MaskMore.

Lemma fmri_dataset_masked_witness :
  exists ds st1,
    fmri_dataset ex_env (SImg ex_img4) None None (SImg ex_mask_img)
                 (Some "voxel") (Some "time")
                 (Some (map (fun e => (e.1, SImg e.2)) [("weight", ex_mask_img)]))
                 ex_store_mask
      = (Ok ds, st1) /\
    ds_samples ds
      = NdArray [3; count_true (map dnonzero (data ex_mask))]
          (concat (map (compress (map dnonzero (data ex_mask)))
                       (rows 3 (size_of [2; 1; 2])
                             (data (np_transpose [3; 0; 1; 2] ex_arr4))))) /\
    ds_fa ds
      = fold_left (fun fa ef =>
                     <[ef.1.1 := FValues (compress (map dnonzero (data ex_mask))
                                                   (data ef.2))]> fa)
          (zip [("weight", ex_mask_img)] [ex_mask])
          (<["voxel_indices" :=
               FIndices (compress (map dnonzero (data ex_mask))
                                  (map (unravel [2; 1; 2]) (seq 0 (size_of [2; 1; 2]))))]> ∅) /\
    ds_a ds !! "mapper"
      = Some (AMapper (Mapper [2; 1; 2] (Some "voxel_indices")
                              (Some (map dnonzero (data ex_mask))))) /\
    arrays st1 !! img_dataobj ex_mask_img = Some ex_mask.
Proof.
  apply (fmri_dataset_masked ex_env ex_store_mask ex_img4 ex_mask_img ex_arr4 ex_mask
           ex_header 2 1 2 3 (Some "voxel") (Some "time") 2%float
           [("weight", ex_mask_img)] [ex_mask]); try reflexivity.
  repeat constructor.
Defined.

Lemma fmri_dataset_wrong_length_witness :
  length [VInt 0; VInt 1] <> 3 /\
  let st1 := Store (arrays ex_store ++ [np_transpose [3; 0; 1; 2] ex_arr4])
                   (headers ex_store) (warnings ex_store) in
  fmri_dataset ex_env (SImg ex_img4) (Some (VSeq [VInt 0; VInt 1])) None SNone
               (Some "voxel") (Some "time") None ex_store
    = (Raise ValueError, st1) /\
  fmri_dataset ex_env (SImg ex_img4) None (Some (VSeq [VInt 0; VInt 1])) SNone
               (Some "voxel") (Some "time") None ex_store
    = (Raise ValueError, st1).
Proof.
  split; [discriminate|].
  apply (fmri_dataset_wrong_length ex_env ex_store ex_img4 ex_arr4 2 1 2 3
           [VInt 0; VInt 1] None (Some "voxel") (Some "time")); try reflexivity.
  discriminate.
Defined.

(** ** Sources that cannot be used *)

Section Unusable.
Context {A : Type} `{Dtype A}.
Variable env : environment A.
Implicit Types (st : store A) (a : ndarray A).

(** X18. [fmri_dataset] on samples that the loader does not
    recognise ([None], a bare array, an empty list, an image that is
    not a spatial image): the loader returns [None] although it is
    called with [ensure=True], and unpacking that result raises
    [TypeError]; nothing has been changed by then. *)
Theorem fmri_dataset_unloadable samples targets chunks mask sprefix tprefix add_fa st :
  samples = SNone \/ (exists arr, samples = SArray arr) \/ samples = SList [] \/
  (exists img, samples = SImg img /\ ic_spatial (img_class img) = false) ->
  fmri_dataset env samples targets chunks mask sprefix tprefix add_fa st
  = (Raise TypeError, st).
Proof.
  intros Hs. unfold fmri_dataset.
  rewrite (bind_ok _ _ _ None st); [done|].
  rewrite load_anyimg_single
    by (destruct Hs as [-> | [[arr ->] | [-> | (img&->&_)]]]; done).
  rewrite (bind_ok _ _ _ None st); [done|].
  destruct Hs as [-> | [[arr ->] | [-> | (img&->&Hsp)]]]; try done.
  unfold _img2data. rewrite (bind_ok _ _ _ (Some img) st) by done. by rewrite Hsp.
Qed.

(** X19. A list of 4-d images of which one differs from the first in
    its spatial shape is refused with [ValueError], by the shape check
    when [__debug__] is on and by [np.vstack] otherwise; the time-major
    arrays made for the entries stay behind in the store. *)
Theorem load_anyimg_list_shape_mismatch st ensure (img0 : image) (imgs : list image)
        (a0 : ndarray A) (vols : list (ndarray A)) (b : ndarray A) :
  Forall2 (fun img a => ic_spatial (img_class img) = true /\
                        arrays st !! img_dataobj img = Some a /\
                        length (shape a) = 4) (img0 :: imgs) (a0 :: vols) ->
  b ∈ vols ->
  take 3 (shape b) <> take 3 (shape a0) ->
  _load_anyimg env (SList (map SImg (img0 :: imgs))) ensure (Some 4%Z) st
  = (Raise ValueError,
     Store (arrays st ++ map (np_transpose [3; 0; 1; 2]) (a0 :: vols))
           (headers st) (warnings st)).
Proof.
  intros HF Hb Hne.
  set (runs := map (np_transpose [3; 0; 1; 2]) (a0 :: vols)).
  assert (Htail : forall a, length (shape a) = 4 ->
            tail (shape (np_transpose [3; 0; 1; 2] a)) = take 3 (shape a)).
  { intros [sh d] H4. cbn in H4. unfold np_transpose. cbn [shape].
    destruct sh as [|X [|Y [|Z [|T [|]]]]]; try discriminate H4. reflexivity. }
  assert (H4s : Forall (fun a => length (shape a) = 4) (a0 :: vols)).
  { clear -HF. revert HF. generalize (img0 :: imgs) (a0 :: vols). intros l1 l2 HF.
    induction HF as [|? ? ? ? (?&?&?)]; constructor; done. }
  pose proof (for_list_load_4d env ensure (img0 :: imgs) (a0 :: vols) st HF) as Hload.
  fold runs in Hload.
  set (st1 := Store (arrays st ++ runs) (headers st) (warnings st)) in *.
  set (srcs := imap (fun k img => Some (length (arrays st) + k, img_header img, img))
                    (img0 :: imgs)) in *.
  set (arr_of := fun s : option (loc * loc * image) =>
                   match s with
                   | Some (d, _, _) => default (NdArray [] []) (arrays st1 !! d)
                   | None => NdArray [] []
                   end).
  assert (Hsrc : forall s, s ∈ srcs ->
            exists k img r, s = Some (length (arrays st) + k, img_header img, img) /\
                            arrays st1 !! (length (arrays st) + k) = Some r).
  { intros s (k&img&->&Hk)%elem_of_lookup_imap.
    destruct (Forall2_lookup_l _ _ _ _ _ HF Hk) as (c&Hc&_).
    exists k, img, (np_transpose [3; 0; 1; 2] c). split; [done|].
    cbn [st1 arrays]. rewrite lookup_app_r by lia.
    replace (length (arrays st) + k - length (arrays st)) with k by lia.
    subst runs. by rewrite list_lookup_fmap, Hc. }
  assert (Harrs : map arr_of srcs = runs).
  { apply list_eq. intros k. rewrite list_lookup_fmap. subst srcs.
    rewrite list_lookup_imap.
    destruct ((img0 :: imgs) !! k) as [img|] eqn:Hk.
    - destruct (Forall2_lookup_l _ _ _ _ _ HF Hk) as (c&Hc&_).
      cbn [fmap option_fmap option_map arr_of].
      cbn [st1 arrays]. rewrite lookup_app_r by lia.
      replace (length (arrays st) + k - length (arrays st)) with k by lia.
      subst runs. rewrite list_lookup_fmap, Hc. reflexivity.
    - cbn. symmetry. apply lookup_ge_None_2. cbn [length]. rewrite length_map.
      apply lookup_ge_None_1 in Hk. pose proof (Forall2_length _ _ _ HF) as HL.
      cbn [length] in HL, Hk. lia. }
  cbn [_load_anyimg map].
  change (SImg img0 :: map SImg imgs) with (map (@SImg A) (img0 :: imgs)).
  apply bind_raise.
  rewrite (bind_ok _ _ _ _ _ Hload).
  destruct (py_debug env).
  - apply bind_raise.
    erewrite bind_ok; last first.
    { apply (for_list_reads _ _ (fun s => tail (shape (arr_of s)))). intros s Hs.
      destruct (Hsrc s Hs) as (k&img&r&->&Hr).
      cbn beta. cbn [unpack].
      rewrite (bind_ok _ _ _ (length (arrays st) + k, img_header img, img) st1) by done.
      rewrite (bind_ok _ _ _ _ _ (get_arr_ok _ _ _ Hr)).
      cbn [arr_of]. by rewrite Hr. }
    rewrite <- (map_map arr_of (fun r => tail (shape r))), Harrs.
    match goal with |- context [forallb ?P ?l] => destruct (forallb P l) eqn:E end; [|done].
    exfalso. rewrite forallb_forall in E.
    specialize (E (tail (shape (np_transpose [3; 0; 1; 2] b)))).
    rewrite bool_decide_eq_true in E. subst runs. cbn [map head] in E.
    apply Forall_cons in H4s as [H40 H4s]. rewrite Forall_forall in H4s.
    rewrite !Htail in E by auto. apply Hne.
    assert (Some (take 3 (shape b)) = Some (take 3 (shape a0))) as [= ->]; [|done].
    apply E. right. apply in_map_iff. exists (np_transpose [3; 0; 1; 2] b).
    split; [by apply Htail, H4s|]. apply in_map, list_elem_of_In, Hb.
  - rewrite (bind_ok _ _ _ tt st1) by done.
    erewrite bind_ok; last first.
    { apply (for_list_reads _ _ arr_of). intros s Hs.
      destruct (Hsrc s Hs) as (k&img&r&->&Hr).
      cbn beta. cbn [unpack].
      rewrite (bind_ok _ _ _ (length (arrays st) + k, img_header img, img) st1) by done.
      rewrite (get_arr_ok _ _ _ Hr). cbn [arr_of]. by rewrite Hr. }
    rewrite Harrs. apply bind_raise. unfold liftO. f_equal.
    unfold np_vstack.
    assert (E2 : map np_atleast_2d runs = runs).
    { subst runs. clear -H4s. induction H4s as [|c l Hc _ IH]; [done|].
      cbn [map]. rewrite IH. reflexivity. }
    rewrite E2. subst runs. cbn [map].
    match goal with |- context [forallb ?P ?l] => destruct (forallb P l) eqn:E end; [|done].
    exfalso. rewrite forallb_forall in E.
    specialize (E (np_transpose [3; 0; 1; 2] b)).
    rewrite bool_decide_eq_true in E.
    apply Forall_cons in H4s as [H40 H4s]. rewrite Forall_forall in H4s.
    rewrite !Htail in E by auto. apply Hne, E.
    apply in_map, list_elem_of_In, Hb.
Qed.
End Unusable.

Lemma fmri_dataset_unloadable_witness :
  fmri_dataset ex_env (SArray ex_arr3) None None SNone (Some "voxel") (Some "time") None
               ex_store
  = (Raise TypeError, ex_store).
Proof.
  apply (fmri_dataset_unloadable ex_env (SArray ex_arr3)).
  right. left. by exists ex_arr3.
Defined.

Lemma load_anyimg_list_shape_mismatch_witness :
  _load_anyimg ex_env (SList (map SImg [ex_img4; ex_img5])) true (Some 4%Z)
               (Store [ex_arr4; ex_arr3; NdArray [1; 2; 2; 3] (data ex_arr4)]
                      (headers ex_store) [])
  = (Raise ValueError,
     Store ([ex_arr4; ex_arr3; NdArray [1; 2; 2; 3] (data ex_arr4)]
              ++ map (np_transpose [3; 0; 1; 2])
                     [ex_arr4; NdArray [1; 2; 2; 3] (data ex_arr4)])
           (headers ex_store) []).
Proof.
  apply (load_anyimg_list_shape_mismatch ex_env
           (Store [ex_arr4; ex_arr3; NdArray [1; 2; 2; 3] (data ex_arr4)]
                  (headers ex_store) [])
           true ex_img4 [ex_img5] ex_arr4 [NdArray [1; 2; 2; 3] (data ex_arr4)]
           (NdArray [1; 2; 2; 3] (data ex_arr4))).
  - repeat constructor.
  - left.
  - discriminate.
Defined.
